(** * A model of the IFSC directory synchroniser ([main.py])

    The script polls a status page for an "updated as on <date>" marker,
    downloads the spreadsheets the page links to, and inserts the rows that
    are not yet in an Appwrite collection, reporting progress over Telegram.

    The development embeds the Python functions of [main.py] as functions in
    a state-and-exception monad over an explicit [world]: the document
    collection, the outcome schedules of the remote collaborators (document
    store, Telegram, HTTP) and the clock.  Every remote call emits an
    [event], so statements about the order of operations are statements
    about lists of events.

    The Python libraries are modelled where the script's own data lives:
    the regular expression and [strptime] on ASCII text, [fromisoformat] on
    the spellings of its documented grammar (those [isoformat] writes among
    them, with or without a UTC offset).  What they make of other texts
    (Unicode letters and digits, other ISO 8601 spellings) depends on the
    version of Python and of its Unicode tables and is left open: it is a
    part of the world, the [library], and every statement holds whatever
    it is.  A datetime with a UTC offset is kept apart from a naive one,
    since the comparison of [main] raises on the pair.

    Left out: logging, which has no effect on the world, and the scheduling
    loop that calls [run_scheduled_task] every thirty days.  Time is what
    [datetime.now()] reads; how long an operation takes is not modelled. *)

From Stdlib Require Import Ascii String List Arith ZArith Lia Bool.
From stdpp Require Import gmap strings list fin_maps pretty.

Open Scope string_scope.
Open Scope list_scope.
Open Scope nat_scope.

#[local] Arguments String.append !_ _ / : simpl nomatch.

(** ** Text: the [str] operations the script relies on

    A text is the sequence of the bytes of its UTF-8 encoding.  Tests for a
    substring, a suffix or a separator are the same on bytes and on code
    points.  The character classes of [re] ([\w], [\d], [\s]) and the
    letter case are those of the ASCII range, and the script below applies
    them to ASCII texts only. *)

Module Text.

(** Every character of the text is in the ASCII range. *)
Definition is_ascii_char (c : ascii) : bool := nat_of_ascii c <? 128.

Definition in_range (lo hi : nat) (c : ascii) : bool :=
  let n := nat_of_ascii c in (lo <=? n) && (n <=? hi).

(** [\d], on ASCII *)
Definition is_digit (c : ascii) : bool := in_range 48 57 c.

Definition is_upper (c : ascii) : bool := in_range 65 90 c.

Definition is_lower (c : ascii) : bool := in_range 97 122 c.

(** [\w], on ASCII *)
Definition is_word (c : ascii) : bool :=
  is_digit c || is_upper c || is_lower c || Ascii.eqb c "_".

(** [\s], on ASCII *)
Definition is_space (c : ascii) : bool :=
  Ascii.eqb c " " || in_range 9 13 c || in_range 28 31 c.

Definition lower_char (c : ascii) : ascii :=
  if is_upper c then ascii_of_nat (nat_of_ascii c + 32) else c.

Fixpoint lower (s : string) : string :=
  match s with
  | EmptyString => EmptyString
  | String c s' => String (lower_char c) (lower s')
  end.

Fixpoint all_chars (p : ascii -> bool) (s : string) : bool :=
  match s with
  | EmptyString => true
  | String c s' => p c && all_chars p s'
  end.

Definition is_ascii (s : string) : bool := all_chars is_ascii_char s.

(** The longest prefix of [s] whose characters satisfy [p], and the rest. *)
Fixpoint span (p : ascii -> bool) (s : string) : string * string :=
  match s with
  | EmptyString => (EmptyString, EmptyString)
  | String c s' =>
      if p c then let (a, b) := span p s' in (String c a, b)
      else (EmptyString, s)
  end.

(** [s[n:]] *)
Fixpoint drop_chars (n : nat) (s : string) : string :=
  match n, s with
  | S n', String _ s' => drop_chars n' s'
  | _, _ => s
  end.

(** [s.startswith(p)] *)
Fixpoint starts_with (p s : string) : bool :=
  match p, s with
  | EmptyString, _ => true
  | String a p', String b s' => Ascii.eqb a b && starts_with p' s'
  | String _ _, EmptyString => false
  end.

(** [re.search] of a pattern without metacharacters: substring test. *)
Fixpoint contains (p s : string) : bool :=
  starts_with p s ||
  match s with
  | EmptyString => false
  | String _ s' => contains p s'
  end.

(** [s.endswith(suffix)] *)
Fixpoint ends_with (suffix s : string) : bool :=
  String.eqb s suffix ||
  match s with
  | EmptyString => false
  | String _ s' => ends_with suffix s'
  end.

(** [s.split(sep)] for a one-character separator: never the empty list. *)
Fixpoint split (sep : ascii) (s : string) : list string :=
  match s with
  | EmptyString => [EmptyString]
  | String c s' =>
      if Ascii.eqb c sep then EmptyString :: split sep s'
      else match split sep s' with
           | [] => [String c EmptyString]
           | x :: xs => String c x :: xs
           end
  end.

(** [parts[-1]] of a list that [split] returned. *)
Definition last_part (parts : list string) : string :=
  List.last parts EmptyString.

Definition digit_value (c : ascii) : Z := Z.of_nat (nat_of_ascii c) - 48.

Definition digit_char (n : Z) : ascii := ascii_of_nat (Z.to_nat (48 + n)).

(** [int(s)] on a string of decimal digits. *)
Fixpoint int_of_digits_from (acc : Z) (s : string) : Z :=
  match s with
  | EmptyString => acc
  | String c s' => int_of_digits_from (10 * acc + digit_value c) s'
  end.

Definition int_of_digits (s : string) : Z := int_of_digits_from 0 s.

End Text.

(** ** Dates: [datetime.datetime], naive (no time zone) *)

Record datetime := mk_datetime {
  year : Z; month : Z; day : Z;
  hour : Z; minute : Z; second : Z; microsecond : Z
}.

#[global] Instance datetime_eq_dec : EqDecision datetime.
Proof. solve_decision. Defined.

(** What [datetime.fromisoformat] returns: a naive datetime, or one with a
    UTC offset.  The script only ever compares the latter with a naive
    datetime, which raises whatever the offset is. *)
Inductive stamp :=
| Naive (t : datetime)
| Aware.

#[global] Instance stamp_eq_dec : EqDecision stamp.
Proof. solve_decision. Defined.

Module Calendar.

Import Text.

#[local] Open Scope Z_scope.

Definition month_names : list string :=
  ["January"; "February"; "March"; "April"; "May"; "June"; "July";
   "August"; "September"; "October"; "November"; "December"].

(** [calendar.month_name[m]], months counted from 1. *)
Definition month_name (m : Z) : string :=
  nth (Z.to_nat (m - 1)) month_names EmptyString.

Definition is_leap (y : Z) : bool :=
  (y mod 4 =? 0) && (negb (y mod 100 =? 0) || (y mod 400 =? 0)).

Definition days_in_month (y m : Z) : Z :=
  match m with
  | 1 | 3 | 5 | 7 | 8 | 10 | 12 => 31
  | 4 | 6 | 9 | 11 => 30
  | 2 => if is_leap y then 29 else 28
  | _ => 0
  end.

(** The range check of the [datetime] constructor (MINYEAR = 1,
    MAXYEAR = 9999). *)
Definition valid_date (y m d : Z) : bool :=
  (1 <=? y) && (y <=? 9999) && (1 <=? m) && (m <=? 12) &&
  (1 <=? d) && (d <=? days_in_month y m).

(** [datetime(y, m, d)]: midnight of a calendar day. *)
Definition midnight (y m d : Z) : datetime :=
  mk_datetime y m d 0 0 0 0.

(** Ordering of naive datetimes: lexicographic on the seven fields. *)
Definition to_tuple (t : datetime) : list Z :=
  [year t; month t; day t; hour t; minute t; second t; microsecond t].

Fixpoint lex_lt (a b : list Z) : bool :=
  match a, b with
  | x :: a', y :: b' => (x <? y) || ((x =? y) && lex_lt a' b')
  | [], _ :: _ => true
  | _, _ => false
  end.

(** [a > b] *)
Definition gt (a b : datetime) : bool := lex_lt (to_tuple b) (to_tuple a).

(** Zero-padded decimal of width 2, 4 and 6. *)
Definition dec2 (n : Z) : string :=
  String (digit_char (n / 10 mod 10)) (String (digit_char (n mod 10)) EmptyString).

Definition dec4 (n : Z) : string := dec2 (n / 100) +:+ dec2 n.

Definition dec6 (n : Z) : string := dec2 (n / 10000) +:+ dec4 n.

Definition format_with (sep : string) (t : datetime) : string :=
  dec4 (year t) +:+ "-" +:+ dec2 (month t) +:+ "-" +:+ dec2 (day t) +:+ sep +:+
  dec2 (hour t) +:+ ":" +:+ dec2 (minute t) +:+ ":" +:+ dec2 (second t) +:+
  (if microsecond t =? 0 then EmptyString else "." +:+ dec6 (microsecond t)).

(** [t.isoformat()] *)
Definition isoformat (t : datetime) : string := format_with "T" t.

(** [str(t)], as an f-string renders a datetime. *)
Definition str (t : datetime) : string := format_with " " t.

(** Reading [n] decimal digits off the front of a string. *)
Fixpoint take_digits (n : nat) (s : string) : option (string * string) :=
  match n with
  | O => Some (EmptyString, s)
  | S n' =>
      match s with
      | String c s' =>
          if is_digit c then
            match take_digits n' s' with
            | Some (ds, r) => Some (String c ds, r)
            | None => None
            end
          else None
      | EmptyString => None
      end
  end.

Definition expect (c : ascii) (s : string) : option string :=
  match s with
  | String c' s' => if Ascii.eqb c c' then Some s' else None
  | EmptyString => None
  end.

Definition number (n : nat) (s : string) : option (Z * string) :=
  match take_digits n s with
  | Some (ds, r) => Some (int_of_digits ds, r)
  | None => None
  end.

Definition valid_time (h mi s : Z) : bool :=
  (h <? 24) && (mi <? 60) && (s <? 60).

(** The fraction of a second: six digits, or three (milliseconds). *)
Definition parse_fraction (s : string) : option (Z * string) :=
  match number 6%nat s with
  | Some (us, r) => Some (us, r)
  | None =>
      match number 3%nat s with
      | Some (ms, r) => Some (ms * 1000, r)
      | None => None
      end
  end.

(** [HH[:MM[:SS[.fff[fff]]]]] off the front of a text: hour, minute,
    second, microsecond and the rest. *)
Definition parse_clock (s : string) : option (Z * Z * Z * Z * string) :=
  '(h, s) ← number 2%nat s;
  match expect ":" s with
  | None => Some (h, 0, 0, 0, s)
  | Some s =>
      '(mi, s) ← number 2%nat s;
      match expect ":" s with
      | None => Some (h, mi, 0, 0, s)
      | Some s =>
          '(sec, s) ← number 2%nat s;
          match expect "." s with
          | None => Some (h, mi, sec, 0, s)
          | Some s =>
              '(us, s) ← parse_fraction s;
              Some (h, mi, sec, us, s)
          end
      end
  end.

(** A UTC offset after its sign: [HH:MM], [HH:MM:SS] or
    [HH:MM:SS.ffffff], to the end of the text. *)
Definition is_offset (s : string) : bool :=
  match number 2%nat s with
  | Some (h, String ":" s) =>
      match number 2%nat s with
      | Some (mi, s) =>
          (h <? 24) && (mi <? 60) &&
          match s with
          | EmptyString => true
          | String ":" s =>
              match number 2%nat s with
              | Some (sec, s) =>
                  (sec <? 60) &&
                  match s with
                  | EmptyString => true
                  | String "." s =>
                      match number 6%nat s with
                      | Some (_, EmptyString) => true
                      | _ => false
                      end
                  | _ => false
                  end
              | None => false
              end
          | _ => false
          end
      | None => false
      end
  | _ => false
  end.

(** [datetime.fromisoformat(s)] on the spellings that every version of
    Python with [fromisoformat] reads alike:
    [YYYY-MM-DD[*HH[:MM[:SS[.fff[fff]]]][+HH:MM[:SS[.ffffff]]]]], [*] being
    any one character.  Without an offset the result is a naive datetime,
    with one it is aware.  [None] stands for any other text: what
    [datetime.fromisoformat] makes of those (an error, or a datetime in the
    versions that read more of ISO 8601) is not decided here, see
    [library]. *)
Definition parse_isoformat (s : string) : option stamp :=
  '(y, s) ← number 4%nat s;
  s ← expect "-" s;
  '(m, s) ← number 2%nat s;
  s ← expect "-" s;
  '(d, s) ← number 2%nat s;
  if negb (valid_date y m d) then None else
  match s with
  | EmptyString => Some (Naive (midnight y m d))
  | String _ s =>
      '(h, mi, sec, us, s) ← parse_clock s;
      if negb (valid_time h mi sec) then None else
      match s with
      | EmptyString => Some (Naive (mk_datetime y m d h mi sec us))
      | String sign s =>
          if (Ascii.eqb sign "+" || Ascii.eqb sign "-") && is_offset s
          then Some Aware
          else None
      end
  end.

(** *** [datetime.strptime(s, '%B %d, %Y')]

    [strptime] turns the format into a regular expression, matched
    case-insensitively against the whole string: the month names of the
    locale (English here) as alternatives, [\s+] for each blank of the
    format, the day as [3[0-1]|[1-2]\d|0[1-9]|[1-9]| [1-9]] and the year as
    [\d\d\d\d]; then it builds the date, which checks the ranges.

    No month name is a prefix of another and the day is followed by a
    comma, so at most one way of matching exists and the search below
    follows it: the first month name that prefixes the text, the whole run
    of white space, the first day alternative that applies.

    This is [strptime] on ASCII text, which is all the script below gives
    it. *)

Fixpoint parse_month_from (i : Z) (names : list string) (s : string)
  : option (Z * string) :=
  match names with
  | [] => None
  | name :: names' =>
      if starts_with (lower name) (lower s)
      then Some (i, drop_chars (String.length name) s)
      else parse_month_from (i + 1) names' s
  end.

Definition parse_month (s : string) : option (Z * string) :=
  parse_month_from 1 month_names s.

(** [\s+] *)
Definition skip_spaces1 (s : string) : option string :=
  match span is_space s with
  | (EmptyString, _) => None
  | (_, r) => Some r
  end.

(** The day alternatives that start on a digit ([ [1-9]] can only apply
    after the white space before the day, which [\s+] has then consumed). *)
Definition parse_day (s : string) : option (Z * string) :=
  match s with
  | String a (String b r) =>
      if is_digit a && is_digit b then
        let n := 10 * digit_value a + digit_value b in
        if (1 <=? n) && (n <=? 31) then Some (n, r)
        else if negb (digit_value a =? 0) then Some (digit_value a, String b r)
        else None
      else if is_digit a && negb (digit_value a =? 0)
      then Some (digit_value a, String b r)
      else None
  | String a EmptyString =>
      if is_digit a && negb (digit_value a =? 0)
      then Some (digit_value a, EmptyString)
      else None
  | EmptyString => None
  end.

Definition strptime_B_d_Y (s : string) : option datetime :=
  '(m, s) ← parse_month s;
  s ← skip_spaces1 s;
  '(d, s) ← parse_day s;
  s ← expect "," s;
  s ← skip_spaces1 s;
  '(y, s) ← number 4%nat s;
  match s with
  | EmptyString => if valid_date y m d then Some (midnight y m d) else None
  | _ => None
  end.

End Calendar.

(** ** The date pattern of [get_update_date]

    [re.search(r'(\w+ \d+, \d{4})', text).group(1)] on ASCII text.  The
    blank after [\w+]
    is not a word character and the comma after [\d+] is not a digit, so a
    match at a given position takes the whole run of word characters and
    the whole run of digits; [re.search] returns the match at the leftmost
    position that has one. *)

Module DatePattern.

Import Text.

Definition match_at (s : string) : option string :=
  match span is_word s with
  | (EmptyString, _) => None
  | (w, String " " r) =>
      match span is_digit r with
      | (EmptyString, _) => None
      | (d, String "," (String " " r')) =>
          match Calendar.take_digits 4 r' with
          | Some (y, _) => Some (w +:+ " " +:+ d +:+ ", " +:+ y)
          | None => None
          end
      | _ => None
      end
  | _ => None
  end.

Fixpoint search (s : string) : option string :=
  match match_at s with
  | Some m => Some m
  | None =>
      match s with
      | EmptyString => None
      | String _ s' => search s'
      end
  end.

End DatePattern.

(** ** Python values, exceptions, rows and documents *)

(** The cell values [pandas] puts in a row and the values of a stored
    document.  [VOther] stands for any other object (a float, NaN, a
    timestamp), represented by the text [str()] gives for it: [str()] is the
    only operation the script applies to a cell. *)
Inductive pyval :=
| VStr (s : string)
| VInt (z : Z)
| VBool (b : bool)
| VNone
| VOther (text : string).

#[global] Instance pyval_eq_dec : EqDecision pyval.
Proof. solve_decision. Defined.

(** [str(v)] *)
Definition py_str (v : pyval) : string :=
  match v with
  | VStr s => s
  | VInt z => pretty z
  | VBool true => "True"
  | VBool false => "False"
  | VNone => "None"
  | VOther text => text
  end.

(** A dict with string keys: a spreadsheet row (column name to cell) or a
    document (attribute to value). *)
Abbreviation dict := (gmap string pyval).

Inductive exn :=
| RequestException      (* requests: connection error, timeout *)
| HTTPError             (* raise_for_status *)
| AttributeError        (* None.group(1) *)
| ValueError            (* strptime, fromisoformat *)
| KeyError
| TypeError
| AppwriteException     (* any failure of a document-store call *)
| ApiException.         (* any failure of bot.send_message *)

Inductive res (A : Type) :=
| Ok (a : A)
| Raise (e : exn).

Arguments Ok {A} a.
Arguments Raise {A} e.

(** ** The world outside the process *)

(** What BeautifulSoup sees in a page: its text nodes and the [href] of its
    [<a>] elements ([None] when the attribute is absent), both in document
    order. *)
Record soup := mk_soup {
  strings : list string;
  anchors : list (option string)
}.

(** A response body, described by what the two parsers make of it:
    BeautifulSoup (which accepts any bytes) and [pandas.read_excel]
    ([None] when it raises). *)
Record body := mk_body {
  html : soup;
  excel : option (list dict)
}.

Inductive http_result :=
| ConnectionFailed
| Response (status_code : nat) (content : body).

(** The outcomes of the coming calls to a collaborator: first those of
    [upcoming], from then on always [thereafter]. *)
Record schedule (A : Type) := mk_schedule {
  upcoming : list A;
  thereafter : A
}.

Arguments mk_schedule {A} upcoming thereafter.
Arguments upcoming {A} s.
Arguments thereafter {A} s.

Definition next {A} (s : schedule A) : A * schedule A :=
  match upcoming s with
  | [] => (thereafter s, s)
  | x :: xs => (x, mk_schedule xs (thereafter s))
  end.

Definition always {A} (x : A) : schedule A := mk_schedule [] x.

(** What the Python libraries make of the texts that are not modelled
    above.  Both are functions of the text alone, fixed by the Python
    installation; nothing below depends on what they are. *)
Record library := mk_library {
  (* [re.search(r'(\w+ \d+, \d{4})', text).group(1)] followed by the
     matching of [strptime(_, '%B %d, %Y')], on a text with characters
     outside ASCII: the year, month and day [strptime] builds the date
     from, or [None] when either raises *)
  foreign_date : string -> option (Z * Z * Z);
  (* [datetime.fromisoformat(text)] on a text that is not one of the
     spellings [Calendar.parse_isoformat] reads; [None] when it raises *)
  foreign_iso : string -> option stamp
}.

Record world := mk_world {
  docs : gmap string dict;          (* the collection, by document id *)
  store_faults : schedule bool;     (* true: the store call raises *)
  bot_faults : schedule bool;       (* true: bot.send_message raises *)
  web : schedule http_result;       (* what requests.get meets *)
  clock : schedule datetime;        (* what datetime.now() reads *)
  python : library                  (* the libraries, where not modelled *)
}.

Definition set_docs (d : gmap string dict) (w : world) : world :=
  mk_world d (store_faults w) (bot_faults w) (web w) (clock w) (python w).

Definition set_store_faults (f : schedule bool) (w : world) : world :=
  mk_world (docs w) f (bot_faults w) (web w) (clock w) (python w).

Definition set_bot_faults (f : schedule bool) (w : world) : world :=
  mk_world (docs w) (store_faults w) f (web w) (clock w) (python w).

Definition set_web (r : schedule http_result) (w : world) : world :=
  mk_world (docs w) (store_faults w) (bot_faults w) r (clock w) (python w).

Definition set_clock (c : schedule datetime) (w : world) : world :=
  mk_world (docs w) (store_faults w) (bot_faults w) (web w) c (python w).

(** What the process does to the outside, in order. *)
Inductive event :=
| HttpGet (url : string)
| ListDocuments (attribute value : string) (total : option nat)
| CreateDocument (id : string) (data : dict) (ok : bool)
| UpdateDocument (id : string) (data : dict) (ok : bool)
| GetDocument (id : string) (ok : bool)
| SendMessage (text : string) (ok : bool)
| Sleep (seconds : nat).

(** ** The monad: state, exceptions, emitted events *)

Record outcome (A : Type) := mk_outcome {
  result : res A;
  final : world;
  emitted : list event
}.

Arguments mk_outcome {A} result final emitted.
Arguments result {A} o.
Arguments final {A} o.
Arguments emitted {A} o.

Definition M (A : Type) : Type := world -> outcome A.

Definition ret {A} (a : A) : M A := fun w => mk_outcome (Ok a) w [].

Definition raise {A} (e : exn) : M A := fun w => mk_outcome (Raise e) w [].

Definition bind {A B} (m : M A) (k : A -> M B) : M B := fun w =>
  let o := m w in
  match result o with
  | Ok a =>
      let o' := k a (final o) in
      mk_outcome (result o') (final o') (emitted o ++ emitted o')
  | Raise e => mk_outcome (Raise e) (final o) (emitted o)
  end.

(** [try: m  except Exception as e: handler e] *)
Definition try_except {A} (m : M A) (handler : exn -> M A) : M A := fun w =>
  let o := m w in
  match result o with
  | Ok a => o
  | Raise e =>
      let o' := handler e (final o) in
      mk_outcome (result o') (final o') (emitted o ++ emitted o')
  end.

Definition emit (e : event) : M unit := fun w => mk_outcome (Ok tt) w [e].

(** A computation without effect. *)
Definition lift {A} (r : res A) : M A := fun w => mk_outcome r w [].

Notation "'let!' x := m 'in' k" := (bind m (fun x => k))
  (at level 10, x name, m at level 100, k at level 200, only parsing).

(** ** The collaborators

    Each call to a remote collaborator takes the next outcome of its
    schedule and emits one event. *)

Module SDK.

(** [requests.get(url, timeout=10)] *)
Definition requests_get (url : string) : M (nat * body) := fun w =>
  let (r, rest) := next (web w) in
  match r with
  | ConnectionFailed =>
      mk_outcome (Raise RequestException) (set_web rest w) [HttpGet url]
  | Response code content =>
      mk_outcome (Ok (code, content)) (set_web rest w) [HttpGet url]
  end.

(** The status codes for which [raise_for_status] raises: 4xx and 5xx. *)
Definition error_status (code : nat) : bool :=
  (400 <=? code) && (code <? 600).

#[global] Arguments error_status : simpl never.

(** [response.raise_for_status()] *)
Definition raise_for_status (response : nat * body) : M unit :=
  if error_status response.1 then raise HTTPError else ret tt.

(** [Query.equal(attribute, value)] on one document. *)
Definition query_equal (attribute value : string) (entry : string * dict) : Prop :=
  entry.2 !! attribute = Some (VStr value).

#[global] Instance query_equal_dec attribute value entry :
  Decision (query_equal attribute value entry).
Proof. unfold query_equal. apply _. Defined.

(** The number of documents of the collection that a query selects. *)
Definition total (attribute value : string) (collection : gmap string dict) : nat :=
  size (filter (query_equal attribute value) collection).

(** [databases.list_documents(queries=[Query.equal(attribute, value)])['total']] *)
Definition list_documents (attribute value : string) : M nat := fun w =>
  let (fault, rest) := next (store_faults w) in
  if fault then
    mk_outcome (Raise AppwriteException) (set_store_faults rest w)
      [ListDocuments attribute value None]
  else
    let n := total attribute value (docs w) in
    mk_outcome (Ok n) (set_store_faults rest w)
      [ListDocuments attribute value (Some n)].

(** [databases.create_document(document_id='unique()', data=data)]: the
    store picks an identifier that is not in use. *)
Definition create_document (data : dict) : M unit := fun w =>
  let (fault, rest) := next (store_faults w) in
  let id := fresh (dom (docs w)) in
  if fault then
    mk_outcome (Raise AppwriteException) (set_store_faults rest w)
      [CreateDocument id data false]
  else
    mk_outcome (Ok tt) (set_docs (<[id := data]> (docs w)) (set_store_faults rest w))
      [CreateDocument id data true].

(** [databases.update_document(document_id=id, data=data)]: a partial
    update, the attributes of [data] replace those of the stored document
    and the others stay; an unknown identifier is an error. *)
Definition update_document (id : string) (data : dict) : M unit := fun w =>
  let (fault, rest) := next (store_faults w) in
  match docs w !! id with
  | Some old =>
      if fault then
        mk_outcome (Raise AppwriteException) (set_store_faults rest w)
          [UpdateDocument id data false]
      else
        mk_outcome (Ok tt)
          (set_docs (<[id := data ∪ old]> (docs w)) (set_store_faults rest w))
          [UpdateDocument id data true]
  | None =>
      mk_outcome (Raise AppwriteException) (set_store_faults rest w)
        [UpdateDocument id data false]
  end.

(** [databases.get_document(document_id=id)] *)
Definition get_document (id : string) : M dict := fun w =>
  let (fault, rest) := next (store_faults w) in
  match docs w !! id with
  | Some d =>
      if fault then
        mk_outcome (Raise AppwriteException) (set_store_faults rest w)
          [GetDocument id false]
      else mk_outcome (Ok d) (set_store_faults rest w) [GetDocument id true]
  | None =>
      mk_outcome (Raise AppwriteException) (set_store_faults rest w)
        [GetDocument id false]
  end.

(** [bot.send_message(CHAT_ID, text)] *)
Definition send_message (text : string) : M unit := fun w =>
  let (fault, rest) := next (bot_faults w) in
  if fault then
    mk_outcome (Raise ApiException) (set_bot_faults rest w) [SendMessage text false]
  else mk_outcome (Ok tt) (set_bot_faults rest w) [SendMessage text true].

(** [datetime.now()] *)
Definition now : M datetime := fun w =>
  let (t, rest) := next (clock w) in
  mk_outcome (Ok t) (set_clock rest w) [].

(** [time.sleep(seconds)] *)
Definition sleep (seconds : nat) : M unit := emit (Sleep seconds).

End SDK.

(** ** The libraries

    [re], [strptime] and [fromisoformat]: modelled on the texts above, read
    off the installation elsewhere. *)

Module Python.

(** The libraries of the Python installation the script runs on. *)
Definition installed : M library := fun w => mk_outcome (Ok (python w)) w [].

(** [datetime.fromisoformat(s)]: [None] when it raises [ValueError]. *)
Definition fromisoformat (lib : library) (s : string) : option stamp :=
  match Calendar.parse_isoformat s with
  | Some t => Some t
  | None => foreign_iso lib s
  end.

(** [datetime.strptime(re.search(r'(\w+ \d+, \d{4})', text).group(1),
    '%B %d, %Y')] *)
Definition read_date (lib : library) (text : string) : res datetime :=
  if Text.is_ascii text then
    match DatePattern.search text with
    | Some date_str =>
        match Calendar.strptime_B_d_Y date_str with
        | Some date => Ok date
        | None => Raise ValueError
        end
    | None => Raise AttributeError
    end
  else
    match foreign_date lib text with
    | Some (y, m, d) =>
        if Calendar.valid_date y m d then Ok (Calendar.midnight y m d)
        else Raise ValueError
    | None => Raise ValueError
    end.

End Python.

(** ** The script *)

Import Text Calendar SDK Python.

Definition MAIN_URL : string :=
  "https://m.rbi.org.in//scripts/bs_viewcontent.aspx?Id=2009".

Definition BASE_URL : string :=
  "https://rbidocs.rbi.org.in/rdocs/Content/DOCs/".

Section Script.

(** The identifier of the status document comes from the environment of the
    process. *)
Variable STATUS_DOCUMENT_ID : string.

Definition send_telegram_message (message : string) : M unit :=
  try_except (send_message message) (fun _ => ret tt).

(** [soup.find(string=re.compile(pattern))]: the first text node the
    pattern is found in. *)
Definition find_string (pattern : string) (page : soup) : option string :=
  List.find (contains pattern) (strings page).

(** The body of the [try] of [get_update_date], once the page is parsed:
    it returns the date, falls through ([Ok None], no text node has the
    marker) or raises. *)
Definition scrape_update_date (lib : library) (page : soup)
  : res (option datetime) :=
  match find_string "updated as on" page with
  | Some update_text =>
      match read_date lib update_text with
      | Ok date => Ok (Some date)
      | Raise e => Raise e
      end
  | None => Ok None
  end.

Definition get_update_date (url : string) : M (option datetime) :=
  try_except
    (let! response := requests_get url in
     let! _ := raise_for_status response in
     let! lib := installed in
     lift (scrape_update_date lib (html response.2)))
    (fun _ => ret None).

(** [lambda href: href and href.endswith('.xlsx')] *)
Definition is_excel_href (href : option string) : bool :=
  match href with
  | Some h => negb (String.eqb h EmptyString) && ends_with ".xlsx" h
  | None => false
  end.

(** [soup.find_all('a', href=...)] followed by [link['href']]: the
    selected anchors all carry the attribute. *)
Definition excel_hrefs (page : soup) : list string :=
  omap id (List.filter is_excel_href (anchors page)).

Definition resolve (href : string) : string :=
  BASE_URL +:+ last_part (split "/" href).

Definition get_excel_links (url : string) : M (list string) :=
  try_except
    (let! response := requests_get url in
     let! _ := raise_for_status response in
     ret (map resolve (excel_hrefs (html response.2))))
    (fun _ => ret []).

(** Returns the downloaded body ([BytesIO], always truthy) or [None]. *)
Definition download_excel (url : string) : M (option body) :=
  try_except
    (let! response := requests_get url in
     let! _ := raise_for_status response in
     ret (Some response.2))
    (fun _ => ret None).

Definition process_excel (excel_file : body) : M (list dict) :=
  try_except
    (match excel excel_file with
     | Some records => ret records
     | None => raise ValueError
     end)
    (fun _ => ret []).

(** [str(record.get(column, ''))] *)
Definition field (record : dict) (column : string) : pyval :=
  VStr (py_str (default (VStr "") (record !! column))).

(** The nine attributes of a stored document and the column each is read
    from. *)
Definition FIELDS : list (string * string) :=
  [("BANK", "BANK"); ("IFSC", "IFSC"); ("BRANCH", "BRANCH");
   ("ADDRESS", "ADDRESS"); ("CITY1", "CITY1"); ("CITY2", "CITY2");
   ("STATE", "STATE"); ("STD_CODE", "STD CODE"); ("PHONE", "PHONE")].

Definition document_data (record : dict) : dict :=
  list_to_map (map (fun kc => (kc.1, field record kc.2)) FIELDS).

(** [document_data['IFSC']], the natural key of a row. *)
Definition ifsc (record : dict) : string :=
  py_str (default (VStr "") (record !! "IFSC")).

(** One turn of the loop of [insert_into_appwrite]: the new value of
    [new_records]. *)
Definition insert_record (record : dict) (new_records : nat) : M nat :=
  try_except
    (let data := document_data record in
     let! existing := list_documents "IFSC" (ifsc record) in
     if existing =? 0 then
       let! _ := create_document data in
       ret (S new_records)
     else ret new_records)
    (fun _ => ret new_records).

Fixpoint insert_loop (data : list dict) (new_records : nat) : M nat :=
  match data with
  | [] => ret new_records
  | record :: rest =>
      let! n := insert_record record new_records in
      insert_loop rest n
  end.

Definition insert_into_appwrite (data : list dict) : M nat :=
  insert_loop data 0.

Definition update_status (status : string) : M unit :=
  try_except
    (let! t := now in
     update_document STATUS_DOCUMENT_ID
       {[ "status" := VStr status; "last_updated" := VStr (isoformat t) ]})
    (fun _ => ret tt).

Definition get_last_update_date : M (option stamp) :=
  try_except
    (let! status_doc := get_document STATUS_DOCUMENT_ID in
     let! lib := installed in
     match status_doc !! "last_update_date" with
     | Some (VStr s) =>
         match fromisoformat lib s with
         | Some t => ret (Some t)
         | None => raise ValueError
         end
     | Some _ => raise TypeError
     | None => raise KeyError
     end)
    (fun _ => ret None).

Definition set_last_update_date (date : datetime) : M unit :=
  try_except
    (update_document STATUS_DOCUMENT_ID
       {[ "last_update_date" := VStr (isoformat date) ]})
    (fun _ => ret tt).

(** [current_update_date and (not last_update_date or
    current_update_date > last_update_date)]; a datetime is always truthy,
    and comparing a naive datetime with one that has a UTC offset raises
    [TypeError]. *)
Definition is_newer (current : option datetime) (last : option stamp)
  : res (option datetime) :=
  match current, last with
  | Some c, None => Ok (Some c)
  | Some c, Some (Naive l) => Ok (if gt c l then Some c else None)
  | Some c, Some Aware => Raise TypeError
  | None, _ => Ok None
  end.

(** The body of the loop over the links in [main]. *)
Definition process_link (link : string) : M unit :=
  let! _ := send_telegram_message ("Processing file: " +:+ link) in
  let! excel_file := download_excel link in
  let! _ :=
    match excel_file with
    | Some file =>
        let! data := process_excel file in
        let! new_records := insert_into_appwrite data in
        send_telegram_message
          ("Completed processing " +:+ link +:+ ". New records added: " +:+
           pretty new_records)
    | None => send_telegram_message ("Failed to download file: " +:+ link)
    end in
  sleep 2.

Fixpoint process_links (links : list string) : M unit :=
  match links with
  | [] => ret tt
  | link :: rest => let! _ := process_link link in process_links rest
  end.

Definition main : M unit :=
  let! _ := update_status "running" in
  let! _ := send_telegram_message "Script started running." in
  let! current_update_date := get_update_date MAIN_URL in
  let! last_update_date := get_last_update_date in
  let! newer := lift (is_newer current_update_date last_update_date) in
  let! _ :=
    match newer with
    | Some date =>
        let! _ := send_telegram_message ("New update found: " +:+ str date) in
        let! _ := set_last_update_date date in
        let! excel_links := get_excel_links MAIN_URL in
        let! _ := process_links excel_links in
        send_telegram_message "All files processed."
    | None =>
        let! t := now in
        send_telegram_message ("No new updates as of " +:+ str t)
    end in
  let! _ := update_status "idle" in
  send_telegram_message "Script finished running.".

(** The job handed to the scheduler: the f-string reads the clock before
    the message is sent. *)
Definition run_scheduled_task : M unit :=
  let! t := now in
  let! _ := send_telegram_message ("Running scheduled task at " +:+ str t) in
  main.

End Script.

(** * The vocabulary of the properties

    The definitions the statements below are written with: what the
    specification says in its own words, the parts of [main] the statements
    speak of, and the scenarios they are tried on. *)

(** ** Outcomes and text *)

(** An outcome with further events in front. *)
Definition after {A} (events : list event) (o : outcome A) : outcome A :=
  mk_outcome (result o) (final o) (events ++ emitted o).

(** [s] has [p] somewhere inside. *)
Definition has_substring (p s : string) : Prop :=
  exists a b, s = a +:+ p +:+ b.

(** [s] ends in [suffix]. *)
Definition has_suffix (suffix s : string) : Prop :=
  exists a, s = a +:+ suffix.

(** No character of [s] is [c]. *)
Definition free_of (c : ascii) (s : string) : Prop :=
  all_chars (fun x => negb (Ascii.eqb x c)) s = true.

(** The body that a request yields when neither [requests.get] nor
    [raise_for_status] raises. *)
Definition fetched (r : http_result) : option body :=
  match r with
  | Response code content =>
      if error_status code then None else Some content
  | ConnectionFailed => None
  end.

(** ** Links *)

(** The hrefs an anchor list contributes, in the words of the
    specification: one for every anchor whose href ends in [.xlsx], in
    document order, and nothing for the other anchors. *)
Inductive selects : list (option string) -> list string -> Prop :=
| selects_nil : selects [] []
| selects_take href rest hrefs :
    has_suffix ".xlsx" href ->
    selects rest hrefs ->
    selects (Some href :: rest) (href :: hrefs)
| selects_skip anchor rest hrefs :
    (forall href, anchor = Some href -> ~ has_suffix ".xlsx" href) ->
    selects rest hrefs ->
    selects (anchor :: rest) hrefs.

(** [link] is the base path followed by the file name of [href], the part
    of [href] after its last slash. *)
Definition resolves (href link : string) : Prop :=
  exists dir name,
    href = dir +:+ name /\
    free_of "/" name /\
    (dir = "" \/ has_suffix "/" dir) /\
    link = BASE_URL +:+ name.

(** ** Ingestion *)

(** The text [str(record.get(column, ''))] evaluates to. *)
Definition coerced (record : dict) (column : string) : string :=
  match record !! column with
  | Some v => py_str v
  | None => ""
  end.

(** The values looked up by the existence checks of an event list. *)
Definition lookups (events : list event) : list string :=
  omap (fun e => match e with
                 | ListDocuments _ value _ => Some value
                 | _ => None
                 end) events.

(** The documents that an event list reports as created. *)
Definition created (events : list event) : list (string * dict) :=
  omap (fun e => match e with
                 | CreateDocument id data true => Some (id, data)
                 | _ => None
                 end) events.

(** A schedule without a failure. *)
Definition reliable (s : schedule bool) : Prop :=
  Forall (fun fault => fault = false) (upcoming s) /\ thereafter s = false.

(** The keys of [keys] that have no document in [m]. *)
Definition absent (m : gmap string dict) (keys : gset string) : gset string :=
  filter (fun k => total "IFSC" k m = 0) keys.

(** The natural keys of a batch. *)
Definition keys_of (data : list dict) : gset string :=
  list_to_set (map ifsc data).

(** What the specification expects of two runs over the same batch: the
    first inserts one document for each distinct key, the second inserts
    nothing. *)
Definition inserts_once (data : list dict) (first second : outcome nat) : Prop :=
  result first = Ok (size (keys_of data)) /\
  (forall record, record ∈ data ->
     total "IFSC" (ifsc record) (docs (final first)) = 1) /\
  result second = Ok 0 /\
  (forall id d ok, CreateDocument id d ok ∉ emitted second) /\
  docs (final second) = docs (final first) /\
  length (created (emitted first)) = size (keys_of data).

(** ** Events of a run *)

(** The attributes [update_status] writes. *)
Definition status_data (status : string) (t : datetime) : dict :=
  {[ "status" := VStr status; "last_updated" := VStr (isoformat t) ]}.

(** The attribute [set_last_update_date] writes. *)
Definition watermark_data (date : datetime) : dict :=
  {[ "last_update_date" := VStr (isoformat date) ]}.

(** The date [get_update_date] reads off a response. *)
Definition update_date_of (lib : library) (r : http_result) : option datetime :=
  match fetched r with
  | Some content =>
      match scrape_update_date lib (html content) with
      | Ok date => date
      | Raise _ => None
      end
  | None => None
  end.

(** The watermark [get_last_update_date] reads off the status document. *)
Definition watermark_of (lib : library) (status_doc : dict) : option stamp :=
  match status_doc !! "last_update_date" with
  | Some (VStr s) => fromisoformat lib s
  | _ => None
  end.

(** Two worlds that differ at most in what Telegram will answer. *)
Definition agree (w1 w2 : world) : Prop :=
  docs w1 = docs w2 /\ store_faults w1 = store_faults w2 /\
  web w1 = web w2 /\ clock w1 = clock w2 /\ python w1 = python w2.

Definition is_notification (e : event) : bool :=
  match e with
  | SendMessage _ _ => true
  | _ => false
  end.

(** The events of a run without its notifications. *)
Definition quiet (events : list event) : list event :=
  List.filter (fun e => negb (is_notification e)) events.

Definition is_store_operation (e : event) : bool :=
  match e with
  | ListDocuments _ _ _ | CreateDocument _ _ _
  | UpdateDocument _ _ _ | GetDocument _ _ => true
  | _ => false
  end.

(** The document-store operations of a run, with their outcomes. *)
Definition store_operations (events : list event) : list event :=
  List.filter is_store_operation events.

(** A computation whose result, effect on the rest of the world and
    events other than notifications do not depend on Telegram. *)
Definition oblivious {A} (m : M A) : Prop :=
  forall w1 w2, agree w1 w2 ->
    result (m w1) = result (m w2) /\
    agree (final (m w1)) (final (m w2)) /\
    quiet (emitted (m w1)) = quiet (emitted (m w2)).

(** Every event a computation emits satisfies [P]. *)
Definition emits {A} (P : event -> Prop) (m : M A) : Prop :=
  forall w, Forall P (emitted (m w)).

Definition is_insert (e : event) : bool :=
  match e with
  | CreateDocument _ _ _ => true
  | _ => false
  end.

(** An update that carries the watermark attribute. *)
Definition is_watermark_write (e : event) : bool :=
  match e with
  | UpdateDocument _ data _ =>
      match data !! "last_update_date" with
      | Some _ => true
      | None => false
      end
  | _ => false
  end.

(** Some insertion comes after a watermark write. *)
Fixpoint inserts_follow_watermark (events : list event) : bool :=
  match events with
  | [] => false
  | e :: rest =>
      (is_watermark_write e && existsb is_insert rest) ||
      inserts_follow_watermark rest
  end.

(** The order the specification describes: the watermark write precedes
    no insertion of the run. *)
Definition watermark_written_last (events : list event) : Prop :=
  inserts_follow_watermark events = false.

(** ** The parts of [main] *)

Section Parts.

Variable STATUS_DOCUMENT_ID : string.

(** The effect of [update_document] behind a handler that swallows the
    exception. *)
Definition write_status_document (data : dict) (w : world) : outcome unit :=
  let (fault, rest) := next (store_faults w) in
  match docs w !! STATUS_DOCUMENT_ID with
  | Some old =>
      if fault then
        mk_outcome (Ok tt) (set_store_faults rest w)
          [UpdateDocument STATUS_DOCUMENT_ID data false]
      else
        mk_outcome (Ok tt)
          (set_docs (<[STATUS_DOCUMENT_ID := data ∪ old]> (docs w))
             (set_store_faults rest w))
          [UpdateDocument STATUS_DOCUMENT_ID data true]
  | None =>
      mk_outcome (Ok tt) (set_store_faults rest w)
        [UpdateDocument STATUS_DOCUMENT_ID data false]
  end.

(** The start of [main]: the two dates the run compares, the scraped
    date and the stored watermark, as [main] obtains them. *)
Definition readings : M (option datetime * option stamp) :=
  let! _ := update_status STATUS_DOCUMENT_ID "running" in
  let! _ := send_telegram_message "Script started running." in
  let! current_update_date := get_update_date MAIN_URL in
  let! last_update_date := get_last_update_date STATUS_DOCUMENT_ID in
  ret (current_update_date, last_update_date).

(** The branch of [main] for a newer date, after the watermark is written. *)
Definition ingest : M unit :=
  let! excel_links := get_excel_links MAIN_URL in
  let! _ := process_links excel_links in
  send_telegram_message "All files processed.".

(** The end of [main]. *)
Definition finish : M unit :=
  let! _ := update_status STATUS_DOCUMENT_ID "idle" in
  send_telegram_message "Script finished running.".

End Parts.

(** ** The freshness text *)

(** [s] starts with a text of the shape of the pattern: a word, a blank,
    digits, a comma, a blank and four digits; [m] is that text. *)
Definition date_shaped (s m : string) : Prop :=
  exists word digits year rest,
    s = m +:+ rest /\
    m = word +:+ " " +:+ digits +:+ ", " +:+ year /\
    word <> "" /\ all_chars is_word word = true /\
    digits <> "" /\ all_chars is_digit digits = true /\
    String.length year = 4%nat /\ all_chars is_digit year = true.

(** The day, with or without a leading zero. *)
Definition day_text (padded : bool) (d : Z) : string :=
  if padded || (10 <=? d)%Z then dec2 d else String (digit_char d) "".

(** [<Month> <Day>, <Year>] *)
Definition date_text (padded : bool) (y m d : Z) : string :=
  month_name m +:+ " " +:+ day_text padded d +:+ ", " +:+ dec4 y.

(** The phrase that marks the freshness text. *)
Definition MARKER : string := "updated as on".

(** The responses the specification lists as yielding no date: the fetch
    fails, the status is an error, no text node has the marker, the first
    text node with the marker has no text of the shape of a date, or that
    text is not a date [strptime] accepts.  For an ASCII node the shape and
    the dates are those written out above; for a node with other
    characters they are what the libraries of the installation say. *)
Inductive no_date (lib : library) : http_result -> Prop :=
| no_date_connection :
    no_date lib ConnectionFailed
| no_date_status code content :
    error_status code = true ->
    no_date lib (Response code content)
| no_date_absent code content :
    (forall text, text ∈ strings (html content) -> ~ has_substring MARKER text) ->
    no_date lib (Response code content)
| no_date_malformed code content before text after :
    strings (html content) = before ++ text :: after ->
    (forall t, t ∈ before -> ~ has_substring MARKER t) ->
    has_substring MARKER text ->
    is_ascii text = true ->
    (forall a b m, text = a +:+ b -> ~ date_shaped b m) ->
    no_date lib (Response code content)
| no_date_unparseable code content before text after date_str :
    strings (html content) = before ++ text :: after ->
    (forall t, t ∈ before -> ~ has_substring MARKER t) ->
    has_substring MARKER text ->
    is_ascii text = true ->
    DatePattern.search text = Some date_str ->
    strptime_B_d_Y date_str = None ->
    no_date lib (Response code content)
| no_date_foreign code content before text after :
    strings (html content) = before ++ text :: after ->
    (forall t, t ∈ before -> ~ has_substring MARKER t) ->
    has_substring MARKER text ->
    is_ascii text = false ->
    match foreign_date lib text with
    | Some (y, m, d) => valid_date y m d = false
    | None => True
    end ->
    no_date lib (Response code content).

(** The status page has the phrase [updated as on <Month> <Day>, <Year>]
    in one of its text nodes. *)
Definition has_update_phrase (page : soup) (padded : bool) (y m d : Z) : Prop :=
  exists text,
    text ∈ strings page /\
    has_substring (MARKER +:+ " " +:+ date_text padded y m d) text.

(** A sufficient condition for the date of the phrase to be the
    first text of the shape of the pattern: no digit before it. *)
Definition no_digit (s : string) : bool :=
  all_chars (fun c => negb (is_digit c)) s.

(** ** The answers a run meets *)

(** The schedule after [n] calls. *)
Fixpoint later {A} (n : nat) (s : schedule A) : schedule A :=
  match n with
  | O => s
  | S n' => (next (later n' s)).2
  end.

(** The outcome of call number [n] from now, counted from 0. *)
Definition answer {A} (n : nat) (s : schedule A) : A := (next (later n s)).1.


(** The nine attributes of [d], as [str(record.get(column, ''))] gives
    them for the columns of [record]. *)
Definition holds_fields_of (record d : dict) : Prop :=
  forall key column, (key, column) ∈ FIELDS ->
    d !! key = Some (VStr (match record !! column with
                           | Some v => py_str v
                           | None => ""
                           end)).

(** ** What a run keeps *)

(** A computation keeps a property of the world. *)
Definition preserves {A} (I : world -> Prop) (m : M A) : Prop :=
  forall w, I w -> I (final (m w)).

(** No two documents of the collection have the same natural key. *)
Definition unique_keys (m : gmap string dict) : Prop :=
  forall k, total "IFSC" k m <= 1.

(** The addresses an event list fetches, in order. *)
Definition http_gets (events : list event) : list string :=
  omap (fun e => match e with
                 | HttpGet url => Some url
                 | _ => None
                 end) events.

(** The pauses of an event list, in order. *)
Definition sleeps (events : list event) : list nat :=
  omap (fun e => match e with
                 | Sleep seconds => Some seconds
                 | _ => None
                 end) events.

(** The field ranges of the [datetime] constructor. *)
Definition valid_datetime (t : datetime) : bool :=
  (valid_date (year t) (month t) (day t) &&
   (0 <=? hour t) && (hour t <? 24) &&
   (0 <=? minute t) && (minute t <? 60) &&
   (0 <=? second t) && (second t <? 60) &&
   (0 <=? microsecond t) && (microsecond t <? 1000000))%Z.

(** The rows [process_excel] returns for a downloaded body. *)
Definition rows_of (file : body) : list dict :=
  match excel file with
  | Some records => records
  | None => []
  end.

(** The attributes of the status document that no write of a run names
    are those of [old]. *)
Definition untouched (STATUS_DOCUMENT_ID : string) (old : dict) (w : world) : Prop :=
  exists new,
    docs w !! STATUS_DOCUMENT_ID = Some new /\
    forall k, k <> "status" -> k <> "last_updated" -> k <> "last_update_date" ->
      new !! k = old !! k.

(** The status document is there and its watermark attribute is [v]. *)
Definition stored (STATUS_DOCUMENT_ID : string) (v : option pyval) (w : world) : Prop :=
  exists doc,
    docs w !! STATUS_DOCUMENT_ID = Some doc /\ doc !! "last_update_date" = v.

Definition is_fetch (e : event) : bool :=
  match e with
  | HttpGet _ => true
  | _ => false
  end.

(** The links [get_excel_links] reads off a response. *)
Definition links_of (r : http_result) : list string :=
  match fetched r with
  | Some content => map resolve (excel_hrefs (html content))
  | None => []
  end.

(** ** The scenarios of the specification *)

Module Scenario.

Definition STATUS : string := "status".

(** The pages of the scenarios below are ASCII and their watermarks are
    spelled as [parse_isoformat] reads them, so their runs never ask the
    libraries about another text, and come out the same under every
    [library].  This stand-in, which answers nothing, is there to make the
    worlds closed terms; it says nothing about Python.  A scenario with a
    text beyond those needs the answer of the installation in its place:
    see [indic]. *)
Definition unasked : library := mk_library (fun _ => None) (fun _ => None).

(** The same world under other libraries. *)
Definition with_library (lib : library) (w : world) : world :=
  mk_world (docs w) (store_faults w) (bot_faults w) (web w) (clock w) lib.

(** A row of the spreadsheet without a [PHONE] column. *)
Definition row (code bank : string) : dict :=
  {[ "IFSC" := VStr code; "BANK" := VStr bank; "STD CODE" := VInt 22 ]}.

Definition status_page : soup :=
  mk_soup
    ["Reserve Bank of India"; "List of branches updated as on January 5, 2024"]
    [Some "a.xlsx"; Some "/path/b.xlsx"; Some "c.txt"].

Definition sheet : list dict :=
  [row "SBIN0000001" "SBI"; row "SBIN0000002" "SBI"; row "HDFC0000001" "HDFC"].

Definition status_document (watermark : string) : dict :=
  {[ "status" := VStr "idle";
     "last_updated" := VStr "2023-12-01T09:00:00";
     "last_update_date" := VStr watermark ]}.

(** The status page reports January 5, 2024; of its two spreadsheets the
    first downloads, with three rows, and the second does not. *)
Definition site : schedule http_result :=
  mk_schedule
    [ Response 200 (mk_body status_page None);
      Response 200 (mk_body status_page None);
      Response 200 (mk_body (mk_soup [] []) (Some sheet));
      Response 404 (mk_body (mk_soup [] []) None) ]
    ConnectionFailed.

Definition world_with (watermark : string) : world :=
  mk_world {[ STATUS := status_document watermark ]}
    (always false) (always false) site
    (always (mk_datetime 2024 1 6 10 30 0 0)) unasked.

(** The stored watermark is December 1, 2023. *)
Definition december : world := world_with "2023-12-01T00:00:00".

(** The stored watermark is January 5, 2024. *)
Definition january : world := world_with "2024-01-05T00:00:00".

(** The sheet, and one of its keys once more. *)
Definition batch : list dict := sheet ++ [row "SBIN0000001" "State Bank"].

(** A batch of one row, and a store whose second call fails. *)
Definition one_row : list dict := [ {[ "IFSC" := VStr "SBIN0000001" ]} ].

Definition flaky_store : world :=
  mk_world ∅ (mk_schedule [false; true] false) (always false)
    (always ConnectionFailed) (always (midnight 2024 1 5)) unasked.

Definition flaky_first : outcome nat :=
  insert_into_appwrite one_row flaky_store.

Definition flaky_second : outcome nat :=
  insert_into_appwrite one_row (final flaky_first).

(** A page whose freshness text comes after another date. *)
Definition notice_page : soup :=
  mk_soup
    ["Circular of March 12, 2023: list updated as on January 5, 2024"] [].

Definition notice : world :=
  mk_world ∅ (always false) (always false)
    (always (Response 200 (mk_body notice_page None)))
    (always (midnight 2024 1 6)) unasked.

(** February 30 is not a date. *)
Definition leap_page : soup :=
  mk_soup ["Data updated as on February 30, 2024"] [].

Definition leap : world :=
  mk_world ∅ (always false) (always false)
    (always (Response 200 (mk_body leap_page None)))
    (always (midnight 2024 3 1)) unasked.

(** The watermark was written by another program, with a UTC offset. *)
Definition offset : world := world_with "2024-01-05T00:00:00+00:00".

(** A page whose year is in Arabic-Indic digits (U+0660 to U+0669, in
    UTF-8 the byte 217 and then 160 to 169).  Python's [\d] matches them
    and [int] reads them, so [strptime] builds January 5, 2024: this is
    what the libraries of this scenario answer for the text. *)
Definition indic_digit (n : nat) : string :=
  String (ascii_of_nat 217) (String (ascii_of_nat (160 + n)) "").

Definition indic_text : string :=
  "List updated as on January 5, " +:+
  indic_digit 2 +:+ indic_digit 0 +:+ indic_digit 2 +:+ indic_digit 4.

Definition indic_reader : library :=
  mk_library
    (fun text => if String.eqb text indic_text then Some (2024, 1, 5)%Z else None)
    (fun _ => None).

Definition indic : world :=
  mk_world ∅ (always false) (always false)
    (always (Response 200 (mk_body (mk_soup [indic_text] []) None)))
    (always (midnight 2024 1 6)) indic_reader.

End Scenario.

(** ** Further scenarios *)

Module Cases.

Import Scenario.

(** The world the run of [december] leaves, the site serving the same
    pages once more. *)
Definition after_december : world :=
  set_web site (final (main STATUS december)).

(** A store that holds only the status document refuses the next call. *)
Definition refusing : world :=
  set_store_faults (mk_schedule [true] false) january.

(** The store refuses its third call: in a run that finds nothing new,
    the write of the idle status. *)
Definition stuck : world :=
  set_store_faults (mk_schedule [false; false; true] false) january.

(** The store refuses its second call: the read of the watermark. *)
Definition unread : world :=
  set_store_faults (mk_schedule [false; true] false) january.

End Cases.

(** * Properties *)

(** ** The monad *)

Lemma after_nil {A} (o : outcome A) : after [] o = o.
Proof. by destruct o. Qed.

Lemma after_after {A} (e1 e2 : list event) (o : outcome A) :
  after e1 (after e2 o) = after (e1 ++ e2) o.
Proof. unfold after; simpl. by rewrite app_assoc. Qed.

Lemma bind_ok {A B} (m : M A) (k : A -> M B) (w : world) (a : A) :
  result (m w) = Ok a ->
  bind m k w = after (emitted (m w)) (k a (final (m w))).
Proof. intros H. unfold bind. by rewrite H. Qed.

Lemma bind_raise {A B} (m : M A) (k : A -> M B) (w : world) (e : exn) :
  result (m w) = Raise e ->
  bind m k w = mk_outcome (Raise e) (final (m w)) (emitted (m w)).
Proof. intros H. unfold bind. by rewrite H. Qed.

Lemma bind_ret_l {A B} (a : A) (k : A -> M B) (w : world) :
  bind (ret a) k w = k a w.
Proof. unfold bind, ret; simpl. by destruct (k a w). Qed.

Lemma bind_assoc {A B C} (m : M A) (f : A -> M B) (g : B -> M C) (w : world) :
  bind (bind m f) g w = bind m (fun x => bind (f x) g) w.
Proof.
  unfold bind. destruct (result (m w)); simpl; [|done].
  destruct (result (f a (final (m w)))); simpl; [|done].
  by rewrite app_assoc.
Qed.

Lemma bind_ext {A B} (m : M A) (f g : A -> M B) (w : world) :
  (forall a w', f a w' = g a w') -> bind m f w = bind m g w.
Proof. intros H. unfold bind. destruct (result (m w)); [|done]. by rewrite H. Qed.

Lemma try_except_ok {A} (m : M A) (h : exn -> M A) (w : world) (a : A) :
  result (m w) = Ok a -> try_except m h w = m w.
Proof. intros H. unfold try_except. by rewrite H. Qed.

Lemma try_except_raise {A} (m : M A) (h : exn -> M A) (w : world) (e : exn) :
  result (m w) = Raise e ->
  try_except m h w = after (emitted (m w)) (h e (final (m w))).
Proof. intros H. unfold try_except. by rewrite H. Qed.

Lemma bind_now {B} (k : datetime -> M B) (w : world) :
  bind SDK.now k w =
  k (next (clock w)).1 (set_clock (next (clock w)).2 w).
Proof.
  unfold bind, SDK.now. destruct (next (clock w)) as [t c]. simpl.
  by destruct (k t (set_clock c w)).
Qed.

(** A handler that returns a value catches everything: the function does
    not raise. *)
Lemma try_except_total {A} (m : M A) (h : exn -> A) (w : world) :
  exists a, result (try_except m (fun e => ret (h e)) w) = Ok a.
Proof.
  unfold try_except. destruct (result (m w)) eqn:E; simpl; eauto.
Qed.

(** ** Text *)

Module TextFacts.

Import Text.

Lemma app_nil_r (s : string) : s +:+ "" = s.
Proof. induction s; simpl; congruence. Qed.

Lemma app_assoc (a b c : string) : (a +:+ b) +:+ c = a +:+ b +:+ c.
Proof. induction a; simpl; congruence. Qed.

Lemma starts_with_app (p s : string) : starts_with p (p +:+ s) = true.
Proof. induction p as [|c p IH]; simpl; [done|]. by rewrite Ascii.eqb_refl. Qed.

Lemma starts_with_inv (p s : string) :
  starts_with p s = true -> exists b, s = p +:+ b.
Proof.
  revert s. induction p as [|c p IH]; intros s H; [by exists s|].
  destruct s as [|c' s]; simpl in H; [done|].
  apply andb_true_iff in H as [->%Ascii.eqb_eq H].
  destruct (IH _ H) as [b ->]. by exists b.
Qed.

Lemma contains_unfold (p s : string) :
  contains p s =
  starts_with p s ||
  match s with
  | EmptyString => false
  | String _ s' => contains p s'
  end.
Proof. by destruct s. Qed.

Lemma contains_spec (p s : string) :
  contains p s = true <-> has_substring p s.
Proof.
  split.
  - induction s as [|c s IH]; rewrite contains_unfold; intros H.
    + rewrite orb_false_r in H. destruct (starts_with_inv _ _ H) as [b ->].
      by exists "", b.
    + apply orb_true_iff in H as [H|H].
      * destruct (starts_with_inv _ _ H) as [b Hb]. exists "", b. by rewrite Hb.
      * destruct (IH H) as (a & b & ->). by exists (String c a), b.
  - intros (a & b & ->). induction a as [|c a IH]; rewrite contains_unfold.
    + change ("" +:+ p +:+ b) with (p +:+ b). by rewrite starts_with_app.
    + change (String c a +:+ p +:+ b) with (String c (a +:+ p +:+ b)).
      cbv beta iota. rewrite IH. apply orb_true_r.
Qed.

Lemma ends_with_unfold (suffix s : string) :
  ends_with suffix s =
  String.eqb s suffix ||
  match s with
  | EmptyString => false
  | String _ s' => ends_with suffix s'
  end.
Proof. by destruct s. Qed.

Lemma ends_with_spec (suffix s : string) :
  ends_with suffix s = true <-> has_suffix suffix s.
Proof.
  split.
  - induction s as [|c s IH]; rewrite ends_with_unfold; intros H.
    + rewrite orb_false_r in H. apply String.eqb_eq in H as <-. by exists "".
    + apply orb_true_iff in H as [H|H].
      * apply String.eqb_eq in H as <-. by exists "".
      * destruct (IH H) as [a ->]. by exists (String c a).
  - intros [a ->]. induction a as [|c a IH]; rewrite ends_with_unfold.
    + change ("" +:+ suffix) with suffix. by rewrite String.eqb_refl.
    + change (String c a +:+ suffix) with (String c (a +:+ suffix)).
      cbv beta iota. rewrite IH. apply orb_true_r.
Qed.

Lemma split_nonempty (sep : ascii) (s : string) : split sep s <> [].
Proof. destruct s as [|c s]; simpl; [done|]. by repeat case_match. Qed.

Lemma has_suffix_cons (suffix s : string) (c : ascii) :
  has_suffix suffix s -> has_suffix suffix (String c s).
Proof. intros [a ->]. by exists (String c a). Qed.

(** Either the separator does not occur and [split] returns the string
    itself, or the string is a directory part that ends in the separator
    followed by the last part. *)
Lemma split_shape (sep : ascii) (s : string) :
  (free_of sep s /\ split sep s = [s]) \/
  (exists dir x y ys,
      split sep s = x :: y :: ys /\
      has_suffix (String sep "") dir /\
      s = dir +:+ last_part (split sep s) /\
      free_of sep (last_part (split sep s))).
Proof.
  unfold last_part, free_of.
  induction s as [|c s [[Hfree E]|(dir & x & y & ys & E & Hdir & Hs & Hfree)]];
    simpl.
  - by left.
  - destruct (Ascii.eqb c sep) eqn:Ec; rewrite E; simpl.
    + apply Ascii.eqb_eq in Ec as ->. right.
      exists (String sep ""), "", s, []. split_and!; try done. by exists "".
    + left. by rewrite Hfree.
  - rewrite E in *. right. destruct (Ascii.eqb c sep) eqn:Ec.
    + exists (String c dir), "", x, (y :: ys). split_and!; try done.
      * by apply has_suffix_cons.
      * simpl in *. by rewrite <- Hs.
    + exists (String c dir), (String c x), y, ys. split_and!; try done.
      * by apply has_suffix_cons.
      * simpl in *. by rewrite <- Hs.
Qed.

(** The last part of a split: what follows the last separator. *)
Lemma split_last (sep : ascii) (s : string) :
  exists dir,
    s = dir +:+ last_part (split sep s) /\
    free_of sep (last_part (split sep s)) /\
    (dir = "" \/ has_suffix (String sep "") dir).
Proof.
  destruct (split_shape sep s) as [[Hfree E]|(dir & x & y & ys & E & Hdir & Hs & Hfree)].
  - exists "". rewrite E. by eauto.
  - exists dir. by eauto.
Qed.

End TextFacts.

Import TextFacts.

(** ** Fetching a page *)

Lemma fetch_then {A} (url : string) (k : nat * body -> M A) (w : world) :
  (let! response := requests_get url in
   let! _ := raise_for_status response in
   k response) w =
  let w' := set_web (next (web w)).2 w in
  match (next (web w)).1 with
  | ConnectionFailed => mk_outcome (Raise RequestException) w' [HttpGet url]
  | Response code content =>
      if error_status code
      then mk_outcome (Raise HTTPError) w' [HttpGet url]
      else after [HttpGet url] (k (code, content) w')
  end.
Proof.
  unfold bind, requests_get, raise_for_status.
  destruct (next (web w)) as [[|code content] rest]; simpl; [done|].
  destruct (error_status code); simpl; [done|].
  reflexivity.
Qed.

(** ** The status document (frame properties) *)

Section StatusDocument.

Variable STATUS_DOCUMENT_ID : string.

Lemma update_document_ok (id : string) (data old : dict) (w : world) :
  docs w !! id = Some old ->
  (next (store_faults w)).1 = false ->
  update_document id data w =
  mk_outcome (Ok tt)
    (set_docs (<[id := data ∪ old]> (docs w))
       (set_store_faults (next (store_faults w)).2 w))
    [UpdateDocument id data true].
Proof.
  intros Hdoc Hfault. unfold update_document. rewrite Hdoc.
  destruct (next (store_faults w)) as [f rest]. simpl in *. by subst.
Qed.

(** C10. A successful [set_last_update_date] rewrites the
    [last_update_date] attribute of the status document and nothing else:
    [status] and [last_updated] keep their values.  A successful
    [update_status] rewrites [status] and [last_updated] and nothing else:
    [last_update_date] keeps its value.  Neither touches another document.
    The write is successful when the status document exists and the store
    call does not fail. *)
Theorem status_writes_are_disjoint
    (w : world) (old : dict) (date : datetime) (status : string) :
  docs w !! STATUS_DOCUMENT_ID = Some old ->
  (next (store_faults w)).1 = false ->
  (exists new,
      docs (final (set_last_update_date STATUS_DOCUMENT_ID date w))
        !! STATUS_DOCUMENT_ID = Some new /\
      new !! "last_update_date" = Some (VStr (isoformat date)) /\
      new !! "status" = old !! "status" /\
      new !! "last_updated" = old !! "last_updated" /\
      (forall k, k <> "last_update_date" -> new !! k = old !! k)) /\
  (exists new,
      docs (final (update_status STATUS_DOCUMENT_ID status w))
        !! STATUS_DOCUMENT_ID = Some new /\
      new !! "status" = Some (VStr status) /\
      new !! "last_updated" = Some (VStr (isoformat (next (clock w)).1)) /\
      new !! "last_update_date" = old !! "last_update_date" /\
      (forall k, k <> "status" -> k <> "last_updated" -> new !! k = old !! k)) /\
  (forall id, id <> STATUS_DOCUMENT_ID ->
      docs (final (set_last_update_date STATUS_DOCUMENT_ID date w)) !! id
        = docs w !! id /\
      docs (final (update_status STATUS_DOCUMENT_ID status w)) !! id
        = docs w !! id).
Proof.
  intros Hdoc Hfault.
  assert (Hset : final (set_last_update_date STATUS_DOCUMENT_ID date w) =
    set_docs (<[STATUS_DOCUMENT_ID :=
                  {[ "last_update_date" := VStr (isoformat date) ]} ∪ old]> (docs w))
      (set_store_faults (next (store_faults w)).2 w)).
  { unfold set_last_update_date.
    rewrite (try_except_ok _ _ _ tt); by rewrite (update_document_ok _ _ old). }
  assert (Hupd : final (update_status STATUS_DOCUMENT_ID status w) =
    set_docs (<[STATUS_DOCUMENT_ID :=
                  {[ "status" := VStr status;
                     "last_updated" := VStr (isoformat (next (clock w)).1) ]} ∪ old]>
                (docs w))
      (set_store_faults (next (store_faults w)).2 (set_clock (next (clock w)).2 w))).
  { unfold update_status, try_except, bind, now.
    destruct (next (clock w)) as [t c] eqn:Ec. simpl.
    by rewrite (update_document_ok _ _ old). }
  rewrite Hset, Hupd. simpl. split_and!.
  - eexists. split; [apply lookup_insert_eq|]. split_and!.
    + apply lookup_union_Some_l. by simplify_map_eq.
    + apply lookup_union_r. by simplify_map_eq.
    + apply lookup_union_r. by simplify_map_eq.
    + intros k Hk. apply lookup_union_r. by simplify_map_eq.
  - eexists. split; [apply lookup_insert_eq|]. split_and!.
    + apply lookup_union_Some_l. by simplify_map_eq.
    + apply lookup_union_Some_l. by simplify_map_eq.
    + apply lookup_union_r. by simplify_map_eq.
    + intros k Hk1 Hk2. apply lookup_union_r. by simplify_map_eq.
  - intros id Hid. by rewrite !lookup_insert_ne.
Qed.

End StatusDocument.

(** ** The link extractor *)

Module Links.

Lemma is_excel_href_spec (anchor : option string) :
  is_excel_href anchor = true <->
  exists href, anchor = Some href /\ has_suffix ".xlsx" href.
Proof.
  destruct anchor as [h|]; simpl.
  - rewrite andb_true_iff, ends_with_spec. split.
    + intros [_ H]. by exists h.
    + intros (? & [= <-] & H). split; [|done].
      destruct H as [a ->]. by destruct a.
  - split; [done | by intros (? & ? & _)].
Qed.

Lemma excel_hrefs_selects (page : soup) :
  selects (anchors page) (excel_hrefs page).
Proof.
  unfold excel_hrefs. induction (anchors page) as [|a l IH]; simpl.
  - constructor.
  - destruct (is_excel_href a) eqn:E.
    + apply is_excel_href_spec in E as (h & -> & Hh). simpl.
      by constructor.
    + apply selects_skip; [|done]. intros h -> Hh.
      assert (is_excel_href (Some h) = true) by (apply is_excel_href_spec; eauto).
      congruence.
Qed.

Lemma free_of_app (c : ascii) (a b : string) :
  free_of c (a +:+ b) -> free_of c a /\ free_of c b.
Proof.
  unfold free_of. induction a as [|x a IH]; simpl; [done|].
  rewrite !andb_true_iff. naive_solver.
Qed.

Lemma not_free_of_suffix (c : ascii) (dir name : string) :
  has_suffix (String c "") dir -> ~ free_of c (dir +:+ name).
Proof.
  intros [a ->] [[_ H]%free_of_app _]%free_of_app.
  unfold free_of in H. simpl in H. by rewrite Ascii.eqb_refl in H.
Qed.

(** The file name of an href is determined: [resolves] relates an href to
    one link only. *)
Lemma resolves_unique (href link1 link2 : string) :
  resolves href link1 -> resolves href link2 -> link1 = link2.
Proof.
  intros (d1 & n1 & -> & F1 & D1 & ->) (d2 & n2 & E & F2 & D2 & ->).
  f_equal. revert d2 E D2. induction d1 as [|c d1 IH]; intros d2 E D2.
  - destruct D2 as [->|D2]; [done|].
    exfalso. apply (not_free_of_suffix "/" d2 n2 D2). by rewrite <- E.
  - destruct d2 as [|c' d2].
    + destruct D1 as [?|D1]; [done|].
      exfalso. apply (not_free_of_suffix "/" (String c d1) n1 D1). by rewrite E.
    + simpl in E. injection E as -> E. apply (IH) with d2; [|done|].
      * destruct D1 as [?|[a Ha]]; [done|].
        destruct a as [|x a]; simpl in Ha.
        -- injection Ha as _ ->. by left.
        -- injection Ha as _ ->. right. by exists a.
      * destruct D2 as [?|[a Ha]]; [done|].
        destruct a as [|x a]; simpl in Ha.
        -- injection Ha as _ ->. by left.
        -- injection Ha as _ ->. right. by exists a.
Qed.

Lemma resolve_resolves (href : string) : resolves href (resolve href).
Proof.
  destruct (split_last "/" href) as (dir & H1 & H2 & H3).
  by exists dir, (last_part (split "/" href)).
Qed.

Lemma get_excel_links_result (url : string) (w : world) :
  result (get_excel_links url w) =
  Ok (match fetched (next (web w)).1 with
      | Some content => map resolve (excel_hrefs (html content))
      | None => []
      end).
Proof.
  unfold get_excel_links, try_except. rewrite fetch_then.
  destruct (next (web w)) as [[|code content] rest]; simpl; [done|].
  by destruct (error_status code).
Qed.

(** C4. [get_excel_links] never raises.  When the page is fetched, it
    returns one URL for every anchor whose href ends in [.xlsx], in
    document order, each the base path followed by the file name of the
    href; the other anchors contribute nothing.  When the fetch fails
    (connection error or a 4xx/5xx status), it returns the empty list. *)
Theorem get_excel_links_correct (url : string) (w : world) :
  exists links,
    result (get_excel_links url w) = Ok links /\
    match fetched (next (web w)).1 with
    | Some content =>
        exists hrefs,
          selects (anchors (html content)) hrefs /\
          Forall2 resolves hrefs links
    | None => links = []
    end.
Proof.
  eexists. split; [apply get_excel_links_result|].
  destruct (fetched _) as [content|]; [|done].
  exists (excel_hrefs (html content)). split; [apply excel_hrefs_selects|].
  induction (excel_hrefs (html content)); simpl; constructor;
    auto using resolve_resolves.
Qed.

(** The page of the specification's example: [a.xlsx], [/path/b.xlsx] and
    [c.txt]. *)
Example get_excel_links_example :
  result (get_excel_links MAIN_URL
    (mk_world ∅ (always false) (always false)
       (always (Response 200
          (mk_body (mk_soup [] [Some "a.xlsx"; Some "/path/b.xlsx"; Some "c.txt"])
             None)))
       (always (midnight 2024 1 5)) Scenario.unasked)) =
  Ok ["https://rbidocs.rbi.org.in/rdocs/Content/DOCs/a.xlsx";
      "https://rbidocs.rbi.org.in/rdocs/Content/DOCs/b.xlsx"].
Proof. vm_compute. reflexivity. Qed.

End Links.

(** ** The ingestion engine *)

Module Ingestion.

Lemma field_coerced (record : dict) (column : string) :
  field record column = VStr (coerced record column).
Proof. unfold field, coerced. by destruct (record !! column). Qed.

Lemma document_data_lookup (record : dict) (key column : string) :
  (key, column) ∈ FIELDS ->
  document_data record !! key = Some (VStr (coerced record column)).
Proof.
  intros H. rewrite <- field_coerced. unfold FIELDS in H.
  repeat (apply elem_of_cons in H as [[= -> ->]|H]; [by vm_compute|]).
  inversion H.
Qed.

(** The document has the nine attributes and no other. *)
Lemma document_data_dom (record : dict) :
  dom (document_data record) = list_to_set (map fst FIELDS).
Proof.
  unfold document_data. rewrite dom_list_to_map_L. by f_equal.
Qed.

(** One turn of the loop, with the store calls spelled out. *)
Lemma insert_record_unfold (record : dict) (c : nat) (w : world) :
  insert_record record c w =
  let q := ListDocuments "IFSC" (ifsc record) in
  let (f1, s1) := next (store_faults w) in
  if f1 then mk_outcome (Ok c) (set_store_faults s1 w) [q None]
  else
    let n := total "IFSC" (ifsc record) (docs w) in
    if n =? 0 then
      let (f2, s2) := next s1 in
      let id := fresh (dom (docs w)) in
      if f2 then
        mk_outcome (Ok c) (set_store_faults s2 w)
          [q (Some n); CreateDocument id (document_data record) false]
      else
        mk_outcome (Ok (S c))
          (set_docs (<[id := document_data record]> (docs w))
             (set_store_faults s2 w))
          [q (Some n); CreateDocument id (document_data record) true]
    else mk_outcome (Ok c) (set_store_faults s1 w) [q (Some n)].
Proof.
  unfold insert_record, try_except, bind, list_documents, create_document.
  destruct (next (store_faults w)) as [[] s1] eqn:E1; simpl; [done|].
  destruct (total "IFSC" (ifsc record) (docs w) =? 0); simpl; [|done].
  destruct (next s1) as [[] s2] eqn:E2; simpl; done.
Qed.

Lemma lookups_app (e1 e2 : list event) :
  lookups (e1 ++ e2) = lookups e1 ++ lookups e2.
Proof. apply omap_app. Qed.

Lemma created_app (e1 e2 : list event) :
  created (e1 ++ e2) = created e1 ++ created e2.
Proof. apply omap_app. Qed.

Lemma insert_record_ok (record : dict) (c : nat) (w : world) :
  exists n, result (insert_record record c w) = Ok n.
Proof. apply (try_except_total _ (fun _ => c)). Qed.

Lemma insert_loop_cons (record : dict) (rest : list dict) (c : nat) (w : world) :
  exists n,
    result (insert_record record c w) = Ok n /\
    insert_loop (record :: rest) c w =
    after (emitted (insert_record record c w))
      (insert_loop rest n (final (insert_record record c w))).
Proof.
  destruct (insert_record_ok record c w) as [n Hn]. exists n. split; [done|].
  simpl. by apply bind_ok.
Qed.

(** What one turn of the loop does to the counter, the events and the
    collection, whatever the store answers. *)
Lemma insert_record_step (record : dict) (c : nat) (w : world) :
  let o := insert_record record c w in
  result o = Ok (c + length (created (emitted o))) /\
  lookups (emitted o) = [ifsc record] /\
  size (docs (final o)) = size (docs w) + length (created (emitted o)) /\
  (forall id d, docs w !! id = Some d -> docs (final o) !! id = Some d) /\
  (forall id d ok, CreateDocument id d ok ∈ emitted o ->
     d = document_data record /\
     (ok = true -> docs (final o) !! id = Some d)).
Proof.
  assert (Hfresh : docs w !! fresh (dom (docs w)) = None).
  { apply not_elem_of_dom, is_fresh. }
  cbv zeta. rewrite insert_record_unfold. cbv zeta.
  destruct (next (store_faults w)) as [[] s1]; simpl.
  { split_and!; try done; [by rewrite Nat.add_0_r..|].
    intros id d ok [[=]|H]%elem_of_cons. inversion H. }
  destruct (total "IFSC" (ifsc record) (docs w) =? 0); simpl.
  - destruct (next s1) as [[] s2]; simpl.
    + split_and!; try done; [by rewrite Nat.add_0_r..|].
      intros id d ok [[=]|[[= -> -> ->]|H]%elem_of_cons]%elem_of_cons;
        [done|inversion H].
    + split_and!; try done.
      * f_equal. lia.
      * rewrite map_size_insert_None by done. lia.
      * intros id d Hd. rewrite lookup_insert_ne; [done|]. congruence.
      * intros id d ok [[=]|[[= -> -> ->]|H]%elem_of_cons]%elem_of_cons;
          [|inversion H].
        split; [done|]. intros _. apply lookup_insert_eq.
  - split_and!; try done; [by rewrite Nat.add_0_r..|].
    intros id d ok [[=]|H]%elem_of_cons. inversion H.
Qed.

Lemma insert_loop_spec (data : list dict) (c : nat) (w : world) :
  let o := insert_loop data c w in
  result o = Ok (c + length (created (emitted o))) /\
  lookups (emitted o) = map ifsc data /\
  size (docs (final o)) = size (docs w) + length (created (emitted o)) /\
  (forall id d, docs w !! id = Some d -> docs (final o) !! id = Some d) /\
  (forall id d ok, CreateDocument id d ok ∈ emitted o ->
     exists record, record ∈ data /\ d = document_data record /\
       (ok = true -> docs (final o) !! id = Some d)).
Proof.
  revert c w. induction data as [|record rest IH]; intros c w.
  { simpl. split_and!; try done; [by rewrite Nat.add_0_r..|].
    intros ??? H. inversion H. }
  destruct (insert_loop_cons record rest c w) as (n & Hn & ->).
  destruct (insert_record_step record c w) as (H1 & H2 & H3 & H4 & H5).
  cbv zeta in *. rewrite Hn in H1. injection H1 as ->.
  set (o1 := insert_record record c w) in *.
  destruct (IH (c + length (created (emitted o1))) (final o1))
    as (I1 & I2 & I3 & I4 & I5). cbv zeta in *.
  set (o2 := insert_loop rest _ (final o1)) in *. simpl.
  rewrite created_app, lookups_app, length_app. split_and!.
  - rewrite I1. f_equal. lia.
  - by rewrite H2, I2.
  - lia.
  - auto.
  - intros id d ok [H|H]%elem_of_app.
    + destruct (H5 _ _ _ H) as [-> Hok]. exists record.
      split_and!; [left|done|auto].
    + destruct (I5 _ _ _ H) as (r & Hr & -> & Hok). exists r.
      split_and!; [by right|done|done].
Qed.

(** C5. Every document that [insert_into_appwrite] creates is made from
    one record of the batch: each of its nine attributes is present and
    holds a text, the empty text when that record has no such column and
    [str] of the cell of that record otherwise.  The document has no other
    attribute, and it is what the collection holds under the new
    identifier. *)
Theorem missing_fields_stored_as_empty_text
    (data : list dict) (w : world) (id : string) (d : dict) :
  CreateDocument id d true ∈ emitted (insert_into_appwrite data w) ->
  exists record,
    record ∈ data /\
    docs (final (insert_into_appwrite data w)) !! id = Some d /\
    holds_fields_of record d /\
    dom d = list_to_set (map fst FIELDS).
Proof.
  intros Hev. unfold insert_into_appwrite in *.
  destruct (insert_loop_spec data 0 w) as (_ & _ & _ & _ & H).
  destruct (H _ _ _ Hev) as (record & Hin & -> & Hok).
  exists record. split_and!; [done|by apply Hok| |apply document_data_dom].
  intros key column Hkey. by apply document_data_lookup.
Qed.

(** *** Running the engine twice *)

Lemma ifsc_attribute (record : dict) (k : string) :
  query_equal "IFSC" k ("", document_data record) <-> ifsc record = k.
Proof.
  unfold query_equal. simpl.
  rewrite (document_data_lookup record "IFSC" "IFSC") by (vm_compute; set_solver).
  unfold coerced, ifsc. destruct (record !! "IFSC"); simpl; split; congruence.
Qed.

(** A new document adds one to the total of its own key and leaves the
    other totals alone. *)
Lemma total_insert (k id : string) (record : dict) (m : gmap string dict) :
  m !! id = None ->
  total "IFSC" k (<[id := document_data record]> m) =
  total "IFSC" k m + (if decide (ifsc record = k) then 1 else 0).
Proof.
  intros Hid. unfold total. destruct (decide (ifsc record = k)) as [Hk|Hk].
  - rewrite map_filter_insert_True by by apply ifsc_attribute.
    rewrite map_size_insert_None; [lia|].
    by apply map_lookup_filter_None_2; left.
  - rewrite map_filter_insert_not'; [lia| |by rewrite Hid].
    intros H. by apply ifsc_attribute in H.
Qed.







Lemma reliable_next (s : schedule bool) :
  reliable s -> (next s).1 = false /\ reliable (next s).2.
Proof.
  intros [Hup Hth]. unfold next. destruct s as [[|b l] t]; simpl in *.
  - by split.
  - inversion Hup; subst. by split.
Qed.

(** One turn on a store that does not fail. *)
Lemma insert_record_reliable (record : dict) (c : nat) (w : world) :
  reliable (store_faults w) ->
  let o := insert_record record c w in
  reliable (store_faults (final o)) /\
  if decide (total "IFSC" (ifsc record) (docs w) = 0) then
    result o = Ok (S c) /\
    docs (final o) = <[fresh (dom (docs w)) := document_data record]> (docs w)
  else
    result o = Ok c /\ docs (final o) = docs w.
Proof.
  intros Hw. cbv zeta. rewrite insert_record_unfold. cbv zeta.
  destruct (reliable_next _ Hw) as [H1 Hw1].
  destruct (next (store_faults w)) as [f1 s1]. simpl in *. subst f1.
  destruct (reliable_next _ Hw1) as [H2 Hw2].
  destruct (next s1) as [f2 s2]. simpl in *. subst f2.
  destruct (decide (total "IFSC" (ifsc record) (docs w) = 0)) as [E|E].
  - by rewrite E.
  - apply Nat.eqb_neq in E. by rewrite E.
Qed.

Lemma insert_loop_reliable (data : list dict) (c : nat) (w : world) :
  reliable (store_faults w) ->
  let o := insert_loop data c w in
  let keys : gset string := list_to_set (map ifsc data) in
  reliable (store_faults (final o)) /\
  result o = Ok (c + size (absent (docs w) keys)) /\
  forall k,
    total "IFSC" k (docs (final o)) =
    if decide (k ∈ absent (docs w) keys) then 1 else total "IFSC" k (docs w).
Proof.
  revert c w. induction data as [|record rest IH]; intros c w Hw.
  { assert (Hab : absent (docs w) ∅ = ∅) by (unfold absent; set_solver).
    simpl. rewrite Hab, size_empty, Nat.add_0_r. split_and!; [done..|].
    intros k. by rewrite decide_False by set_solver. }
  destruct (insert_loop_cons record rest c w) as (n & Hn & ->).
  destruct (insert_record_reliable record c w Hw) as [Hw1 Hstep].
  cbv zeta in *. set (o1 := insert_record record c w) in *.
  destruct (IH n (final o1) Hw1) as (I1 & I2 & I3). cbv zeta in *.
  set (o2 := insert_loop rest n (final o1)) in *. simpl.
  set (k0 := ifsc record) in *.
  set (keys := list_to_set (map ifsc rest) : gset string) in *.
  assert (Hfresh : docs w !! fresh (dom (docs w)) = None).
  { apply not_elem_of_dom, is_fresh. }
  destruct (decide (total "IFSC" k0 (docs w) = 0)) as [E|E];
    destruct Hstep as [Hr Hd]; rewrite Hn in Hr; injection Hr as ->.
  - (* the record is new *)
    assert (Ht : forall k, total "IFSC" k (docs (final o1)) =
                 total "IFSC" k (docs w) + (if decide (k0 = k) then 1 else 0)).
    { intros k. rewrite Hd. by apply total_insert. }
    assert (Hab : absent (docs w) ({[k0]} ∪ keys) =
                  {[k0]} ∪ absent (docs (final o1)) keys).
    { apply set_eq. intros k. unfold absent.
      rewrite elem_of_union, !elem_of_filter, elem_of_union, !elem_of_singleton.
      rewrite Ht. destruct (decide (k0 = k)) as [<-|]; [|rewrite Nat.add_0_r]; naive_solver lia. }
    assert (Hnot : k0 ∉ absent (docs (final o1)) keys).
    { unfold absent. rewrite elem_of_filter, Ht. rewrite decide_True by done. lia. }
    split_and!; [done| |].
    + rewrite I2, Hab, size_union, size_singleton by set_solver. f_equal. lia.
    + intros k. rewrite I3, Hab, Ht.
      destruct (decide (k0 = k)) as [<-|Hk].
      * rewrite decide_False by done. rewrite decide_True by set_solver. lia.
      * rewrite Nat.add_0_r.
        destruct (decide (k ∈ absent (docs (final o1)) keys)).
        -- by rewrite decide_True by set_solver.
        -- by rewrite decide_False by set_solver.
  - (* a document with this key exists *)
    assert (Hab : absent (docs w) ({[k0]} ∪ keys) = absent (docs (final o1)) keys).
    { apply set_eq. intros k. unfold absent. rewrite Hd.
      rewrite !elem_of_filter, elem_of_union, elem_of_singleton. naive_solver. }
    rewrite Hab, I2. split_and!; [done|done|].
    intros k. by rewrite I3, Hd.
Qed.

(** When every key of the batch has a document, nothing is created,
    whatever the store answers. *)
Lemma insert_loop_present (data : list dict) (c : nat) (w : world) :
  (forall record, record ∈ data -> total "IFSC" (ifsc record) (docs w) <> 0) ->
  let o := insert_loop data c w in
  result o = Ok c /\
  docs (final o) = docs w /\
  forall id d ok, CreateDocument id d ok ∉ emitted o.
Proof.
  revert c w. induction data as [|record rest IH]; intros c w Hall.
  { simpl. split_and!; try done. intros ??? H. inversion H. }
  destruct (insert_loop_cons record rest c w) as (n & Hn & ->).
  assert (Hrec : total "IFSC" (ifsc record) (docs w) <> 0) by (apply Hall; left).
  assert (H1 : result (insert_record record c w) = Ok c /\
               docs (final (insert_record record c w)) = docs w /\
               forall id d ok,
                 CreateDocument id d ok ∉ emitted (insert_record record c w)).
  { rewrite insert_record_unfold. cbv zeta.
    apply Nat.eqb_neq in Hrec. rewrite Hrec.
    destruct (next (store_faults w)) as [[] s1]; simpl;
      (split_and!; [done|done|]); intros id d ok [[=]|H]%elem_of_cons;
      inversion H. }
  destruct H1 as (Hr & Hd & He). rewrite Hn in Hr. injection Hr as ->.
  destruct (IH c (final (insert_record record c w))) as (I1 & I2 & I3).
  { intros r Hr. rewrite Hd. apply Hall. by right. }
  cbv zeta in *. simpl. split_and!; [done|congruence|].
  intros id d ok [H|H]%elem_of_app; [by eapply He | by eapply I3].
Qed.

(** C1, as amended.  On a collection that has none of the keys of the
    batch, and provided no store call of the first run fails, the first run
    of [insert_into_appwrite] inserts one document for each distinct key
    and a second run over the same batch returns 0 and creates nothing,
    whatever the store answers during the second run. *)
Theorem second_run_inserts_nothing
    (data : list dict) (w : world) (faults : schedule bool) :
  reliable (store_faults w) ->
  (forall record, record ∈ data -> total "IFSC" (ifsc record) (docs w) = 0) ->
  let first := insert_into_appwrite data w in
  let second :=
    insert_into_appwrite data (set_store_faults faults (final first)) in
  inserts_once data first second.
Proof.
  intros Hw Habs. cbv zeta. unfold insert_into_appwrite.
  destruct (insert_loop_reliable data 0 w Hw) as (_ & H1 & H2). cbv zeta in *.
  fold (keys_of data) in *.
  assert (Hall : absent (docs w) (keys_of data) = keys_of data).
  { apply set_eq. intros k. unfold absent, keys_of.
    rewrite elem_of_filter, elem_of_list_to_set, list_elem_of_fmap.
    split; [naive_solver|]. intros (r & -> & Hr). split; [auto|by exists r]. }
  rewrite Hall in *.
  assert (H3 : forall record, record ∈ data ->
            total "IFSC" (ifsc record) (docs (final (insert_loop data 0 w))) = 1).
  { intros r Hr. rewrite H2, decide_True; [done|].
    unfold keys_of. rewrite elem_of_list_to_set, list_elem_of_fmap. by exists r. }
  destruct (insert_loop_present data 0
              (set_store_faults faults (final (insert_loop data 0 w))))
    as (S1 & S2 & S3).
  { intros r Hr. simpl. rewrite H3 by done. lia. }
  destruct (insert_loop_spec data 0 w) as (C1 & _).
  cbv zeta in *. split_and!; try done.
  rewrite C1 in H1. injection H1 as H1. lia.
Qed.

End Ingestion.

(** ** The pipeline *)

Section Pipeline.

Variable STATUS_DOCUMENT_ID : string.

(** *** What each function does to the world, call by call *)

Lemma send_telegram_message_unfold (message : string) (w : world) :
  send_telegram_message message w =
  mk_outcome (Ok tt) (set_bot_faults (next (bot_faults w)).2 w)
    [SendMessage message (negb (next (bot_faults w)).1)].
Proof.
  unfold send_telegram_message, try_except, send_message.
  by destruct (next (bot_faults w)) as [[] rest].
Qed.

Lemma write_status_document_events (data : dict) (w : world) :
  exists ok,
    emitted (write_status_document STATUS_DOCUMENT_ID data w) =
      [UpdateDocument STATUS_DOCUMENT_ID data ok] /\
    result (write_status_document STATUS_DOCUMENT_ID data w) = Ok tt.
Proof.
  unfold write_status_document.
  destruct (next (store_faults w)) as [[] rest];
    destruct (docs w !! STATUS_DOCUMENT_ID); simpl; eauto.
Qed.

Lemma set_last_update_date_unfold (date : datetime) (w : world) :
  set_last_update_date STATUS_DOCUMENT_ID date w =
  write_status_document STATUS_DOCUMENT_ID (watermark_data date) w.
Proof.
  unfold set_last_update_date, try_except, update_document,
    write_status_document.
  destruct (next (store_faults w)) as [[] rest];
    by destruct (docs w !! STATUS_DOCUMENT_ID).
Qed.

Lemma update_status_unfold (status : string) (w : world) :
  update_status STATUS_DOCUMENT_ID status w =
  write_status_document STATUS_DOCUMENT_ID (status_data status (next (clock w)).1)
    (set_clock (next (clock w)).2 w).
Proof.
  unfold update_status, try_except, bind, now, update_document,
    write_status_document.
  destruct (next (clock w)) as [t c]. simpl.
  destruct (next (store_faults w)) as [[] rest];
    by destruct (docs w !! STATUS_DOCUMENT_ID).
Qed.

Lemma get_update_date_unfold (url : string) (w : world) :
  get_update_date url w =
  mk_outcome (Ok (update_date_of (python w) (next (web w)).1))
    (set_web (next (web w)).2 w) [HttpGet url].
Proof.
  unfold get_update_date, try_except. rewrite fetch_then.
  unfold update_date_of, fetched, lift, bind, installed.
  destruct (next (web w)) as [[|code content] rest]; simpl; [done|].
  destruct (error_status code); simpl; [done|].
  by destruct (scrape_update_date (python w) (html content)).
Qed.

Lemma get_last_update_date_unfold (w : world) :
  get_last_update_date STATUS_DOCUMENT_ID w =
  let (fault, rest) := next (store_faults w) in
  match docs w !! STATUS_DOCUMENT_ID with
  | Some status_doc =>
      if fault then
        mk_outcome (Ok None) (set_store_faults rest w)
          [GetDocument STATUS_DOCUMENT_ID false]
      else
        mk_outcome (Ok (watermark_of (python w) status_doc))
          (set_store_faults rest w) [GetDocument STATUS_DOCUMENT_ID true]
  | None =>
      mk_outcome (Ok None) (set_store_faults rest w)
        [GetDocument STATUS_DOCUMENT_ID false]
  end.
Proof.
  unfold get_last_update_date, try_except, bind, get_document, installed,
    watermark_of.
  destruct (next (store_faults w)) as [[] rest];
    destruct (docs w !! STATUS_DOCUMENT_ID) as [d|]; simpl; try done.
  destruct (d !! "last_update_date") as [[s| | | |]|]; simpl; try done.
  by destruct (fromisoformat (python w) s).
Qed.

Lemma get_last_update_date_cases (w : world) :
  let w' := set_store_faults (next (store_faults w)).2 w in
  (exists status_doc,
      docs w !! STATUS_DOCUMENT_ID = Some status_doc /\
      get_last_update_date STATUS_DOCUMENT_ID w =
      mk_outcome (Ok (watermark_of (python w) status_doc)) w'
        [GetDocument STATUS_DOCUMENT_ID true]) \/
  get_last_update_date STATUS_DOCUMENT_ID w =
  mk_outcome (Ok None) w' [GetDocument STATUS_DOCUMENT_ID false].
Proof.
  cbv zeta. rewrite get_last_update_date_unfold.
  destruct (next (store_faults w)) as [[] rest];
    destruct (docs w !! STATUS_DOCUMENT_ID) as [d|]; simpl; eauto.
Qed.

(** *** Notifications do not steer the run *)

Lemma store_operations_quiet (events : list event) :
  store_operations (quiet events) = store_operations events.
Proof.
  unfold store_operations, quiet.
  induction events as [|[] l IH]; simpl; congruence.
Qed.

Lemma oblivious_lift {A} (r : res A) : oblivious (lift r).
Proof. by intros w1 w2 H. Qed.

Lemma oblivious_ret {A} (a : A) : oblivious (ret a).
Proof. by intros w1 w2 H. Qed.

Lemma oblivious_raise {A} (e : exn) : oblivious (@raise A e).
Proof. by intros w1 w2 H. Qed.

Lemma oblivious_bind {A B} (m : M A) (k : A -> M B) :
  oblivious m -> (forall a, oblivious (k a)) -> oblivious (bind m k).
Proof.
  intros Hm Hk w1 w2 H. destruct (Hm w1 w2 H) as (Hr & Hf & He).
  unfold bind. rewrite <- Hr. destruct (result (m w1)) as [a|e]; simpl; [|done].
  destruct (Hk a _ _ Hf) as (Hr' & Hf' & He').
  unfold quiet in *. rewrite !List.filter_app. by rewrite He, He'.
Qed.

Lemma oblivious_try_except {A} (m : M A) (h : exn -> M A) :
  oblivious m -> (forall e, oblivious (h e)) -> oblivious (try_except m h).
Proof.
  intros Hm Hh w1 w2 H. destruct (Hm w1 w2 H) as (Hr & Hf & He).
  unfold try_except. rewrite <- Hr.
  destruct (result (m w1)) as [a|e] eqn:E; simpl; [by rewrite E|].
  destruct (Hh e _ _ Hf) as (Hr' & Hf' & He').
  unfold quiet in *. rewrite !List.filter_app. by rewrite He, He'.
Qed.

Lemma oblivious_send_telegram_message (message : string) :
  oblivious (send_telegram_message message).
Proof.
  intros w1 w2 (H1 & H2 & H3 & H4 & H5). rewrite !send_telegram_message_unfold.
  by repeat split.
Qed.

Lemma oblivious_requests_get (url : string) : oblivious (requests_get url).
Proof.
  intros w1 w2 (H1 & H2 & H3 & H4 & H5). unfold requests_get. rewrite <- H3.
  by destruct (next (web w1)) as [[] rest].
Qed.

Lemma oblivious_raise_for_status (response : nat * body) :
  oblivious (raise_for_status response).
Proof.
  unfold raise_for_status.
  destruct (error_status _); [apply oblivious_raise | apply oblivious_ret].
Qed.

Lemma oblivious_list_documents (attribute value : string) :
  oblivious (list_documents attribute value).
Proof.
  intros w1 w2 (H1 & H2 & H3 & H4 & H5). unfold list_documents.
  rewrite <- H1, <- H2. by destruct (next (store_faults w1)) as [[] rest].
Qed.

Lemma oblivious_create_document (data : dict) : oblivious (create_document data).
Proof.
  intros w1 w2 (H1 & H2 & H3 & H4 & H5). unfold create_document.
  rewrite <- H1, <- H2. destruct (next (store_faults w1)) as [[] rest]; simpl.
  - by repeat split.
  - repeat split; simpl; congruence.
Qed.

Lemma oblivious_update_document (id : string) (data : dict) :
  oblivious (update_document id data).
Proof.
  intros w1 w2 (H1 & H2 & H3 & H4 & H5). unfold update_document.
  rewrite <- H1, <- H2.
  destruct (next (store_faults w1)) as [[] rest];
    destruct (docs w1 !! id); simpl; by repeat split.
Qed.

Lemma oblivious_get_document (id : string) : oblivious (get_document id).
Proof.
  intros w1 w2 (H1 & H2 & H3 & H4 & H5). unfold get_document.
  rewrite <- H1, <- H2.
  destruct (next (store_faults w1)) as [[] rest];
    destruct (docs w1 !! id); simpl; by repeat split.
Qed.

Lemma oblivious_now : oblivious now.
Proof.
  intros w1 w2 (H1 & H2 & H3 & H4 & H5). unfold now. rewrite <- H4.
  by destruct (next (clock w1)).
Qed.

Lemma oblivious_sleep (seconds : nat) : oblivious (sleep seconds).
Proof. by intros w1 w2 H. Qed.

Lemma oblivious_installed : oblivious installed.
Proof.
  intros w1 w2 H. pose proof H as (H1 & H2 & H3 & H4 & H5).
  unfold installed. simpl. by rewrite H5.
Qed.

Create HintDb oblivious.

#[local] Hint Resolve oblivious_lift oblivious_ret oblivious_raise
  oblivious_bind oblivious_try_except oblivious_send_telegram_message
  oblivious_requests_get oblivious_raise_for_status oblivious_list_documents
  oblivious_create_document oblivious_update_document oblivious_get_document
  oblivious_now oblivious_sleep oblivious_installed : oblivious.

(** Compose the lemmas above along the structure of a function. *)
Ltac oblivious :=
  repeat first
    [ progress intros
    | solve [eauto with oblivious]
    | apply oblivious_bind
    | apply oblivious_try_except
    | case_match ].

Lemma oblivious_insert_loop (data : list dict) (c : nat) :
  oblivious (insert_loop data c).
Proof.
  revert c. induction data as [|record rest IH]; intros c; simpl.
  - apply oblivious_ret.
  - apply oblivious_bind; [|done]. unfold insert_record. oblivious.
Qed.

Lemma oblivious_process_link (link : string) : oblivious (process_link link).
Proof.
  unfold process_link, download_excel, process_excel, insert_into_appwrite.
  pose proof oblivious_insert_loop. oblivious.
Qed.

Lemma oblivious_process_links (links : list string) :
  oblivious (process_links links).
Proof.
  induction links as [|link rest IH]; simpl.
  - apply oblivious_ret.
  - apply oblivious_bind; [apply oblivious_process_link | done].
Qed.

Lemma oblivious_main : oblivious (main STATUS_DOCUMENT_ID).
Proof.
  unfold main, update_status, get_update_date, get_last_update_date,
    set_last_update_date, get_excel_links.
  pose proof oblivious_process_links. oblivious.
Qed.

(** C9. The document-store operations of a run of [main], with their
    arguments and outcomes, and the collection the run leaves behind are
    the same whether every Telegram delivery succeeds or every delivery
    fails (the store, the web and the clock answering alike). *)
Theorem notifications_do_not_steer (w : world) :
  let delivered := main STATUS_DOCUMENT_ID (set_bot_faults (always false) w) in
  let undelivered := main STATUS_DOCUMENT_ID (set_bot_faults (always true) w) in
  store_operations (emitted delivered) = store_operations (emitted undelivered) /\
  docs (final delivered) = docs (final undelivered).
Proof.
  destruct (oblivious_main (set_bot_faults (always false) w)
              (set_bot_faults (always true) w)) as (_ & (Hd & _) & He);
    [done|].
  cbv zeta. split; [|done].
  by rewrite <- store_operations_quiet, He, store_operations_quiet.
Qed.

(** *** The order of the operations of a run *)

Lemma main_split (w : world) :
  main STATUS_DOCUMENT_ID w =
  bind (readings STATUS_DOCUMENT_ID) (fun cl =>
    let! newer := lift (is_newer cl.1 cl.2) in
    let! _ :=
      match newer with
      | Some date =>
          let! _ := send_telegram_message ("New update found: " +:+ str date) in
          let! _ := set_last_update_date STATUS_DOCUMENT_ID date in
          let! excel_links := get_excel_links MAIN_URL in
          let! _ := process_links excel_links in
          send_telegram_message "All files processed."
      | None =>
          let! t := now in
          send_telegram_message ("No new updates as of " +:+ str t)
      end in
    finish STATUS_DOCUMENT_ID) w.
Proof.
  unfold main, readings, finish.
  repeat (rewrite bind_assoc; apply bind_ext; intros ? ?).
  by rewrite bind_ret_l.
Qed.

Lemma bind_lift_ok {A B} (r : res A) (a : A) (k : A -> M B) (w : world) :
  r = Ok a -> bind (lift r) k w = k a w.
Proof. intros ->. unfold bind, lift; simpl. by destruct (k a w). Qed.

Lemma main_newer
    (w : world) (c : option datetime) (l : option stamp) (date : datetime) :
  result (readings STATUS_DOCUMENT_ID w) = Ok (c, l) ->
  is_newer c l = Ok (Some date) ->
  main STATUS_DOCUMENT_ID w =
  after (emitted (readings STATUS_DOCUMENT_ID w))
    ((let! _ := send_telegram_message ("New update found: " +:+ str date) in
      let! _ := set_last_update_date STATUS_DOCUMENT_ID date in
      let! _ := ingest in
      finish STATUS_DOCUMENT_ID) (final (readings STATUS_DOCUMENT_ID w))).
Proof.
  intros Hr Hn. rewrite main_split, (bind_ok _ _ _ _ Hr). cbn [fst snd].
  rewrite (bind_lift_ok _ _ _ _ Hn). f_equal.
  unfold ingest. rewrite bind_assoc. apply bind_ext; intros ? ?.
  rewrite bind_assoc. apply bind_ext; intros ? ?.
  rewrite !bind_assoc. apply bind_ext; intros ? ?.
  by rewrite bind_assoc.
Qed.

Lemma main_not_newer (w : world) (c : option datetime) (l : option stamp) :
  result (readings STATUS_DOCUMENT_ID w) = Ok (c, l) ->
  is_newer c l = Ok None ->
  main STATUS_DOCUMENT_ID w =
  after (emitted (readings STATUS_DOCUMENT_ID w))
    ((let! t := now in
      let! _ := send_telegram_message ("No new updates as of " +:+ str t) in
      finish STATUS_DOCUMENT_ID) (final (readings STATUS_DOCUMENT_ID w))).
Proof.
  intros Hr Hn. rewrite main_split, (bind_ok _ _ _ _ Hr). cbn [fst snd].
  rewrite (bind_lift_ok _ _ _ _ Hn). f_equal.
  by rewrite bind_assoc.
Qed.

(** The comparison of a scraped date with a watermark that has a UTC
    offset raises, and nothing in [main] catches it: the run ends there. *)
Lemma main_raises
    (w : world) (c : option datetime) (l : option stamp) (e : exn) :
  result (readings STATUS_DOCUMENT_ID w) = Ok (c, l) ->
  is_newer c l = Raise e ->
  main STATUS_DOCUMENT_ID w =
  mk_outcome (Raise e) (final (readings STATUS_DOCUMENT_ID w))
    (emitted (readings STATUS_DOCUMENT_ID w)).
Proof.
  intros Hr Hn. rewrite main_split, (bind_ok _ _ _ _ Hr). cbn [fst snd].
  rewrite Hn. unfold after, bind, lift. simpl. by rewrite List.app_nil_r.
Qed.

Section Emits.

Context (P : event -> Prop).

Lemma emits_lift {A} (r : res A) : emits P (lift r).
Proof. intros w. constructor. Qed.

Lemma emits_ret {A} (a : A) : emits P (ret a).
Proof. intros w. constructor. Qed.

Lemma emits_raise {A} (e : exn) : emits P (@raise A e).
Proof. intros w. constructor. Qed.

Lemma emits_bind {A B} (m : M A) (k : A -> M B) :
  emits P m -> (forall a, emits P (k a)) -> emits P (bind m k).
Proof.
  intros Hm Hk w. unfold bind. specialize (Hm w).
  destruct (result (m w)); simpl; [|done].
  apply Forall_app. split; [done | apply Hk].
Qed.

Lemma emits_try_except {A} (m : M A) (h : exn -> M A) :
  emits P m -> (forall e, emits P (h e)) -> emits P (try_except m h).
Proof.
  intros Hm Hh w. unfold try_except. specialize (Hm w).
  destruct (result (m w)); simpl; [done|].
  apply Forall_app. split; [done | apply Hh].
Qed.

Lemma emits_requests_get (url : string) :
  P (HttpGet url) -> emits P (requests_get url).
Proof.
  intros H w. unfold requests_get.
  destruct (next (web w)) as [[] rest]; simpl; by repeat constructor.
Qed.

Lemma emits_raise_for_status (response : nat * body) :
  emits P (raise_for_status response).
Proof.
  unfold raise_for_status.
  destruct (error_status _); [apply emits_raise | apply emits_ret].
Qed.

Lemma emits_list_documents (attribute value : string) :
  (forall n, P (ListDocuments attribute value n)) ->
  emits P (list_documents attribute value).
Proof.
  intros H w. unfold list_documents.
  destruct (next (store_faults w)) as [[] rest]; simpl; by repeat constructor.
Qed.

Lemma emits_create_document (data : dict) :
  (forall id ok, P (CreateDocument id data ok)) ->
  emits P (create_document data).
Proof.
  intros H w. unfold create_document.
  destruct (next (store_faults w)) as [[] rest]; simpl; by repeat constructor.
Qed.

Lemma emits_update_document (id : string) (data : dict) :
  (forall ok, P (UpdateDocument id data ok)) ->
  emits P (update_document id data).
Proof.
  intros H w. unfold update_document.
  destruct (next (store_faults w)) as [[] rest];
    destruct (docs w !! id); simpl; by repeat constructor.
Qed.

Lemma emits_get_document (id : string) :
  (forall ok, P (GetDocument id ok)) -> emits P (get_document id).
Proof.
  intros H w. unfold get_document.
  destruct (next (store_faults w)) as [[] rest];
    destruct (docs w !! id); simpl; by repeat constructor.
Qed.

Lemma emits_send_telegram_message (message : string) :
  (forall ok, P (SendMessage message ok)) ->
  emits P (send_telegram_message message).
Proof.
  intros H w. rewrite send_telegram_message_unfold. by repeat constructor.
Qed.

Lemma emits_now : emits P now.
Proof. intros w. unfold now. destruct (next (clock w)). constructor. Qed.

Lemma emits_sleep (seconds : nat) : P (Sleep seconds) -> emits P (sleep seconds).
Proof. intros H w. by repeat constructor. Qed.

Lemma emits_installed : emits P installed.
Proof. intros w. constructor. Qed.

End Emits.

(** Compose the lemmas above along the structure of a function; the
    side conditions are closed by computation. *)
Ltac emits :=
  repeat first
    [ progress intros
    | apply emits_lift | apply emits_ret | apply emits_raise | apply emits_now
    | apply emits_installed
    | apply emits_raise_for_status
    | apply emits_send_telegram_message; reflexivity
    | apply emits_requests_get; reflexivity
    | apply emits_list_documents; reflexivity
    | apply emits_create_document; reflexivity
    | apply emits_update_document; reflexivity
    | apply emits_get_document; reflexivity
    | apply emits_sleep; reflexivity
    | solve [auto]
    | apply emits_bind
    | apply emits_try_except
    | case_match ].

Lemma readings_no_insert :
  emits (fun e => is_insert e = false) (readings STATUS_DOCUMENT_ID).
Proof.
  unfold readings, update_status, get_update_date, get_last_update_date.
  emits.
Qed.

Lemma insert_loop_no_watermark (data : list dict) (c : nat) :
  emits (fun e => is_watermark_write e = false) (insert_loop data c).
Proof.
  revert c. induction data as [|record rest IH]; intros c; simpl.
  - apply emits_ret.
  - apply emits_bind; [|done]. unfold insert_record. emits.
Qed.

Lemma process_links_no_watermark (links : list string) :
  emits (fun e => is_watermark_write e = false) (process_links links).
Proof.
  induction links as [|link rest IH]; simpl; [apply emits_ret|].
  apply emits_bind; [|done].
  unfold process_link, download_excel, process_excel, insert_into_appwrite.
  pose proof insert_loop_no_watermark. emits.
Qed.

Lemma status_data_no_watermark (status : string) (t : datetime) :
  status_data status t !! "last_update_date" = None.
Proof. unfold status_data. by simplify_map_eq. Qed.

Lemma finish_no_watermark :
  emits (fun e => is_watermark_write e = false) (finish STATUS_DOCUMENT_ID).
Proof.
  unfold finish. apply emits_bind; [|emits].
  intros w. rewrite update_status_unfold.
  destruct (write_status_document_events
              (status_data "idle" (next (clock w)).1)
              (set_clock (next (clock w)).2 w)) as (ok & -> & _).
  constructor; [|constructor].
  unfold is_watermark_write. by rewrite status_data_no_watermark.
Qed.

Lemma ingest_no_watermark :
  emits (fun e => is_watermark_write e = false) ingest.
Proof.
  unfold ingest, get_excel_links.
  pose proof process_links_no_watermark. emits.
Qed.

(** C2, as amended.  In every run of [main] that detects a newer update,
    the watermark is written right after the detection, next to the
    "New update found" notification: the operations before it are those
    that read the two dates, none of which inserts a document, so every
    insertion of the run comes after the watermark write; what follows
    (links, downloads, insertions, the status write to idle) writes no
    watermark any more. *)
Theorem watermark_written_before_ingestion
    (w : world) (current : option datetime) (last : option stamp)
    (date : datetime) :
  result (readings STATUS_DOCUMENT_ID w) = Ok (current, last) ->
  is_newer current last = Ok (Some date) ->
  exists delivered ok after,
    emitted (main STATUS_DOCUMENT_ID w) =
      emitted (readings STATUS_DOCUMENT_ID w) ++
      SendMessage ("New update found: " +:+ str date) delivered ::
      UpdateDocument STATUS_DOCUMENT_ID (watermark_data date) ok :: after /\
    Forall (fun e => is_insert e = false)
      (emitted (readings STATUS_DOCUMENT_ID w)) /\
    Forall (fun e => is_watermark_write e = false) after.
Proof.
  intros Hr Hn. rewrite (main_newer w _ _ _ Hr Hn).
  set (w1 := final (readings STATUS_DOCUMENT_ID w)).
  set (msg := "New update found: " +:+ str date).
  rewrite (bind_ok (send_telegram_message msg) _ w1 tt)
    by by rewrite send_telegram_message_unfold.
  set (w2 := final (send_telegram_message msg w1)).
  destruct (write_status_document_events (watermark_data date) w2)
    as (ok & Hev & Hres).
  rewrite (bind_ok (set_last_update_date STATUS_DOCUMENT_ID date) _ w2 tt)
    by by rewrite set_last_update_date_unfold.
  rewrite !set_last_update_date_unfold, Hev, send_telegram_message_unfold.
  set (w3 := final _). cbn [emitted].
  exists (negb (next (bot_faults w1)).1), ok,
    (emitted ((let! _ := ingest in finish STATUS_DOCUMENT_ID) w3)).
  split_and!.
  - rewrite !after_after. unfold after. cbn [emitted].
    by rewrite <- !List.app_assoc.
  - apply readings_no_insert.
  - apply (emits_bind _ ingest (fun _ => finish STATUS_DOCUMENT_ID));
      auto using ingest_no_watermark, finish_no_watermark.
Qed.

(** *** A run that finds nothing new *)

Lemma lex_lt_irrefl (l : list Z) : lex_lt l l = false.
Proof.
  induction l as [|x l IH]; simpl; [done|].
  by rewrite Z.ltb_irrefl, Z.eqb_refl, IH.
Qed.

Lemma is_newer_same (date : datetime) :
  is_newer (Some date) (Some (Naive date)) = Ok None.
Proof. unfold is_newer, gt. by rewrite lex_lt_irrefl. Qed.

(** What a write to the status document leaves alone. *)
Lemma write_status_document_frame (data : dict) (w : world) :
  let o := write_status_document STATUS_DOCUMENT_ID data w in
  (forall id, id <> STATUS_DOCUMENT_ID -> docs (final o) !! id = docs w !! id) /\
  (forall old, docs w !! STATUS_DOCUMENT_ID = Some old ->
     exists new,
       docs (final o) !! STATUS_DOCUMENT_ID = Some new /\
       (forall k, data !! k = None -> new !! k = old !! k) /\
       (forall k v,
          emitted o = [UpdateDocument STATUS_DOCUMENT_ID data true] ->
          data !! k = Some v -> new !! k = Some v)) /\
  bot_faults (final o) = bot_faults w /\
  web (final o) = web w /\
  clock (final o) = clock w.
Proof.
  cbv zeta. unfold write_status_document.
  destruct (next (store_faults w)) as [[] rest];
    destruct (docs w !! STATUS_DOCUMENT_ID) as [old|] eqn:E; simpl;
    (split_and!; [|intros old' [= <-]|done..]); try done.
  - exists old. rewrite E. by split_and!.
  - intros id Hid. by rewrite lookup_insert_ne.
  - exists (data ∪ old). rewrite lookup_insert_eq. split_and!; [done| |].
    + intros k Hk. by apply lookup_union_r.
    + intros k v _ Hk. by apply lookup_union_Some_l.
Qed.

Lemma write_status_document_python (data : dict) (w : world) :
  python (final (write_status_document STATUS_DOCUMENT_ID data w)) = python w.
Proof.
  unfold write_status_document.
  destruct (next (store_faults w)) as [[] rest];
    by destruct (docs w !! STATUS_DOCUMENT_ID).
Qed.

Lemma update_status_result (status : string) (w : world) :
  result (update_status STATUS_DOCUMENT_ID status w) = Ok tt.
Proof.
  rewrite update_status_unfold.
  by destruct (write_status_document_events
                 (status_data status (next (clock w)).1)
                 (set_clock (next (clock w)).2 w)) as (ok & _ & ->).
Qed.

(** A write to a status document that is there, call by call. *)
Lemma write_status_document_present (data old : dict) (w : world) :
  docs w !! STATUS_DOCUMENT_ID = Some old ->
  write_status_document STATUS_DOCUMENT_ID data w =
  mk_outcome (Ok tt)
    (set_docs
       (if answer 0 (store_faults w) then docs w
        else <[STATUS_DOCUMENT_ID := data ∪ old]> (docs w))
       (set_store_faults (later 1 (store_faults w)) w))
    [UpdateDocument STATUS_DOCUMENT_ID data (negb (answer 0 (store_faults w)))].
Proof.
  intros Hold. unfold write_status_document, answer. simpl. rewrite Hold.
  by destruct (next (store_faults w)) as [[] rest].
Qed.

(** The start of a run that reads a watermark. *)
Lemma readings_with_watermark
    (w : world) (current : option datetime) (last : stamp) :
  result (readings STATUS_DOCUMENT_ID w) = Ok (current, Some last) ->
  exists old mid,
    emitted (readings STATUS_DOCUMENT_ID w) =
      [ UpdateDocument STATUS_DOCUMENT_ID
          (status_data "running" (answer 0 (clock w)))
          (negb (answer 0 (store_faults w)));
        SendMessage "Script started running." (negb (answer 0 (bot_faults w)));
        HttpGet MAIN_URL;
        GetDocument STATUS_DOCUMENT_ID true ] /\
    docs w !! STATUS_DOCUMENT_ID = Some old /\
    docs (final (readings STATUS_DOCUMENT_ID w)) !! STATUS_DOCUMENT_ID = Some mid /\
    (forall k, k <> "status" -> k <> "last_updated" -> mid !! k = old !! k) /\
    mid !! "status" =
      (if answer 0 (store_faults w) then old !! "status"
       else Some (VStr "running")) /\
    (forall id, id <> STATUS_DOCUMENT_ID ->
       docs (final (readings STATUS_DOCUMENT_ID w)) !! id = docs w !! id) /\
    store_faults (final (readings STATUS_DOCUMENT_ID w)) = later 2 (store_faults w) /\
    bot_faults (final (readings STATUS_DOCUMENT_ID w)) = later 1 (bot_faults w) /\
    clock (final (readings STATUS_DOCUMENT_ID w)) = later 1 (clock w).
Proof.
  unfold readings.
  rewrite (bind_ok (update_status STATUS_DOCUMENT_ID "running") _ w tt)
    by apply update_status_result.
  rewrite (update_status_unfold "running" w).
  change (next (clock w)).1 with (answer 0 (clock w)).
  set (data := status_data "running" (answer 0 (clock w))).
  set (w0 := set_clock _ w).
  destruct (docs w !! STATUS_DOCUMENT_ID) as [old|] eqn:Eold.
  - rewrite (write_status_document_present data old w0 Eold).
    cbn [final emitted]. change (store_faults w0) with (store_faults w).
    change (docs w0) with (docs w).
    set (w1 := set_docs _ _).
    rewrite (bind_ok (send_telegram_message _) _ w1 tt)
      by by rewrite send_telegram_message_unfold.
    rewrite send_telegram_message_unfold. cbn [final emitted].
    set (w2 := set_bot_faults _ w1).
    rewrite (bind_ok (get_update_date MAIN_URL) _ w2 _)
      by (rewrite get_update_date_unfold; reflexivity).
    rewrite get_update_date_unfold. cbn [final emitted].
    set (w3 := set_web _ w2).
    destruct (get_last_update_date_cases w3) as [(status_doc & Edoc & E4)|E4];
      rewrite (bind_ok (get_last_update_date STATUS_DOCUMENT_ID) _ w3 _)
        by (rewrite E4; reflexivity);
      rewrite E4; unfold ret, after; cbn [result final emitted];
      intros [= _ Hwm].
    exists old, status_doc.
    change (docs w3) with
      (if answer 0 (store_faults w) then docs w
       else <[STATUS_DOCUMENT_ID := data ∪ old]> (docs w)) in Edoc.
    change (docs (set_store_faults (next (store_faults w3)).2 w3)) with
      (if answer 0 (store_faults w) then docs w
       else <[STATUS_DOCUMENT_ID := data ∪ old]> (docs w)).
    split_and!; try done.
    + destruct (answer 0 (store_faults w)).
      * rewrite Eold in Edoc. by injection Edoc as <-.
      * rewrite lookup_insert_eq in Edoc. injection Edoc as <-.
        intros k Hk1 Hk2. apply lookup_union_r.
        unfold data, status_data. by simplify_map_eq.
    + destruct (answer 0 (store_faults w)).
      * rewrite Eold in Edoc. by injection Edoc as <-.
      * rewrite lookup_insert_eq in Edoc. injection Edoc as <-.
        apply lookup_union_Some_l. unfold data, status_data. by simplify_map_eq.
    + intros id Hid. destruct (answer 0 (store_faults w)); [done|].
      by rewrite lookup_insert_ne.
  - assert (E : write_status_document STATUS_DOCUMENT_ID data w0 =
                mk_outcome (Ok tt) (set_store_faults (later 1 (store_faults w)) w0)
                  [UpdateDocument STATUS_DOCUMENT_ID data false]).
    { unfold write_status_document. change (docs w0) with (docs w).
      rewrite Eold. simpl. by destruct (next (store_faults w)). }
    rewrite E. cbn [final emitted]. set (w1 := set_store_faults _ w0).
    rewrite (bind_ok (send_telegram_message _) _ w1 tt)
      by by rewrite send_telegram_message_unfold.
    rewrite send_telegram_message_unfold. cbn [final emitted].
    set (w2 := set_bot_faults _ w1).
    rewrite (bind_ok (get_update_date MAIN_URL) _ w2 _)
      by (rewrite get_update_date_unfold; reflexivity).
    rewrite get_update_date_unfold. cbn [final emitted].
    set (w3 := set_web _ w2).
    destruct (get_last_update_date_cases w3) as [(status_doc & Edoc & E4)|E4];
      rewrite (bind_ok (get_last_update_date STATUS_DOCUMENT_ID) _ w3 _)
        by (rewrite E4; reflexivity);
      rewrite E4; unfold ret, after; cbn [result final emitted];
      intros [= _ Hwm].
    change (docs w3) with (docs w) in Edoc. congruence.
Qed.

(** The end of a run that found nothing new. *)
Lemma nothing_new_tail (w : world) (old : dict) :
  docs w !! STATUS_DOCUMENT_ID = Some old ->
  let o := (let! t := now in
            let! _ := send_telegram_message ("No new updates as of " +:+ str t) in
            finish STATUS_DOCUMENT_ID) w in
  exists new,
    emitted o =
      [ SendMessage ("No new updates as of " +:+ str (answer 0 (clock w)))
          (negb (answer 0 (bot_faults w)));
        UpdateDocument STATUS_DOCUMENT_ID
          (status_data "idle" (answer 1 (clock w)))
          (negb (answer 0 (store_faults w)));
        SendMessage "Script finished running." (negb (answer 1 (bot_faults w))) ] /\
    result o = Ok tt /\
    docs (final o) !! STATUS_DOCUMENT_ID = Some new /\
    (forall k, k <> "status" -> k <> "last_updated" -> new !! k = old !! k) /\
    (answer 0 (store_faults w) = false ->
     new !! "status" = Some (VStr "idle") /\
     new !! "last_updated" = Some (VStr (isoformat (answer 1 (clock w))))) /\
    (answer 0 (store_faults w) = true -> new = old) /\
    (forall id, id <> STATUS_DOCUMENT_ID -> docs (final o) !! id = docs w !! id).
Proof.
  intros Hold. cbv zeta. rewrite bind_now.
  change (next (clock w)).1 with (answer 0 (clock w)).
  set (w5 := set_clock _ w).
  rewrite (bind_ok (send_telegram_message _) _ w5 tt)
    by by rewrite send_telegram_message_unfold.
  rewrite send_telegram_message_unfold. cbn [final emitted].
  change (bot_faults w5) with (bot_faults w).
  change (next (bot_faults w)).1 with (answer 0 (bot_faults w)).
  set (w6 := set_bot_faults _ w5).
  unfold finish.
  rewrite (bind_ok (update_status STATUS_DOCUMENT_ID "idle") _ w6 tt)
    by apply update_status_result.
  rewrite (update_status_unfold "idle" w6).
  change (next (clock w6)).1 with (answer 1 (clock w)).
  set (data := status_data "idle" (answer 1 (clock w))).
  set (w6' := set_clock _ w6).
  rewrite (write_status_document_present data old w6' Hold).
  cbn [final emitted]. change (store_faults w6') with (store_faults w).
  change (docs w6') with (docs w).
  rewrite send_telegram_message_unfold. unfold after. cbn [result final emitted].
  exists (if answer 0 (store_faults w) then old else data ∪ old).
  split_and!; try done.
  - cbn [docs set_docs set_bot_faults]. destruct (answer 0 (store_faults w)); [done|].
    by rewrite lookup_insert_eq.
  - intros k Hk1 Hk2. destruct (answer 0 (store_faults w)); [done|].
    apply lookup_union_r. unfold data, status_data. by simplify_map_eq.
  - intros ->. split; apply lookup_union_Some_l; unfold data, status_data;
      by simplify_map_eq.
  - by intros ->.
  - intros id Hid. cbn [docs set_docs set_bot_faults].
    destruct (answer 0 (store_faults w)); [done|]. by rewrite lookup_insert_ne.
Qed.

(** A run whose comparison finds nothing new, operation by operation. *)
Lemma nothing_new_run (w : world) (scraped watermark : datetime) :
  result (readings STATUS_DOCUMENT_ID w) = Ok (Some scraped, Some (Naive watermark)) ->
  gt scraped watermark = false ->
  exists old new,
    emitted (main STATUS_DOCUMENT_ID w) =
      [ UpdateDocument STATUS_DOCUMENT_ID
          (status_data "running" (answer 0 (clock w)))
          (negb (answer 0 (store_faults w)));
        SendMessage "Script started running." (negb (answer 0 (bot_faults w)));
        HttpGet MAIN_URL;
        GetDocument STATUS_DOCUMENT_ID true;
        SendMessage ("No new updates as of " +:+ str (answer 1 (clock w)))
          (negb (answer 1 (bot_faults w)));
        UpdateDocument STATUS_DOCUMENT_ID
          (status_data "idle" (answer 2 (clock w)))
          (negb (answer 2 (store_faults w)));
        SendMessage "Script finished running." (negb (answer 2 (bot_faults w))) ] /\
    result (main STATUS_DOCUMENT_ID w) = Ok tt /\
    docs w !! STATUS_DOCUMENT_ID = Some old /\
    docs (final (main STATUS_DOCUMENT_ID w)) !! STATUS_DOCUMENT_ID = Some new /\
    (forall k, k <> "status" -> k <> "last_updated" -> new !! k = old !! k) /\
    (answer 2 (store_faults w) = false ->
     new !! "status" = Some (VStr "idle") /\
     new !! "last_updated" = Some (VStr (isoformat (answer 2 (clock w))))) /\
    (answer 2 (store_faults w) = true ->
     new !! "status" =
       if answer 0 (store_faults w) then old !! "status"
       else Some (VStr "running")) /\
    (forall id, id <> STATUS_DOCUMENT_ID ->
       docs (final (main STATUS_DOCUMENT_ID w)) !! id = docs w !! id).
Proof.
  intros Hr Hgt.
  assert (Hn : is_newer (Some scraped) (Some (Naive watermark)) = Ok None)
    by (unfold is_newer; by rewrite Hgt).
  rewrite (main_not_newer w _ _ Hr Hn).
  destruct (readings_with_watermark w _ _ Hr)
    as (old & mid & Hev & Hold & Hmid & Hkeep1 & Hstatus & Hframe1 & Hs & Hb & Hc).
  destruct (nothing_new_tail (final (readings STATUS_DOCUMENT_ID w)) mid Hmid)
    as (new & Hev' & Hres & Hnew & Hkeep2 & Hidle & Hsame & Hframe2).
  cbv zeta in *. rewrite Hs, Hb, Hc in *.
  unfold after. cbn [result final emitted]. rewrite Hev, Hev'.
  exists old, new. split_and!; try done.
  - intros k Hk1 Hk2. by rewrite Hkeep2, Hkeep1.
  - intros Hf. by rewrite (Hsame Hf).
  - intros id Hid. by rewrite Hframe2, Hframe1.
Qed.

End Pipeline.

(** ** The update detector *)

Module UpdateDetector.

#[local] Open Scope Z_scope.

(** *** Digits *)

Lemma digit_char_facts (k : Z) :
  0 <= k < 10 ->
  is_digit (digit_char k) = true /\
  is_word (digit_char k) = true /\
  is_space (digit_char k) = false /\
  digit_value (digit_char k) = k.
Proof.
  intros H.
  assert (k = 0 \/ k = 1 \/ k = 2 \/ k = 3 \/ k = 4 \/ k = 5 \/ k = 6 \/
          k = 7 \/ k = 8 \/ k = 9) as Hk by lia.
  repeat (destruct Hk as [->|Hk]; [by vm_compute|]). by subst.
Qed.

Lemma dec2_digits (n : Z) :
  0 <= n ->
  exists a b, dec2 n = String (digit_char a) (String (digit_char b) "") /\
    0 <= a < 10 /\ 0 <= b < 10 /\ 10 * a + b = n mod 100.
Proof.
  intros H. exists (n / 10 mod 10), (n mod 10). split; [done|].
  pose proof (Z.mod_pos_bound (n / 10) 10). pose proof (Z.mod_pos_bound n 10).
  split_and!; try lia.
  Z.div_mod_to_equations. lia.
Qed.

(** *** Splitting off a run of characters *)

Lemma span_app (p : ascii -> bool) (a b : string) :
  all_chars p a = true ->
  match b with
  | EmptyString => True
  | String c _ => p c = false
  end ->
  span p (a +:+ b) = (a, b).
Proof.
  intros Ha Hb. induction a as [|c a IH]; simpl in *.
  - destruct b as [|c b]; simpl; [done|]. by rewrite Hb.
  - apply andb_true_iff in Ha as [Hc Ha]. by rewrite Hc, IH.
Qed.

Lemma span_spec (p : ascii -> bool) (s a b : string) :
  span p s = (a, b) ->
  s = a +:+ b /\ all_chars p a = true /\
  match b with
  | EmptyString => True
  | String c _ => p c = false
  end.
Proof.
  revert a b. induction s as [|c s IH]; simpl; intros a b H.
  - by injection H as <- <-.
  - destruct (p c) eqn:Hc.
    + destruct (span p s) as [a' b'] eqn:E. injection H as <- <-.
      destruct (IH _ _ eq_refl) as (-> & Ha & Hb). simpl. by rewrite Hc, Ha.
    + injection H as <- <-. simpl. by rewrite Hc.
Qed.

Lemma take_digits_app (n : nat) (ds rest : string) :
  String.length ds = n -> all_chars is_digit ds = true ->
  take_digits n (ds +:+ rest) = Some (ds, rest).
Proof.
  revert ds. induction n as [|n IH]; intros [|c ds] Hlen Hd;
    simpl in *; try done.
  apply andb_true_iff in Hd as [Hc Hd]. rewrite Hc, IH; [done|lia|done].
Qed.

Lemma take_digits_spec (n : nat) (s ds rest : string) :
  take_digits n s = Some (ds, rest) ->
  s = ds +:+ rest /\ String.length ds = n /\ all_chars is_digit ds = true.
Proof.
  revert s ds. induction n as [|n IH]; intros s ds H; simpl in *.
  - by injection H as <- <-.
  - destruct s as [|c s]; [done|]. destruct (is_digit c) eqn:Hc; [|done].
    destruct (take_digits n s) as [[ds' r']|] eqn:E; [|done].
    injection H as <- <-. destruct (IH _ _ E) as (-> & Hl & Hd).
    simpl. by rewrite Hc, Hl, Hd.
Qed.

(** *** The date pattern *)

Lemma match_at_spec (s m : string) :
  DatePattern.match_at s = Some m <-> date_shaped s m.
Proof.
  unfold DatePattern.match_at, date_shaped. split.
  - destruct (span is_word s) as [w r1] eqn:E1.
    apply span_spec in E1 as (-> & Hw & _).
    destruct w as [|c w]; [done|].
    destruct r1 as [|sp r]; [done|].
    destruct sp as [[] [] [] [] [] [] [] []]; try done.
    destruct (span is_digit r) as [d r3] eqn:E2.
    apply span_spec in E2 as (-> & Hd & _).
    destruct d as [|c' d]; [done|].
    destruct r3 as [|c1 r3]; [done|].
    destruct c1 as [[] [] [] [] [] [] [] []]; try done.
    destruct r3 as [|c2 r']; [done|].
    destruct c2 as [[] [] [] [] [] [] [] []]; try done.
    destruct (take_digits 4 r') as [[y rest]|] eqn:E3; [|done].
    apply take_digits_spec in E3 as (-> & Hl & Hy).
    intros [= <-]. exists (String c w), (String c' d), y, rest.
    split_and!; try done.
    by repeat (simpl; rewrite ?TextFacts.app_assoc).
  - intros (w & d & y & rest & -> & -> & Hw0 & Hw & Hd0 & Hd & Hl & Hy).
    destruct w as [|c w]; [done|]. destruct d as [|c' d]; [done|].
    assert (E : (String c w +:+ " " +:+ String c' d +:+ ", " +:+ y) +:+ rest =
                String c w +:+
                String " " (String c' d +:+ String "," (String " " (y +:+ rest))))
      by by repeat (simpl; rewrite ?TextFacts.app_assoc).
    rewrite E. rewrite (span_app is_word (String c w)) by done. cbv iota beta.
    rewrite (span_app is_digit (String c' d)) by done. cbv iota beta.
    by rewrite (take_digits_app 4 y rest).
Qed.

Lemma search_unfold (s : string) :
  DatePattern.search s =
  match DatePattern.match_at s with
  | Some m => Some m
  | None =>
      match s with
      | EmptyString => None
      | String _ s' => DatePattern.search s'
      end
  end.
Proof. by destruct s. Qed.

(** [search] returns the match at the first position that has one. *)
Lemma search_first (before s m : string) :
  (forall a b, before = a +:+ b -> b <> "" ->
     DatePattern.match_at (b +:+ s) = None) ->
  DatePattern.match_at s = Some m ->
  DatePattern.search (before +:+ s) = Some m.
Proof.
  intros Hnone Hm. induction before as [|c before IH].
  - change ("" +:+ s) with s. by rewrite search_unfold, Hm.
  - rewrite search_unfold, (Hnone "" (String c before)) by done.
    change (String c before +:+ s) with (String c (before +:+ s)).
    apply IH. intros a b -> Hb. by apply (Hnone (String c a)).
Qed.

(** *** Writing a date the way the status page does *)

Lemma valid_date_bounds (y m d : Z) :
  valid_date y m d = true ->
  1 <= y <= 9999 /\ 1 <= m <= 12 /\ 1 <= d <= 31.
Proof.
  unfold valid_date. rewrite !andb_true_iff, !Z.leb_le.
  intros (((((? & ?) & ?) & ?) & ?) & Hd).
  assert (days_in_month y m <= 31); [|lia].
  unfold days_in_month.
  assert (m = 1 \/ m = 2 \/ m = 3 \/ m = 4 \/ m = 5 \/ m = 6 \/ m = 7 \/
          m = 8 \/ m = 9 \/ m = 10 \/ m = 11 \/ m = 12) as Hm by lia.
  repeat (destruct Hm as [->|Hm]; [try done; by destruct (is_leap y)|]).
  by subst.
Qed.

Lemma month_cases (m : Z) :
  1 <= m <= 12 ->
  In m [1; 2; 3; 4; 5; 6; 7; 8; 9; 10; 11; 12].
Proof. intros H. simpl. lia. Qed.

Lemma day_cases (d : Z) :
  1 <= d <= 31 ->
  In d [1; 2; 3; 4; 5; 6; 7; 8; 9; 10; 11; 12; 13; 14; 15; 16; 17; 18; 19; 20;
        21; 22; 23; 24; 25; 26; 27; 28; 29; 30; 31].
Proof. intros H. simpl. lia. Qed.

(** Month names are words, and [strptime] recognises each. *)
Lemma month_name_word (m : Z) :
  1 <= m <= 12 ->
  month_name m <> "" /\ all_chars is_word (month_name m) = true.
Proof.
  intros H%month_cases. simpl in H.
  repeat (destruct H as [<-|H]; [by vm_compute|]). done.
Qed.

Lemma parse_month_name (m : Z) (rest : string) :
  1 <= m <= 12 ->
  parse_month (month_name m +:+ rest) = Some (m, rest).
Proof.
  intros H%month_cases. simpl in H.
  repeat (destruct H as [<-|H]; [by vm_compute|]). done.
Qed.

Lemma day_text_digits (padded : bool) (d : Z) :
  1 <= d <= 31 ->
  day_text padded d <> "" /\ all_chars is_digit (day_text padded d) = true /\
  match day_text padded d with
  | String c _ => is_space c = false
  | EmptyString => False
  end.
Proof.
  intros H%day_cases. simpl in H.
  repeat (destruct H as [<-|H]; [by destruct padded; vm_compute|]). done.
Qed.

Lemma parse_day_text (padded : bool) (d : Z) (rest : string) :
  1 <= d <= 31 ->
  parse_day (day_text padded d +:+ String "," rest) = Some (d, String "," rest).
Proof.
  intros H%day_cases. simpl in H.
  repeat (destruct H as [<-|H]; [by destruct padded; vm_compute|]). done.
Qed.

Lemma dec4_digits (y : Z) :
  0 <= y <= 9999 ->
  exists a b c e,
    dec4 y = String (digit_char a) (String (digit_char b)
               (String (digit_char c) (String (digit_char e) ""))) /\
    0 <= a < 10 /\ 0 <= b < 10 /\ 0 <= c < 10 /\ 0 <= e < 10 /\
    1000 * a + 100 * b + 10 * c + e = y.
Proof.
  intros H.
  exists (y / 100 / 10 mod 10), (y / 100 mod 10), (y / 10 mod 10), (y mod 10).
  split; [done|]. Z.div_mod_to_equations. lia.
Qed.

Lemma dec4_year (y : Z) :
  0 <= y <= 9999 ->
  String.length (dec4 y) = 4%nat /\
  all_chars is_digit (dec4 y) = true /\
  int_of_digits (dec4 y) = y /\
  match dec4 y with
  | String c _ => is_space c = false
  | EmptyString => False
  end.
Proof.
  intros H. destruct (dec4_digits y H)
    as (a & b & c & e & -> & Ha & Hb & Hc & He & Hy).
  destruct (digit_char_facts a Ha) as (Da & _ & Sa & Va).
  destruct (digit_char_facts b Hb) as (Db & _ & _ & Vb).
  destruct (digit_char_facts c Hc) as (Dc & _ & _ & Vc).
  destruct (digit_char_facts e He) as (De & _ & _ & Ve).
  split_and!; [done| |  |done].
  - simpl. by rewrite Da, Db, Dc, De.
  - unfold int_of_digits. simpl. rewrite Va, Vb, Vc, Ve. lia.
Qed.

Lemma skip_one_space (s : string) :
  match s with
  | String c _ => is_space c = false
  | EmptyString => False
  end ->
  skip_spaces1 (String " " s) = Some s.
Proof.
  intros H. unfold skip_spaces1.
  change (String " " s) with (String " " "" +:+ s).
  rewrite (span_app is_space (String " " "") s); [done|done|].
  by destruct s.
Qed.

(** [strptime] reads back the date that [date_text] writes. *)
Lemma strptime_date_text (padded : bool) (y m d : Z) :
  valid_date y m d = true ->
  strptime_B_d_Y (date_text padded y m d) = Some (midnight y m d).
Proof.
  intros Hv. destruct (valid_date_bounds _ _ _ Hv) as (Hy & Hm & Hd).
  destruct (day_text_digits padded d Hd) as (_ & _ & Hsp).
  destruct (dec4_year y) as (Hl & Hdig & Hval & Hsp'); [lia|].
  unfold strptime_B_d_Y, date_text.
  rewrite parse_month_name by done. simpl.
  rewrite skip_one_space.
  2:{ destruct (day_text padded d); [done|]. by simpl. }
  simpl. rewrite parse_day_text by done. simpl.
  rewrite skip_one_space by done. simpl.
  unfold number.
  rewrite <- (TextFacts.app_nil_r (dec4 y)) at 1.
  rewrite (take_digits_app 4 (dec4 y) "") by done.
  rewrite Hval. cbn [mbind option_bind]. by rewrite Hv.
Qed.

(** *** Finding the text node *)

Lemma find_string_none (page : soup) :
  (forall text, text ∈ strings page -> ~ has_substring MARKER text) ->
  find_string MARKER page = None.
Proof.
  unfold find_string. induction (strings page) as [|t l IH]; intros H; simpl.
  - done.
  - destruct (contains MARKER t) eqn:E.
    + apply contains_spec in E. exfalso. apply (H t); [left|done].
    + apply IH. intros text Ht. apply H. by right.
Qed.

Lemma find_string_first (page : soup) (before after : list string) (text : string) :
  strings page = before ++ text :: after ->
  (forall t, t ∈ before -> ~ has_substring MARKER t) ->
  has_substring MARKER text ->
  find_string MARKER page = Some text.
Proof.
  unfold find_string. intros -> Hb Ht.
  induction before as [|t l IH]; simpl.
  - apply contains_spec in Ht. by rewrite Ht.
  - destruct (contains MARKER t) eqn:E.
    + apply contains_spec in E. exfalso. apply (Hb t); [left|done].
    + apply IH. intros t' Ht'. apply Hb. by right.
Qed.

(** *** Soft failure *)

Lemma search_none (text : string) :
  (forall a b m, text = a +:+ b -> ~ date_shaped b m) ->
  DatePattern.search text = None.
Proof.
  induction text as [|c text IH]; intros H; rewrite search_unfold.
  - destruct (DatePattern.match_at "") as [m|] eqn:E; [|done].
    apply match_at_spec in E. by destruct (H "" "" m).
  - destruct (DatePattern.match_at (String c text)) as [m|] eqn:E.
    + apply match_at_spec in E. by destruct (H "" (String c text) m).
    + apply IH. intros a b m -> Hm. by apply (H (String c a) b m).
Qed.

(** [get_update_date] never raises. *)
Lemma get_update_date_total (url : string) (w : world) :
  exists date, result (get_update_date url w) = Ok date.
Proof. rewrite get_update_date_unfold. by eexists. Qed.

(** C6. When the fetch fails, the freshness text is absent or malformed,
    or its date does not parse, [get_update_date] returns [None]: it
    returns, so no exception reaches its caller.  Malformed: the first
    text node with the marker has no text of the shape of the pattern;
    for a node with characters outside ASCII, shape and date are judged by
    the libraries of the installation. *)
Theorem get_update_date_fails_soft (url : string) (w : world) :
  no_date (python w) (next (web w)).1 ->
  result (get_update_date url w) = Ok None.
Proof.
  intros H. rewrite get_update_date_unfold. cbn [result]. f_equal.
  unfold update_date_of, fetched, scrape_update_date, read_date.
  change (find_string "updated as on") with (find_string MARKER).
  destruct H as [|code content Hs|code content Habs
                 |code content before text after Hstr Hb Ht Ha Hshape
                 |code content before text after date_str Hstr Hb Ht Ha Hs Hp
                 |code content before text after Hstr Hb Ht Ha Hf].
  - done.
  - by rewrite Hs.
  - destruct (error_status code); [done|].
    by rewrite (find_string_none _ Habs).
  - destruct (error_status code); [done|].
    rewrite (find_string_first _ _ _ _ Hstr Hb Ht), Ha.
    by rewrite (search_none _ Hshape).
  - destruct (error_status code); [done|].
    rewrite (find_string_first _ _ _ _ Hstr Hb Ht), Ha. by rewrite Hs, Hp.
  - destruct (error_status code); [done|].
    rewrite (find_string_first _ _ _ _ Hstr Hb Ht), Ha.
    destruct (foreign_date (python w) text) as [[[y m] d]|]; [|done].
    by rewrite Hf.
Qed.

(** *** Reading the date *)

Lemma date_text_shaped (padded : bool) (y m d : Z) (rest : string) :
  valid_date y m d = true ->
  date_shaped (date_text padded y m d +:+ rest) (date_text padded y m d).
Proof.
  intros Hv. destruct (valid_date_bounds _ _ _ Hv) as (Hy & Hm & Hd).
  destruct (month_name_word m Hm) as [Hn Hw].
  destruct (day_text_digits padded d Hd) as (Hd0 & Hdd & _).
  destruct (dec4_year y) as (Hl & Hdig & _); [lia|].
  by exists (month_name m), (day_text padded d), (dec4 y), rest.
Qed.

Lemma all_chars_app (p : ascii -> bool) (a b : string) :
  all_chars p (a +:+ b) = all_chars p a && all_chars p b.
Proof. induction a as [|c a IH]; simpl; [done|]. by rewrite IH, andb_assoc. Qed.

Lemma suffix_ends_with_blank (p a b : string) :
  p +:+ " " = a +:+ b -> b <> "" -> exists b0, b = b0 +:+ " ".
Proof.
  revert p. induction a as [|c a IH]; intros p E Hb.
  - exists p. by rewrite E.
  - destruct p as [|c' p]; simpl in E.
    + injection E as _ E. by destruct a, b.
    + injection E as _ E. by apply (IH p).
Qed.

Lemma word_then_digit (word b rest : string) (c : ascii) (tail : string) :
  all_chars is_word word = true ->
  no_digit b = true ->
  (exists b0, b = b0 +:+ " ") ->
  match rest with
  | String x _ => is_digit x = false
  | EmptyString => True
  end ->
  b +:+ rest = word +:+ String " " (String c tail) ->
  is_digit c = false.
Proof.
  revert b. induction word as [|x word IH]; intros b Hw Hb [b0 Hb0] Hr E.
  - destruct b as [|y b]; [by destruct b0|].
    simpl in E. injection E as -> E.
    destruct b as [|z b].
    + simpl in E. subst rest. done.
    + simpl in E. injection E as -> _. unfold no_digit in Hb. simpl in Hb.
      apply andb_true_iff in Hb as [Hb _]. by apply negb_true_iff.
  - destruct b as [|y b]; [by destruct b0|].
    simpl in E. injection E as -> E.
    simpl in Hw. apply andb_true_iff in Hw as [Hx Hw].
    unfold no_digit in Hb. simpl in Hb. apply andb_true_iff in Hb as [_ Hb].
    apply (IH b); try done.
    destruct b0 as [|y0 b0]; simpl in Hb0.
    + injection Hb0 as -> _. done.
    + injection Hb0 as _ ->. by exists b0.
Qed.

Lemma no_digit_no_earlier_date (pre rest : string) :
  no_digit (pre +:+ " ") = true ->
  match rest with
  | String x _ => is_digit x = false
  | EmptyString => True
  end ->
  forall a b shape, pre +:+ " " = a +:+ b -> b <> "" ->
    ~ date_shaped (b +:+ rest) shape.
Proof.
  intros Hpre Hrest a b shape E Hb
    (word & digits & year & rest' & Es & -> & _ & Hw & Hd0 & Hd & _).
  destruct digits as [|c digits]; [done|].
  simpl in Hd. apply andb_true_iff in Hd as [Hc _].
  assert (is_digit c = false); [|congruence].
  apply (word_then_digit word b rest c
           (digits +:+ ", " +:+ year +:+ rest')); try done.
  - unfold no_digit in *. rewrite E, all_chars_app in Hpre.
    by apply andb_true_iff in Hpre as [_ ?].
  - by apply (suffix_ends_with_blank pre a).
  - rewrite Es. by repeat (simpl; rewrite ?TextFacts.app_assoc).
Qed.

(** C3, as amended.  When the page is fetched and the first text node
    that contains [updated as on] is ASCII text with the phrase
    [updated as on <Month> <Day>, <Year>] (the English month name with its
    capital initial, one blank, the day in one or two digits, a comma, one
    blank, the year in four digits), where month, day and year form a date
    of the calendar, and no text of the shape of the date pattern (a word,
    a blank, digits, a comma, a blank, four digits) starts before the date
    in that node, [get_update_date] returns exactly that date. *)
Theorem get_update_date_reads_phrase
    (url : string) (w : world) (code : nat) (content : body)
    (before after : list string) (pre post : string)
    (padded : bool) (y m d : Z) :
  (next (web w)).1 = Response code content ->
  error_status code = false ->
  strings (html content) =
    before ++
    (pre +:+ MARKER +:+ " " +:+ date_text padded y m d +:+ post) :: after ->
  (forall t, t ∈ before -> ~ has_substring MARKER t) ->
  is_ascii (pre +:+ MARKER +:+ " " +:+ date_text padded y m d +:+ post) = true ->
  (forall a b shape, pre +:+ MARKER +:+ " " = a +:+ b -> b <> "" ->
     ~ date_shaped (b +:+ date_text padded y m d +:+ post) shape) ->
  valid_date y m d = true ->
  result (get_update_date url w) = Ok (Some (midnight y m d)).
Proof.
  intros Hweb Hcode Hstr Hb Hascii Hfirst Hv.
  rewrite get_update_date_unfold. cbn [result]. f_equal.
  unfold update_date_of, fetched, scrape_update_date, read_date.
  change (find_string "updated as on") with (find_string MARKER).
  rewrite Hweb, Hcode.
  rewrite (find_string_first _ _ _ _ Hstr Hb) by by exists pre, (" " +:+ date_text padded y m d +:+ post).
  rewrite Hascii.
  assert (Hs : DatePattern.search
                 (pre +:+ MARKER +:+ " " +:+ date_text padded y m d +:+ post) =
               Some (date_text padded y m d)).
  { replace (pre +:+ MARKER +:+ " " +:+ date_text padded y m d +:+ post)
      with ((pre +:+ MARKER +:+ " ") +:+ date_text padded y m d +:+ post)
      by by rewrite !TextFacts.app_assoc.
    apply search_first.
    - intros a b E Hne.
      destruct (DatePattern.match_at (b +:+ date_text padded y m d +:+ post))
        as [shape|] eqn:Em; [|done].
      apply match_at_spec in Em. by destruct (Hfirst a b shape).
    - apply match_at_spec. by apply date_text_shaped. }
  by rewrite Hs, strptime_date_text.
Qed.

End UpdateDetector.

(** ** ISO texts of dates *)

Module Iso.

Import UpdateDetector.

#[local] Open Scope Z_scope.

Lemma number_dec2 (n : Z) (rest : string) :
  0 <= n < 100 -> number 2 (dec2 n +:+ rest) = Some (n, rest).
Proof.
  intros H. destruct (dec2_digits n) as (a & b & E & Ha & Hb & Hn); [lia|].
  destruct (digit_char_facts a Ha) as (Da & _ & _ & Va).
  destruct (digit_char_facts b Hb) as (Db & _ & _ & Vb).
  unfold number. rewrite (take_digits_app 2 (dec2 n) rest).
  - rewrite E. unfold int_of_digits. simpl. rewrite Va, Vb.
    rewrite Z.mod_small in Hn by lia. do 2 f_equal. lia.
  - by rewrite E.
  - rewrite E. simpl. by rewrite Da, Db.
Qed.

Lemma number_dec4 (y : Z) (rest : string) :
  0 <= y <= 9999 -> number 4 (dec4 y +:+ rest) = Some (y, rest).
Proof.
  intros H. destruct (dec4_year y H) as (Hl & Hd & Hv & _).
  unfold number. by rewrite (take_digits_app 4 (dec4 y) rest), Hv.
Qed.

Lemma number_dec6 (n : Z) :
  0 <= n < 1000000 -> number 6 (dec6 n) = Some (n, "").
Proof.
  intros H.
  assert (E : dec6 n =
    String (digit_char (n / 100000 mod 10)) (String (digit_char (n / 10000 mod 10))
      (String (digit_char (n / 1000 mod 10)) (String (digit_char (n / 100 mod 10))
        (String (digit_char (n / 10 mod 10)) (String (digit_char (n mod 10)) "")))))).
  { unfold dec6, dec4, dec2. simpl.
    rewrite !Z.div_div by lia. reflexivity. }
  pose proof (Z.mod_pos_bound (n / 100000) 10).
  pose proof (Z.mod_pos_bound (n / 10000) 10).
  pose proof (Z.mod_pos_bound (n / 1000) 10).
  pose proof (Z.mod_pos_bound (n / 100) 10).
  pose proof (Z.mod_pos_bound (n / 10) 10).
  pose proof (Z.mod_pos_bound n 10).
  destruct (digit_char_facts (n / 100000 mod 10)) as (D1 & _ & _ & V1); [lia|].
  destruct (digit_char_facts (n / 10000 mod 10)) as (D2 & _ & _ & V2); [lia|].
  destruct (digit_char_facts (n / 1000 mod 10)) as (D3 & _ & _ & V3); [lia|].
  destruct (digit_char_facts (n / 100 mod 10)) as (D4 & _ & _ & V4); [lia|].
  destruct (digit_char_facts (n / 10 mod 10)) as (D5 & _ & _ & V5); [lia|].
  destruct (digit_char_facts (n mod 10)) as (D6 & _ & _ & V6); [lia|].
  unfold number. rewrite <- (TextFacts.app_nil_r (dec6 n)).
  rewrite (take_digits_app 6 (dec6 n) "").
  - rewrite E. unfold int_of_digits. simpl. rewrite V1, V2, V3, V4, V5, V6.
    do 2 f_equal. Z.div_mod_to_equations. lia.
  - by rewrite E.
  - rewrite E. simpl. by rewrite D1, D2, D3, D4, D5, D6.
Qed.

Lemma valid_datetime_bounds (t : datetime) :
  valid_datetime t = true ->
  valid_date (year t) (month t) (day t) = true /\
  0 <= hour t < 24 /\ 0 <= minute t < 60 /\ 0 <= second t < 60 /\
  0 <= microsecond t < 1000000.
Proof.
  unfold valid_datetime. rewrite !andb_true_iff, !Z.leb_le, !Z.ltb_lt. tauto.
Qed.

Lemma parse_clock_written (h mi s us : Z) :
  0 <= h < 100 -> 0 <= mi < 100 -> 0 <= s < 100 -> 0 <= us < 1000000 ->
  parse_clock
    (dec2 h +:+ ":" +:+ dec2 mi +:+ ":" +:+ dec2 s +:+
     (if us =? 0 then EmptyString else "." +:+ dec6 us)) =
  Some (h, mi, s, us, "").
Proof.
  intros Hh Hm Hs Hu. unfold parse_clock.
  rewrite number_dec2 by lia. cbn [mbind option_bind].
  change (":" +:+ ?x) with (String ":" x). cbn [expect]. rewrite Ascii.eqb_refl.
  rewrite number_dec2 by lia. cbn [mbind option_bind].
  change (":" +:+ ?x) with (String ":" x). cbn [expect]. rewrite Ascii.eqb_refl.
  rewrite number_dec2 by lia. cbn [mbind option_bind].
  destruct (us =? 0) eqn:E.
  - apply Z.eqb_eq in E as ->. done.
  - change ("." +:+ ?x) with (String "." x). cbn [expect].
    rewrite Ascii.eqb_refl. unfold parse_fraction.
    by rewrite number_dec6 by lia.
Qed.

(** [fromisoformat] reads back what [isoformat] writes. *)
Lemma parse_isoformat_isoformat (t : datetime) :
  valid_datetime t = true -> parse_isoformat (isoformat t) = Some (Naive t).
Proof.
  intros (Hv & Hh & Hm & Hs & Hu)%valid_datetime_bounds.
  destruct (valid_date_bounds _ _ _ Hv) as (By & Bm & Bd).
  destruct t as [y m d h mi s us]. simpl in *.
  unfold parse_isoformat, isoformat, format_with.
  cbn [year month day hour minute second microsecond].
  rewrite number_dec4 by lia. cbn [mbind option_bind].
  change ("-" +:+ ?x) with (String "-" x). cbn [expect]. rewrite Ascii.eqb_refl.
  cbn [mbind option_bind]. rewrite number_dec2 by lia. cbn [mbind option_bind].
  change ("-" +:+ ?x) with (String "-" x). cbn [expect]. rewrite Ascii.eqb_refl.
  cbn [mbind option_bind]. rewrite number_dec2 by lia. cbn [mbind option_bind].
  rewrite Hv. cbn [negb]. change ("T" +:+ ?x) with (String "T" x). cbv iota beta.
  rewrite parse_clock_written by lia. cbn [mbind option_bind].
  replace (valid_time h mi s) with true
    by (unfold valid_time; symmetry; rewrite !andb_true_iff, !Z.ltb_lt; lia).
  done.
Qed.

Lemma fromisoformat_isoformat (lib : library) (t : datetime) :
  valid_datetime t = true -> fromisoformat lib (isoformat t) = Some (Naive t).
Proof. intros H. unfold fromisoformat. by rewrite parse_isoformat_isoformat. Qed.

(** What [strptime] returns is midnight of a day of the calendar. *)
Lemma strptime_valid (s : string) (t : datetime) :
  strptime_B_d_Y s = Some t ->
  valid_datetime t = true /\ t = midnight (year t) (month t) (day t).
Proof.
  unfold strptime_B_d_Y. intros H.
  repeat (match type of H with
          | context [mbind _ ?x] =>
              destruct x as [[? ?]|] eqn:?; simpl in H; [|done]
          | context [mbind _ ?x] =>
              destruct x as [?|] eqn:?; simpl in H; [|done]
          end).
  match type of H with
  | context [match ?r with EmptyString => _ | String _ _ => _ end] =>
      destruct r; [|done]
  end.
  match type of H with
  | context [valid_date ?y ?m ?d] => destruct (valid_date y m d) eqn:Hv; [|done]
  end.
  injection H as <-. split; [|done].
  unfold valid_datetime, midnight. simpl. by rewrite Hv.
Qed.

End Iso.

(** ** Downloads and the loop over the links *)

Module Files.

Import Ingestion.

Lemma download_excel_unfold (url : string) (w : world) :
  download_excel url w =
  mk_outcome (Ok (fetched (next (web w)).1)) (set_web (next (web w)).2 w)
    [HttpGet url].
Proof.
  unfold download_excel, try_except. rewrite fetch_then. unfold fetched, ret.
  destruct (next (web w)) as [[|code content] rest]; simpl; [done|].
  by destruct (error_status code).
Qed.

Lemma process_excel_unfold (file : body) (w : world) :
  process_excel file w = mk_outcome (Ok (rows_of file)) w [].
Proof.
  unfold process_excel, try_except, rows_of. by destruct (excel file).
Qed.

Lemma get_excel_links_unfold (url : string) (w : world) :
  get_excel_links url w =
  mk_outcome
    (Ok (match fetched (next (web w)).1 with
         | Some content => map resolve (excel_hrefs (html content))
         | None => []
         end))
    (set_web (next (web w)).2 w) [HttpGet url].
Proof.
  unfold get_excel_links, try_except. rewrite fetch_then. unfold fetched, ret.
  destruct (next (web w)) as [[|code content] rest]; simpl; [done|].
  by destruct (error_status code).
Qed.

(** X1.  [download_excel] never raises.  It makes exactly one request and
    leaves the collection and the store alone; it returns the body when
    the server answers with a status below 400 or above 599, and [None]
    when the connection fails or the status is 4xx or 5xx. *)
Theorem download_excel_fails_soft (url : string) (w : world) :
  let o := download_excel url w in
  emitted o = [HttpGet url] /\
  docs (final o) = docs w /\
  store_faults (final o) = store_faults w /\
  match (next (web w)).1 with
  | ConnectionFailed => result o = Ok None
  | Response code content =>
      result o = Ok (if (400 <=? code) && (code <? 600) then None else Some content)
  end.
Proof.
  cbv zeta. rewrite download_excel_unfold. split_and!; try done.
  by destruct (next (web w)).1.
Qed.

Lemma http_gets_app (e1 e2 : list event) :
  http_gets (e1 ++ e2) = http_gets e1 ++ http_gets e2.
Proof. apply omap_app. Qed.

Lemma sleeps_app (e1 e2 : list event) :
  sleeps (e1 ++ e2) = sleeps e1 ++ sleeps e2.
Proof. apply omap_app. Qed.

Lemma store_operations_only (events : list event) :
  Forall (fun e => is_store_operation e = true) events ->
  store_operations events = events /\ http_gets events = [] /\ sleeps events = [].
Proof.
  induction 1 as [|e l He _ (I1 & I2 & I3)]; [done|].
  unfold store_operations in *. simpl. rewrite He, I1.
  by destruct e.
Qed.

(** Compose the [emits] lemmas along the structure of a function. *)
Ltac emits_along :=
  repeat first
    [ progress intros
    | apply emits_lift | apply emits_ret | apply emits_raise | apply emits_now
    | apply emits_installed
    | apply emits_raise_for_status
    | apply emits_send_telegram_message; reflexivity
    | apply emits_requests_get; reflexivity
    | apply emits_list_documents; reflexivity
    | apply emits_create_document; reflexivity
    | apply emits_update_document; reflexivity
    | apply emits_get_document; reflexivity
    | apply emits_sleep; reflexivity
    | solve [auto]
    | apply emits_bind
    | apply emits_try_except
    | case_match ].

Lemma insert_loop_store_only (data : list dict) (c : nat) :
  emits (fun e => is_store_operation e = true) (insert_loop data c).
Proof.
  revert c. induction data as [|record rest IH]; intros c; simpl.
  - apply emits_ret.
  - apply emits_bind; [|done]. unfold insert_record. emits_along.
Qed.

(** The loop body of [main], call by call. *)
Lemma process_link_unfold (link : string) (w : world) :
  let w1 := set_web (next (web w)).2 (set_bot_faults (next (bot_faults w)).2 w) in
  let b1 := negb (next (bot_faults w)).1 in
  process_link link w =
  match fetched (next (web w)).1 with
  | Some file =>
      let o := insert_into_appwrite (rows_of file) w1 in
      mk_outcome (Ok tt)
        (set_bot_faults (next (bot_faults (final o))).2 (final o))
        (SendMessage ("Processing file: " +:+ link) b1 :: HttpGet link ::
         emitted o ++
         [SendMessage
            ("Completed processing " +:+ link +:+ ". New records added: " +:+
             pretty (length (created (emitted o))))
            (negb (next (bot_faults (final o))).1);
          Sleep 2])
  | None =>
      mk_outcome (Ok tt) (set_bot_faults (next (bot_faults w1)).2 w1)
        [SendMessage ("Processing file: " +:+ link) b1; HttpGet link;
         SendMessage ("Failed to download file: " +:+ link)
           (negb (next (bot_faults w1)).1);
         Sleep 2]
  end.
Proof.
  cbv zeta. unfold process_link.
  rewrite (bind_ok (send_telegram_message _) _ w tt)
    by by rewrite send_telegram_message_unfold.
  rewrite send_telegram_message_unfold. cbn [final emitted].
  set (w0 := set_bot_faults _ w).
  rewrite (bind_ok (download_excel link) _ w0 _)
    by (rewrite download_excel_unfold; reflexivity).
  rewrite download_excel_unfold. cbn [final emitted].
  change (web w0) with (web w). set (w1 := set_web _ w0).
  destruct (fetched (next (web w)).1) as [file|].
  - rewrite (bind_ok _ (fun _ => sleep 2) w1 tt).
    2:{ rewrite (bind_ok (process_excel file) _ w1 _)
          by (rewrite process_excel_unfold; reflexivity).
        rewrite process_excel_unfold. cbn [final emitted].
        destruct (insert_loop_spec (rows_of file) 0 w1) as (Hr & _).
        cbv zeta in Hr. unfold insert_into_appwrite.
        rewrite (bind_ok (insert_loop _ 0) _ w1 _ Hr).
        by rewrite send_telegram_message_unfold. }
    rewrite (bind_ok (process_excel file) _ w1 _)
      by (rewrite process_excel_unfold; reflexivity).
    rewrite process_excel_unfold. cbn [final emitted].
    destruct (insert_loop_spec (rows_of file) 0 w1) as (Hr & _).
    cbv zeta in Hr. unfold insert_into_appwrite.
    rewrite (bind_ok (insert_loop _ 0) _ w1 _ Hr).
    rewrite send_telegram_message_unfold. unfold after, sleep, emit.
    cbn [result final emitted]. simpl. f_equal.
    by rewrite <- !List.app_assoc.
  - rewrite (bind_ok (send_telegram_message _) _ w1 tt)
      by by rewrite send_telegram_message_unfold.
    by rewrite send_telegram_message_unfold.
Qed.

(** X2.  When the download of a link fails (no connection, or a 4xx/5xx
    status), the loop body of [main] does exactly four things: the
    "Processing file" notification, the request, the "Failed to download
    file" notification and the two-second pause.  It makes no store call
    and the collection is unchanged. *)
Theorem failed_download_is_reported (link : string) (w : world) :
  (next (web w)).1 = ConnectionFailed \/
  (exists code content,
      (next (web w)).1 = Response code content /\ error_status code = true) ->
  let o := process_link link w in
  exists delivered1 delivered2,
    emitted o =
      [ SendMessage ("Processing file: " +:+ link) delivered1;
        HttpGet link;
        SendMessage ("Failed to download file: " +:+ link) delivered2;
        Sleep 2 ] /\
    result o = Ok tt /\
    docs (final o) = docs w /\
    store_faults (final o) = store_faults w.
Proof.
  intros H. cbv zeta. pose proof (process_link_unfold link w) as E.
  cbv zeta in E.
  assert (Hf : fetched (next (web w)).1 = None).
  { destruct H as [->|(code & content & -> & Hc)]; [done|].
    unfold fetched. by rewrite Hc. }
  rewrite Hf in E. rewrite E. by eexists _, _.
Qed.

(** X3.  When the download succeeds but [pandas.read_excel] raises on the
    body, [process_excel] yields no rows: the loop body of [main] reports
    "New records added: 0", makes no store call and leaves the collection
    unchanged. *)
Theorem unreadable_file_adds_nothing
    (link : string) (w : world) (code : nat) (file : body) :
  (next (web w)).1 = Response code file ->
  error_status code = false ->
  excel file = None ->
  let o := process_link link w in
  exists delivered1 delivered2,
    emitted o =
      [ SendMessage ("Processing file: " +:+ link) delivered1;
        HttpGet link;
        SendMessage
          ("Completed processing " +:+ link +:+ ". New records added: 0")
          delivered2;
        Sleep 2 ] /\
    result o = Ok tt /\
    docs (final o) = docs w /\
    store_faults (final o) = store_faults w.
Proof.
  intros Hw Hc He. cbv zeta. pose proof (process_link_unfold link w) as E.
  cbv zeta in E.
  assert (Hf : fetched (next (web w)).1 = Some file).
  { rewrite Hw. unfold fetched. by rewrite Hc. }
  rewrite Hf in E. rewrite E.
  unfold rows_of. rewrite He. by eexists _, _.
Qed.

Lemma process_link_summary (link : string) (w : world) :
  result (process_link link w) = Ok tt /\
  http_gets (emitted (process_link link w)) = [link] /\
  sleeps (emitted (process_link link w)) = [2].
Proof.
  pose proof (process_link_unfold link w) as E. cbv zeta in E. rewrite E.
  destruct (fetched (next (web w)).1) as [file|]; [|done].
  cbn [result emitted]. split; [done|].
  match goal with
  | |- context [emitted (insert_into_appwrite ?d ?w1)] =>
      destruct (store_operations_only (emitted (insert_into_appwrite d w1)))
        as (_ & Hg & Hs); [apply insert_loop_store_only|]
  end.
  match goal with
  | |- context [?a :: ?b :: ?mid ++ ?tail] =>
      change (a :: b :: mid ++ tail) with ([a; b] ++ mid ++ tail)
  end.
  by rewrite !http_gets_app, !sleeps_app, Hg, Hs.
Qed.

Lemma process_links_summary (links : list string) (w : world) :
  result (process_links links w) = Ok tt /\
  http_gets (emitted (process_links links w)) = links /\
  sleeps (emitted (process_links links w)) = replicate (length links) 2.
Proof.
  revert w. induction links as [|link rest IH]; intros w; [done|].
  destruct (process_link_summary link w) as (Hr & Hg & Hs).
  simpl. rewrite (bind_ok (process_link link) _ w tt Hr).
  destruct (IH (final (process_link link w))) as (Ir & Ig & Is).
  unfold after. cbn [result emitted].
  by rewrite http_gets_app, sleeps_app, Hg, Hs, Ig, Is.
Qed.

(** X4.  The loop over the links never raises and never stops early:
    whatever the downloads and the store do, every link is requested once,
    in the order of the list, and each is followed by one pause of two
    seconds. *)
Theorem process_links_visits_every_link (links : list string) (w : world) :
  let o := process_links links w in
  result o = Ok tt /\
  http_gets (emitted o) = links /\
  sleeps (emitted o) = replicate (length links) 2.
Proof. apply process_links_summary. Qed.

End Files.

(** ** Properties of the world that every step keeps *)

Section Keeping.

Variable STATUS_DOCUMENT_ID : string.

Context (I : world -> Prop).

Lemma preserves_ret {A} (a : A) : preserves I (ret a).
Proof. by intros w Hw. Qed.

Lemma preserves_lift {A} (r : res A) : preserves I (lift r).
Proof. by intros w Hw. Qed.

Lemma preserves_bind {A B} (m : M A) (k : A -> M B) :
  preserves I m -> (forall a, preserves I (k a)) -> preserves I (bind m k).
Proof.
  intros Hm Hk w Hw. unfold bind. specialize (Hm w Hw).
  destruct (result (m w)); simpl; [by apply Hk | done].
Qed.

(** The property does not depend on what the web, Telegram and the clock
    will answer. *)
Hypothesis I_web : forall r w, I w -> I (set_web r w).
Hypothesis I_bot : forall f w, I w -> I (set_bot_faults f w).
Hypothesis I_clock : forall c w, I w -> I (set_clock c w).

Lemma preserves_send_telegram_message (message : string) :
  preserves I (send_telegram_message message).
Proof. intros w Hw. rewrite send_telegram_message_unfold. by apply I_bot. Qed.

Lemma preserves_now : preserves I now.
Proof. intros w Hw. unfold now. destruct (next (clock w)). by apply I_clock. Qed.

Lemma preserves_sleep (seconds : nat) : preserves I (sleep seconds).
Proof. by intros w Hw. Qed.

Lemma preserves_get_update_date (url : string) :
  preserves I (get_update_date url).
Proof. intros w Hw. rewrite get_update_date_unfold. by apply I_web. Qed.

Lemma preserves_get_excel_links (url : string) :
  preserves I (get_excel_links url).
Proof. intros w Hw. rewrite Files.get_excel_links_unfold. by apply I_web. Qed.

Lemma preserves_download_excel (url : string) :
  preserves I (download_excel url).
Proof. intros w Hw. rewrite Files.download_excel_unfold. by apply I_web. Qed.

Lemma preserves_process_excel (file : body) :
  preserves I (process_excel file).
Proof. intros w Hw. by rewrite Files.process_excel_unfold. Qed.

(** One turn of the insertion loop keeps the property. *)
Hypothesis I_insert : forall record c, preserves I (insert_record record c).

Lemma preserves_insert_loop (data : list dict) (c : nat) :
  preserves I (insert_loop data c).
Proof.
  revert c. induction data as [|record rest IH]; intros c; simpl.
  - apply preserves_ret.
  - by apply preserves_bind.
Qed.

Lemma preserves_process_link (link : string) : preserves I (process_link link).
Proof.
  unfold process_link, insert_into_appwrite.
  repeat first
    [ progress intros
    | solve [auto using preserves_send_telegram_message, preserves_sleep,
               preserves_download_excel, preserves_process_excel,
               preserves_insert_loop]
    | apply preserves_bind
    | case_match ].
Qed.

Lemma preserves_process_links (links : list string) :
  preserves I (process_links links).
Proof.
  induction links as [|link rest IH]; simpl; [apply preserves_ret|].
  apply preserves_bind; [apply preserves_process_link | done].
Qed.

Lemma preserves_ingest : preserves I ingest.
Proof.
  unfold ingest.
  repeat first
    [ progress intros
    | solve [auto using preserves_send_telegram_message,
               preserves_get_excel_links, preserves_process_links]
    | apply preserves_bind ].
Qed.

(** A read of the status document and the two writes to it keep the
    property. *)
Hypothesis I_read :
  forall w, I w -> I (set_store_faults (next (store_faults w)).2 w).
Hypothesis I_write_status :
  forall status t w,
    I w -> I (final (write_status_document STATUS_DOCUMENT_ID (status_data status t) w)).
Hypothesis I_write_watermark :
  forall date w,
    I w -> I (final (write_status_document STATUS_DOCUMENT_ID (watermark_data date) w)).

Lemma preserves_update_status (status : string) :
  preserves I (update_status STATUS_DOCUMENT_ID status).
Proof.
  intros w Hw. rewrite update_status_unfold. by apply I_write_status, I_clock.
Qed.

Lemma preserves_set_last_update_date (date : datetime) :
  preserves I (set_last_update_date STATUS_DOCUMENT_ID date).
Proof.
  intros w Hw. rewrite set_last_update_date_unfold. by apply I_write_watermark.
Qed.

Lemma preserves_get_last_update_date :
  preserves I (get_last_update_date STATUS_DOCUMENT_ID).
Proof.
  intros w Hw. rewrite get_last_update_date_unfold.
  specialize (I_read w Hw).
  destruct (next (store_faults w)) as [[] rest];
    by destruct (docs w !! STATUS_DOCUMENT_ID).
Qed.

Lemma preserves_readings : preserves I (readings STATUS_DOCUMENT_ID).
Proof.
  unfold readings.
  repeat first
    [ progress intros
    | solve [auto using preserves_ret, preserves_send_telegram_message,
               preserves_get_update_date, preserves_update_status,
               preserves_get_last_update_date]
    | apply preserves_bind ].
Qed.

Lemma preserves_main : preserves I (main STATUS_DOCUMENT_ID).
Proof.
  unfold main.
  repeat first
    [ progress intros
    | solve [auto using preserves_send_telegram_message, preserves_now,
               preserves_lift,
               preserves_get_update_date, preserves_get_excel_links,
               preserves_process_links, preserves_update_status,
               preserves_set_last_update_date, preserves_get_last_update_date]
    | apply preserves_bind
    | case_match ].
Qed.

Lemma preserves_run_scheduled_task :
  preserves I (run_scheduled_task STATUS_DOCUMENT_ID).
Proof.
  unfold run_scheduled_task.
  repeat first
    [ progress intros
    | solve [auto using preserves_send_telegram_message, preserves_now,
               preserves_main]
    | apply preserves_bind ].
Qed.

End Keeping.

(** ** The collection across a run *)

Module Collection.

Import Ingestion.

Lemma total_le_size (k : string) (m : gmap string dict) :
  total "IFSC" k m <= size m.
Proof. unfold total. apply map_subseteq_size, map_filter_subseteq. Qed.

(** A partial update that does not carry the key leaves the totals
    alone. *)
Lemma total_update (k id : string) (data old : dict) (m : gmap string dict) :
  m !! id = Some old -> data !! "IFSC" = None ->
  total "IFSC" k (<[id := data ∪ old]> m) = total "IFSC" k m.
Proof.
  intros Hid Hdata. unfold total.
  assert (E : (data ∪ old) !! "IFSC" = old !! "IFSC") by by apply lookup_union_r.
  destruct (decide (query_equal "IFSC" k (id, old))) as [Hq|Hq].
  - rewrite map_filter_insert_True
      by (unfold query_equal in *; simpl in *; congruence).
    rewrite map_size_insert_Some; [done|].
    exists old. by apply map_lookup_filter_Some_2.
  - rewrite map_filter_insert_not'; [done| |].
    + unfold query_equal in *. simpl in *. congruence.
    + intros y Hy. congruence.
Qed.

(** One turn of the loop: the total of a key stays, or goes from 0 to 1. *)
Lemma insert_record_total (record : dict) (c : nat) (w : world) (k : string) :
  let o := insert_record record c w in
  total "IFSC" k (docs (final o)) = total "IFSC" k (docs w) \/
  (total "IFSC" k (docs w) = 0 /\ total "IFSC" k (docs (final o)) = 1).
Proof.
  cbv zeta. rewrite insert_record_unfold. cbv zeta.
  destruct (next (store_faults w)) as [[] s1]; simpl; [by left|].
  destruct (total "IFSC" (ifsc record) (docs w) =? 0) eqn:E; simpl; [|by left].
  destruct (next s1) as [[] s2]; simpl; [by left|].
  apply Nat.eqb_eq in E.
  rewrite total_insert by apply not_elem_of_dom, is_fresh.
  destruct (decide (ifsc record = k)) as [<-|]; [right; lia | left; lia].
Qed.

Lemma insert_loop_total (data : list dict) (c : nat) (w : world) (k : string) :
  let o := insert_loop data c w in
  total "IFSC" k (docs (final o)) = total "IFSC" k (docs w) \/
  (total "IFSC" k (docs w) = 0 /\ total "IFSC" k (docs (final o)) = 1).
Proof.
  revert c w. induction data as [|record rest IH]; intros c w; [by left|].
  destruct (insert_loop_cons record rest c w) as (n & Hn & ->).
  cbv zeta. unfold after. cbn [final].
  pose proof (insert_record_total record c w k) as H1.
  pose proof (IH n (final (insert_record record c w))) as H2.
  cbv zeta in *. lia.
Qed.

(** X5.  Whatever the store answers and whatever the batch, the number of
    documents with a given IFSC either stays what it was or goes from 0 to
    1: [insert_into_appwrite] never adds a document for a key that has one,
    and never adds two for the same key. *)
Theorem no_second_document_for_a_key (data : list dict) (w : world) (k : string) :
  let o := insert_into_appwrite data w in
  total "IFSC" k (docs (final o)) = total "IFSC" k (docs w) \/
  (total "IFSC" k (docs w) = 0 /\ total "IFSC" k (docs (final o)) = 1).
Proof. apply insert_loop_total. Qed.

Lemma status_data_no_key (status : string) (t : datetime) :
  status_data status t !! "IFSC" = None.
Proof. unfold status_data. by simplify_map_eq. Qed.

Lemma watermark_data_no_key (date : datetime) :
  watermark_data date !! "IFSC" = None.
Proof. unfold watermark_data. by simplify_map_eq. Qed.

Section Runs.

Variable STATUS_DOCUMENT_ID : string.

Lemma unique_keys_insert_record (record : dict) (c : nat) :
  preserves (fun w => unique_keys (docs w)) (insert_record record c).
Proof.
  intros w Hw k.
  destruct (insert_record_total record c w k) as [->|[_ ->]]; [apply Hw | lia].
Qed.

Lemma unique_keys_write (data : dict) (w : world) :
  data !! "IFSC" = None ->
  unique_keys (docs w) ->
  unique_keys (docs (final (write_status_document STATUS_DOCUMENT_ID data w))).
Proof.
  intros Hd Hw k. unfold write_status_document.
  destruct (next (store_faults w)) as [[] rest];
    destruct (docs w !! STATUS_DOCUMENT_ID) as [old|] eqn:E; simpl;
    try apply Hw.
  rewrite total_update by done. apply Hw.
Qed.

(** X8.  If no two documents of the collection have the same IFSC before a
    run, none have after it, whatever the collaborators answer: for [main]
    and for [run_scheduled_task]. *)
Theorem runs_keep_keys_unique (w : world) :
  unique_keys (docs w) ->
  unique_keys (docs (final (main STATUS_DOCUMENT_ID w))) /\
  unique_keys (docs (final (run_scheduled_task STATUS_DOCUMENT_ID w))).
Proof.
  intros Hw.
  split;
    [apply (preserves_main STATUS_DOCUMENT_ID (fun w => unique_keys (docs w)))
    |apply (preserves_run_scheduled_task STATUS_DOCUMENT_ID
              (fun w => unique_keys (docs w)))];
    auto using unique_keys_insert_record, unique_keys_write,
      status_data_no_key, watermark_data_no_key.
Qed.

Lemma kept_insert_record (id : string) (d : dict) (record : dict) (c : nat) :
  preserves (fun w => docs w !! id = Some d) (insert_record record c).
Proof.
  intros w Hw. destruct (insert_record_step record c w) as (_ & _ & _ & H & _).
  by apply H.
Qed.

Lemma kept_write (id : string) (d data : dict) (w : world) :
  id <> STATUS_DOCUMENT_ID ->
  docs w !! id = Some d ->
  docs (final (write_status_document STATUS_DOCUMENT_ID data w)) !! id = Some d.
Proof.
  intros Hid Hw.
  destruct (write_status_document_frame STATUS_DOCUMENT_ID data w) as (H & _).
  cbv zeta in H. by rewrite H.
Qed.

Lemma untouched_insert_record (old record : dict) (c : nat) :
  preserves (untouched STATUS_DOCUMENT_ID old) (insert_record record c).
Proof.
  intros w (new & Hnew & Hk). exists new. split; [|done].
  by apply kept_insert_record.
Qed.

Lemma untouched_write (old data : dict) (w : world) :
  (forall k, k <> "status" -> k <> "last_updated" -> k <> "last_update_date" ->
     data !! k = None) ->
  untouched STATUS_DOCUMENT_ID old w ->
  untouched STATUS_DOCUMENT_ID old (final (write_status_document STATUS_DOCUMENT_ID data w)).
Proof.
  intros Hd (new & Hnew & Hk).
  destruct (write_status_document_frame STATUS_DOCUMENT_ID data w) as (_ & H & _).
  destruct (H new Hnew) as (new' & Hnew' & Hkeep & _).
  exists new'. split; [done|]. intros k H1 H2 H3.
  rewrite Hkeep by auto. auto.
Qed.

(** X9.  A run never deletes or rewrites a document: every document other
    than the status document is in the collection after [main] and after
    [run_scheduled_task], unchanged; the status document is still there
    after [main], changed at most in [status], [last_updated] and
    [last_update_date]. *)
Theorem runs_keep_documents (w : world) :
  (forall id d, id <> STATUS_DOCUMENT_ID -> docs w !! id = Some d ->
     docs (final (main STATUS_DOCUMENT_ID w)) !! id = Some d /\
     docs (final (run_scheduled_task STATUS_DOCUMENT_ID w)) !! id = Some d) /\
  (forall old, docs w !! STATUS_DOCUMENT_ID = Some old ->
     exists new,
       docs (final (main STATUS_DOCUMENT_ID w)) !! STATUS_DOCUMENT_ID = Some new /\
       forall k, k <> "status" -> k <> "last_updated" -> k <> "last_update_date" ->
         new !! k = old !! k).
Proof.
  split.
  - intros id d Hid Hd.
    split;
      [apply (preserves_main STATUS_DOCUMENT_ID (fun w => docs w !! id = Some d))
      |apply (preserves_run_scheduled_task STATUS_DOCUMENT_ID
                (fun w => docs w !! id = Some d))];
      auto using kept_insert_record, kept_write.
  - intros old Hold.
    apply (preserves_main STATUS_DOCUMENT_ID (untouched STATUS_DOCUMENT_ID old));
      auto using untouched_insert_record.
    + intros status t w' Hw'. apply untouched_write; [|done].
      intros k H1 H2 _. unfold status_data. by simplify_map_eq.
    + intros date w' Hw'. apply untouched_write; [|done].
      intros k _ _ H3. unfold watermark_data. by simplify_map_eq.
    + by exists old.
Qed.

End Runs.

End Collection.

(** ** Batches *)

Module Batches.

Import Ingestion.

(** The counter does not steer the loop. *)
Lemma insert_record_counter (record : dict) (c c' : nat) (w : world) :
  final (insert_record record c w) = final (insert_record record c' w) /\
  emitted (insert_record record c w) = emitted (insert_record record c' w).
Proof.
  rewrite !insert_record_unfold. cbv zeta.
  destruct (next (store_faults w)) as [[] s1]; simpl; [done|].
  destruct (total "IFSC" (ifsc record) (docs w) =? 0); simpl; [|done].
  by destruct (next s1) as [[] s2].
Qed.

Lemma insert_loop_counter (data : list dict) (c c' : nat) (w : world) :
  final (insert_loop data c w) = final (insert_loop data c' w) /\
  emitted (insert_loop data c w) = emitted (insert_loop data c' w).
Proof.
  revert c c' w. induction data as [|record rest IH]; intros c c' w; [done|].
  destruct (insert_loop_cons record rest c w) as (n & Hn & ->).
  destruct (insert_loop_cons record rest c' w) as (n' & Hn' & ->).
  destruct (insert_record_counter record c c' w) as [<- <-].
  destruct (IH n n' (final (insert_record record c w))) as [E1 E2].
  unfold after. cbn [final emitted]. by rewrite E1, E2.
Qed.

Lemma insert_loop_app (xs ys : list dict) (c : nat) (w : world) :
  insert_loop (xs ++ ys) c w = bind (insert_loop xs c) (insert_loop ys) w.
Proof.
  revert c w. induction xs as [|x xs IH]; intros c w; simpl.
  - by rewrite bind_ret_l.
  - rewrite bind_assoc. apply bind_ext. intros n w'. apply IH.
Qed.

(** X6.  Inserting a batch in two parts, one after the other, is the same
    as inserting it at once: the same events, the same final world, and
    the count of the whole is the sum of the counts of the parts. *)
Theorem insert_into_appwrite_app (xs ys : list dict) (w : world) :
  let first := insert_into_appwrite xs w in
  let second := insert_into_appwrite ys (final first) in
  let whole := insert_into_appwrite (xs ++ ys) w in
  exists n1 n2,
    result first = Ok n1 /\
    result second = Ok n2 /\
    result whole = Ok (n1 + n2) /\
    final whole = final second /\
    emitted whole = emitted first ++ emitted second.
Proof.
  cbv zeta. unfold insert_into_appwrite. rewrite insert_loop_app.
  destruct (insert_loop_spec xs 0 w) as (H1 & _). cbv zeta in H1.
  rewrite Nat.add_0_l in H1. rewrite (bind_ok _ _ _ _ H1).
  remember (length (created (emitted (insert_loop xs 0 w)))) as n1.
  remember (final (insert_loop xs 0 w)) as w1.
  destruct (insert_loop_spec ys 0 w1) as (H2 & _). cbv zeta in H2.
  rewrite Nat.add_0_l in H2.
  destruct (insert_loop_spec ys n1 w1) as (H3 & _). cbv zeta in H3.
  destruct (insert_loop_counter ys n1 0 w1) as [Ef Ee].
  exists n1, (length (created (emitted (insert_loop ys 0 w1)))).
  unfold after. cbn [result final emitted].
  split_and!; [done|done| |done|by rewrite Ee].
  by rewrite H3, Ee.
Qed.

End Batches.

(** ** The names of the links *)

Module LinkNames.

Import Links.

Lemma split_free (sep : ascii) (s : string) :
  free_of sep s -> split sep s = [s].
Proof.
  intros H. destruct (split_shape sep s) as [[_ E]|(dir & x & y & ys & _ & Hd & Hs & _)];
    [done|].
  exfalso. apply (not_free_of_suffix sep dir (last_part (split sep s)) Hd).
  by rewrite <- Hs.
Qed.

Lemma last_part_cons (sep c : ascii) (s : string) :
  last_part (split sep (String c s)) = last_part (split sep s) \/
  (c <> sep /\ split sep s = [s] /\ last_part (split sep (String c s)) = String c s).
Proof.
  unfold last_part. simpl. destruct (Ascii.eqb c sep) eqn:Ec.
  - left. pose proof (split_nonempty sep s). by destruct (split sep s).
  - destruct (split_shape sep s) as [[_ E]|(dir & x & y & ys & E & _)].
    + right. rewrite E. split_and!; [|done..]. intros ->.
      by rewrite Ascii.eqb_refl in Ec.
    + left. by rewrite E.
Qed.

(** A suffix without a slash is a suffix of the file name. *)
Lemma last_part_suffix (suffix s : string) :
  free_of "/" suffix ->
  has_suffix suffix s ->
  has_suffix suffix (last_part (split "/" s)).
Proof.
  intros Hfree. induction s as [|c s IH]; intros [a Ha].
  - destruct a; [|done]. simpl in Ha. subst suffix. by exists "".
  - destruct a as [|x a]; simpl in Ha.
    + subst suffix. rewrite (split_free _ _ Hfree). by exists "".
    + injection Ha as <- ->.
      destruct (last_part_cons "/" c (a +:+ suffix)) as [->|(_ & E & ->)].
      * apply IH. by exists a.
      * by exists (String c a).
Qed.

Lemma excel_hrefs_suffix (page : soup) (href : string) :
  href ∈ excel_hrefs page -> has_suffix ".xlsx" href.
Proof.
  unfold excel_hrefs. intros (anchor & Ha & Hid)%list_elem_of_omap.
  apply list_elem_of_In, filter_In in Ha as [_ Ha].
  apply is_excel_href_spec in Ha as (h & -> & Hh). simpl in Hid. congruence.
Qed.

(** X10.  Every URL that [get_excel_links] returns is the base path
    followed by a file name without a slash that ends in [.xlsx]. *)
Theorem excel_links_name_spreadsheets
    (url : string) (w : world) (links : list string) (link : string) :
  result (get_excel_links url w) = Ok links ->
  link ∈ links ->
  exists name,
    link = BASE_URL +:+ name /\
    free_of "/" name /\
    has_suffix ".xlsx" name.
Proof.
  rewrite get_excel_links_result. intros [= <-] Hin.
  destruct (fetched (next (web w)).1) as [content|]; [|inversion Hin].
  apply list_elem_of_fmap in Hin as (href & -> & Hh%excel_hrefs_suffix).
  exists (last_part (split "/" href)).
  destruct (split_last "/" href) as (dir & _ & Hfree & _).
  split_and!; [done|done|]. by apply last_part_suffix.
Qed.

End LinkNames.

(** ** The store calls of a batch *)

Module Budget.

Import Ingestion.

Lemma insert_record_calls (record : dict) (c : nat) (w : world) :
  let o := insert_record record c w in
  1 <= length (emitted o) <= 2 /\
  web (final o) = web w /\ bot_faults (final o) = bot_faults w /\
  clock (final o) = clock w.
Proof.
  cbv zeta. rewrite insert_record_unfold. cbv zeta.
  destruct (next (store_faults w)) as [[] s1]; simpl; [split_and!; try done; lia|].
  destruct (total "IFSC" (ifsc record) (docs w) =? 0); simpl;
    [|split_and!; try done; lia].
  destruct (next s1) as [[] s2]; simpl; split_and!; try done; lia.
Qed.

Lemma insert_loop_calls (data : list dict) (c : nat) (w : world) :
  let o := insert_loop data c w in
  length data <= length (emitted o) <= 2 * length data /\
  web (final o) = web w /\ bot_faults (final o) = bot_faults w /\
  clock (final o) = clock w.
Proof.
  revert c w. induction data as [|record rest IH]; intros c w.
  { simpl. split_and!; try done; lia. }
  destruct (insert_loop_cons record rest c w) as (n & Hn & ->).
  destruct (insert_record_calls record c w) as (H1 & H2 & H3 & H4).
  destruct (IH n (final (insert_record record c w))) as (I1 & I2 & I3 & I4).
  cbv zeta in *. unfold after. cbn [final emitted].
  rewrite length_app. simpl length. split_and!; [lia|lia|congruence..].
Qed.

(** X7.  [insert_into_appwrite] only talks to the document store: every
    event is a store operation, at least one and at most two per row, and
    the web, Telegram and the clock are left as they were. *)
Theorem insert_into_appwrite_only_calls_the_store (data : list dict) (w : world) :
  let o := insert_into_appwrite data w in
  store_operations (emitted o) = emitted o /\
  length data <= length (emitted o) <= 2 * length data /\
  web (final o) = web w /\ bot_faults (final o) = bot_faults w /\
  clock (final o) = clock w.
Proof.
  cbv zeta. split; [|apply insert_loop_calls].
  by destruct (Files.store_operations_only (emitted (insert_into_appwrite data w)))
    as (? & _); [apply Files.insert_loop_store_only|].
Qed.

End Budget.

(** ** The requests of a run *)

Section Fetches.

Variable STATUS_DOCUMENT_ID : string.

Lemma http_gets_bind {A B} (m : M A) (k : A -> M B) (w : world) (a : A) :
  result (m w) = Ok a ->
  http_gets (emitted (bind m k w)) =
  http_gets (emitted (m w)) ++ http_gets (emitted (k a (final (m w)))).
Proof.
  intros H. rewrite (bind_ok _ _ _ _ H). unfold after. cbn [emitted].
  apply Files.http_gets_app.
Qed.

Lemma no_fetch {A} (m : M A) (w : world) :
  emits (fun e => is_fetch e = false) m -> http_gets (emitted (m w)) = [].
Proof.
  intros H. specialize (H w).
  induction H as [|e l He _ IH]; [done|]. by destruct e.
Qed.

Lemma set_last_update_date_result (date : datetime) (w : world) :
  result (set_last_update_date STATUS_DOCUMENT_ID date w) = Ok tt.
Proof.
  rewrite set_last_update_date_unfold.
  by destruct (write_status_document_events STATUS_DOCUMENT_ID
                 (watermark_data date) w) as (ok & _ & ->).
Qed.

Lemma set_last_update_date_web (date : datetime) (w : world) :
  web (final (set_last_update_date STATUS_DOCUMENT_ID date w)) = web w.
Proof.
  rewrite set_last_update_date_unfold.
  by destruct (write_status_document_frame STATUS_DOCUMENT_ID
                 (watermark_data date) w) as (_ & _ & _ & ? & _).
Qed.

(** The start of a run, call by call. *)
Lemma readings_shape (w : world) :
  exists ok0 b0 okg l,
    emitted (readings STATUS_DOCUMENT_ID w) =
      [ UpdateDocument STATUS_DOCUMENT_ID
          (status_data "running" (next (clock w)).1) ok0;
        SendMessage "Script started running." b0;
        HttpGet MAIN_URL;
        GetDocument STATUS_DOCUMENT_ID okg ] /\
    result (readings STATUS_DOCUMENT_ID w) =
      Ok (update_date_of (python w) (next (web w)).1, l) /\
    web (final (readings STATUS_DOCUMENT_ID w)) = (next (web w)).2.
Proof.
  unfold readings.
  rewrite (bind_ok (update_status STATUS_DOCUMENT_ID "running") _ w tt)
    by apply update_status_result.
  rewrite (update_status_unfold STATUS_DOCUMENT_ID "running" w).
  set (data := status_data "running" (next (clock w)).1).
  set (w0 := set_clock _ w).
  destruct (write_status_document_events STATUS_DOCUMENT_ID data w0)
    as (ok0 & Hev1 & _).
  destruct (write_status_document_frame STATUS_DOCUMENT_ID data w0)
    as (_ & _ & _ & Hweb & _).
  cbv zeta in Hweb. rewrite Hev1.
  set (w1 := final (write_status_document STATUS_DOCUMENT_ID data w0)) in *.
  rewrite (bind_ok (send_telegram_message _) _ w1 tt)
    by by rewrite send_telegram_message_unfold.
  rewrite send_telegram_message_unfold. cbn [final emitted].
  set (w2 := set_bot_faults _ w1).
  rewrite (bind_ok (get_update_date MAIN_URL) _ w2 _)
    by (rewrite get_update_date_unfold; reflexivity).
  rewrite get_update_date_unfold. cbn [final emitted].
  set (w3 := set_web _ w2).
  change (web w2) with (web w1). rewrite Hweb. change (web w0) with (web w).
  assert (Hpy : python w1 = python w)
    by apply (write_status_document_python STATUS_DOCUMENT_ID data w0).
  change (python w2) with (python w1). rewrite Hpy.
  destruct (get_last_update_date_cases STATUS_DOCUMENT_ID w3)
    as [(status_doc & Edoc & E4)|E4];
    rewrite (bind_ok (get_last_update_date STATUS_DOCUMENT_ID) _ w3 _)
      by (rewrite E4; reflexivity);
    rewrite E4; unfold ret, after; cbn [result final emitted];
    eexists ok0, _, _, _; (split_and!; [reflexivity|reflexivity|]).
  - unfold w3. simpl. change (web w2) with (web w1). by rewrite Hweb.
  - unfold w3. simpl. change (web w2) with (web w1). by rewrite Hweb.
Qed.

Lemma ingest_fetches (w : world) :
  result (ingest w) = Ok tt /\
  http_gets (emitted (ingest w)) = MAIN_URL :: links_of (next (web w)).1.
Proof.
  unfold ingest.
  rewrite (bind_ok (get_excel_links MAIN_URL) _ w _)
    by (rewrite Files.get_excel_links_unfold; reflexivity).
  rewrite Files.get_excel_links_unfold. cbn [final emitted]. fold (links_of (next (web w)).1).
  set (w1 := set_web _ w). set (links := links_of _).
  destruct (Files.process_links_summary links w1) as (Hr & Hg & _).
  rewrite (bind_ok (process_links links) _ w1 tt Hr).
  rewrite send_telegram_message_unfold. unfold after. cbn [result emitted].
  split; [done|].
  rewrite !Files.http_gets_app, Hg. simpl. by rewrite List.app_nil_r.
Qed.

Lemma finish_fetches (w : world) :
  http_gets (emitted (finish STATUS_DOCUMENT_ID w)) = [].
Proof.
  apply no_fetch. unfold finish, update_status. Files.emits_along.
Qed.

(** X18.  The requests of a run of [main], in order: the status page; and
    when the scraped date is newer than the watermark, the status page once
    more and then each spreadsheet link of that second response, once, in
    page order.  Otherwise nothing more: neither when the date is not
    newer, nor when the comparison with the watermark raises. *)
Theorem main_fetches
    (w : world) (current : option datetime) (last : option stamp) :
  result (readings STATUS_DOCUMENT_ID w) = Ok (current, last) ->
  http_gets (emitted (main STATUS_DOCUMENT_ID w)) =
  match is_newer current last with
  | Ok (Some _) => MAIN_URL :: MAIN_URL :: links_of (next (next (web w)).2).1
  | Ok None => [MAIN_URL]
  | Raise _ => [MAIN_URL]
  end.
Proof.
  intros Hr.
  destruct (readings_shape w) as (ok0 & b0 & okg & l & Hev & _ & Hweb).
  destruct (is_newer current last) as [[date|]|e] eqn:En.
  - rewrite (main_newer STATUS_DOCUMENT_ID w _ _ _ Hr En).
    unfold after. cbn [emitted]. rewrite Files.http_gets_app, Hev.
    set (wr := final (readings STATUS_DOCUMENT_ID w)) in *.
    rewrite (http_gets_bind (send_telegram_message _) _ wr tt)
      by by rewrite send_telegram_message_unfold.
    rewrite send_telegram_message_unfold. cbn [final emitted].
    set (w2 := set_bot_faults _ wr).
    rewrite (http_gets_bind (set_last_update_date STATUS_DOCUMENT_ID date) _ w2 tt)
      by apply set_last_update_date_result.
    rewrite (no_fetch (set_last_update_date STATUS_DOCUMENT_ID date) w2)
      by (unfold set_last_update_date; Files.emits_along).
    set (w3 := final (set_last_update_date STATUS_DOCUMENT_ID date w2)).
    destruct (ingest_fetches w3) as [Hi Hg].
    rewrite (http_gets_bind ingest _ w3 tt Hi), Hg, finish_fetches.
    assert (E : web w3 = (next (web w)).2).
    { unfold w3. rewrite set_last_update_date_web. by rewrite <- Hweb. }
    rewrite E. simpl. by rewrite List.app_nil_r.
  - rewrite (main_not_newer STATUS_DOCUMENT_ID w _ _ Hr En).
    unfold after. cbn [emitted]. rewrite Files.http_gets_app, Hev.
    rewrite (no_fetch _ (final (readings STATUS_DOCUMENT_ID w))); [done|].
    pose proof finish_fetches. unfold finish, update_status. Files.emits_along.
  - rewrite (main_raises STATUS_DOCUMENT_ID w _ _ _ Hr En). cbn [emitted].
    by rewrite Hev.
Qed.

(** X19.  [run_scheduled_task] is one "Running scheduled task at <now>"
    notification followed by a run of [main]; a failed delivery of the
    notification does not keep the run from happening. *)
Theorem scheduled_run_announces_itself (w : world) :
  run_scheduled_task STATUS_DOCUMENT_ID w =
  after
    [ SendMessage ("Running scheduled task at " +:+ str (next (clock w)).1)
        (negb (next (bot_faults w)).1) ]
    (main STATUS_DOCUMENT_ID
       (set_bot_faults (next (bot_faults w)).2 (set_clock (next (clock w)).2 w))).
Proof.
  unfold run_scheduled_task. rewrite bind_now.
  rewrite (bind_ok (send_telegram_message _) _ _ tt)
    by by rewrite send_telegram_message_unfold.
  by rewrite send_telegram_message_unfold.
Qed.

End Fetches.

(** ** What the detector returns *)

Module Detection.

Import UpdateDetector.

(** A match of the date pattern is a part of the text. *)
Lemma search_some (s m : string) :
  DatePattern.search s = Some m ->
  exists a b, s = a +:+ b /\ date_shaped b m.
Proof.
  induction s as [|c s IH]; rewrite search_unfold.
  - destruct (DatePattern.match_at "") as [m'|] eqn:E; [|done].
    intros [= ->]. exists "", "". split; [done|]. by apply match_at_spec.
  - destruct (DatePattern.match_at (String c s)) as [m'|] eqn:E.
    + intros [= ->]. exists "", (String c s). split; [done|].
      by apply match_at_spec.
    + intros (a & b & -> & Hb)%IH. by exists (String c a), b.
Qed.

(** The text node [find] returns is the first one with the marker. *)
Lemma find_string_some (page : soup) (text : string) :
  find_string MARKER page = Some text ->
  exists before after,
    strings page = before ++ text :: after /\
    (forall t, t ∈ before -> ~ has_substring MARKER t) /\
    has_substring MARKER text.
Proof.
  unfold find_string. induction (strings page) as [|t l IH]; simpl; [done|].
  destruct (contains MARKER t) eqn:E.
  - intros [= ->]. exists [], l. split_and!; [done| |by apply contains_spec].
    intros t' Ht'. inversion Ht'.
  - intros (before & after & -> & Hb & Ht)%IH.
    exists (t :: before), after. split_and!; [done| |done].
    intros t' [->|Ht']%elem_of_cons; [|by apply Hb].
    intros Hc%contains_spec. congruence.
Qed.

(** What [read_date] returns is midnight of a day of the calendar; on an
    ASCII text it is what [strptime] reads off the first text of the shape
    of the pattern, on another text what the libraries read. *)
Lemma read_date_ok (lib : library) (text : string) (t : datetime) :
  read_date lib text = Ok t ->
  valid_datetime t = true /\
  t = midnight (year t) (month t) (day t) /\
  if is_ascii text
  then exists date_str,
         DatePattern.search text = Some date_str /\
         has_substring date_str text /\
         strptime_B_d_Y date_str = Some t
  else foreign_date lib text = Some (year t, month t, day t).
Proof.
  unfold read_date. destruct (is_ascii text).
  - destruct (DatePattern.search text) as [date_str|] eqn:Es; [|done].
    destruct (strptime_B_d_Y date_str) as [t'|] eqn:Ep; [|done].
    intros [= ->]. destruct (Iso.strptime_valid _ _ Ep) as [Hv Hm].
    split_and!; [done|done|]. exists date_str. split_and!; [done| |done].
    apply search_some in Es as (a & b & -> & (w & d & y & rest & -> & _)).
    by exists a, rest.
  - destruct (foreign_date lib text) as [[[y m] d]|]; [|done].
    destruct (valid_date y m d) eqn:Hv; [|done].
    intros [= <-]. split_and!; [|done|done].
    unfold valid_datetime, midnight. simpl. by rewrite Hv.
Qed.

Lemma scrape_update_date_some (lib : library) (page : soup) (t : datetime) :
  scrape_update_date lib page = Ok (Some t) ->
  exists text,
    find_string MARKER page = Some text /\ read_date lib text = Ok t.
Proof.
  unfold scrape_update_date.
  change (find_string "updated as on") with (find_string MARKER).
  destruct (find_string MARKER page) as [text|]; [|done].
  destruct (read_date lib text) as [t'|] eqn:E; [|done].
  intros [= ->]. by exists text.
Qed.

Lemma update_date_of_some (lib : library) (r : http_result) (t : datetime) :
  update_date_of lib r = Some t ->
  exists code content,
    r = Response code content /\ error_status code = false /\
    scrape_update_date lib (html content) = Ok (Some t).
Proof.
  unfold update_date_of, fetched. destruct r as [|code content]; [done|].
  destruct (error_status code) eqn:Ec; [done|].
  destruct (scrape_update_date lib (html content)) as [[t'|]|] eqn:E; try done.
  intros [= ->]. by exists code, content.
Qed.

Lemma update_date_of_valid (lib : library) (r : http_result) (t : datetime) :
  update_date_of lib r = Some t -> valid_datetime t = true.
Proof.
  intros (code & content & _ & _ & Hs)%update_date_of_some.
  apply scrape_update_date_some in Hs as (text & _ & Hr).
  by apply read_date_ok in Hr as [? _].
Qed.

(** X11.  [get_update_date] returns a date only when the page was fetched
    without an error status and one of its text nodes contains
    [updated as on]; the date is midnight of a day of the calendar and is
    read off the first such node.  When that node is ASCII text, the date
    is what [strptime] reads off the first text of the shape of the date
    pattern in the node; when it has other characters, it is the year,
    month and day that the libraries of the installation read off it. *)
Theorem get_update_date_returns_what_the_page_says
    (url : string) (w : world) (t : datetime) :
  result (get_update_date url w) = Ok (Some t) ->
  exists code content before text after,
    (next (web w)).1 = Response code content /\
    error_status code = false /\
    strings (html content) = before ++ text :: after /\
    (forall t', t' ∈ before -> ~ has_substring "updated as on" t') /\
    has_substring "updated as on" text /\
    valid_date (year t) (month t) (day t) = true /\
    t = midnight (year t) (month t) (day t) /\
    if is_ascii text
    then exists date_str,
           DatePattern.search text = Some date_str /\
           has_substring date_str text /\
           strptime_B_d_Y date_str = Some t
    else foreign_date (python w) text = Some (year t, month t, day t).
Proof.
  rewrite get_update_date_unfold. intros [= H].
  apply update_date_of_some in H as (code & content & Hw & Hc & Hs).
  apply scrape_update_date_some in Hs as (text & Hf & Hr).
  apply find_string_some in Hf as (before & after & Hstr & Hb & Ht).
  apply read_date_ok in Hr as (Hv & Hm & Hread).
  exists code, content, before, text, after. split_and!; try done.
  by apply Iso.valid_datetime_bounds in Hv as [? _].
Qed.

End Detection.

(** ** The watermark across runs *)

Section Watermark.

Variable STATUS_DOCUMENT_ID : string.

Lemma final_after {A} (events : list event) (o : outcome A) :
  final (after events o) = final o.
Proof. done. Qed.

(** X12.  [get_last_update_date] never raises and never changes the
    collection.  It returns a datetime exactly when the store call
    succeeds, the status document exists, and its [last_update_date]
    attribute is a text that [fromisoformat] reads as that datetime;
    otherwise it returns [None]. *)
Theorem get_last_update_date_reads_watermark (w : world) :
  let o := get_last_update_date STATUS_DOCUMENT_ID w in
  exists v,
    result o = Ok v /\
    docs (final o) = docs w /\
    forall t,
      v = Some t <->
      (next (store_faults w)).1 = false /\
      exists status_doc s,
        docs w !! STATUS_DOCUMENT_ID = Some status_doc /\
        status_doc !! "last_update_date" = Some (VStr s) /\
        fromisoformat (python w) s = Some t.
Proof.
  cbv zeta. rewrite get_last_update_date_unfold.
  destruct (next (store_faults w)) as [[] rest];
    destruct (docs w !! STATUS_DOCUMENT_ID) as [d|] eqn:Ed; simpl;
    eexists; (split; [reflexivity|]); (split; [reflexivity|]); intros t;
    try (split; [done|]; by intros (? & ? & ? & ? & ? & ?)).
  unfold watermark_of. split.
  - intros H. split; [done|].
    destruct (d !! "last_update_date") as [[s| | | |]|] eqn:Ea; try done.
    by exists d, s.
  - intros (_ & d' & s & [= <-] & Ha & Hs). by rewrite Ha.
Qed.

(** X13.  When the status document is missing or the store call fails,
    [update_status] and [set_last_update_date] return normally and leave
    the collection unchanged. *)
Theorem failed_status_write_changes_nothing
    (w : world) (status : string) (date : datetime) :
  docs w !! STATUS_DOCUMENT_ID = None \/ (next (store_faults w)).1 = true ->
  let o1 := update_status STATUS_DOCUMENT_ID status w in
  let o2 := set_last_update_date STATUS_DOCUMENT_ID date w in
  result o1 = Ok tt /\ docs (final o1) = docs w /\
  result o2 = Ok tt /\ docs (final o2) = docs w.
Proof.
  intros H. cbv zeta.
  rewrite update_status_unfold, set_last_update_date_unfold.
  unfold write_status_document.
  change (store_faults (set_clock _ w)) with (store_faults w).
  change (docs (set_clock _ w)) with (docs w).
  destruct (next (store_faults w)) as [f rest]; simpl in *.
  destruct (docs w !! STATUS_DOCUMENT_ID) as [old|]; [|done].
  destruct H as [? | ->]; done.
Qed.

Lemma watermark_of_ext (lib : library) (d1 d2 : dict) :
  d1 !! "last_update_date" = d2 !! "last_update_date" ->
  watermark_of lib d1 = watermark_of lib d2.
Proof. unfold watermark_of. by intros ->. Qed.

Lemma watermark_of_iso (lib : library) (date : datetime) (doc : dict) :
  valid_datetime date = true ->
  doc !! "last_update_date" = Some (VStr (isoformat date)) ->
  watermark_of lib doc = Some (Naive date).
Proof.
  intros Hv Ha. unfold watermark_of. rewrite Ha.
  by apply Iso.fromisoformat_isoformat.
Qed.

Lemma watermark_of_written (lib : library) (date : datetime) (old : dict) :
  valid_datetime date = true ->
  watermark_of lib (watermark_data date ∪ old) = Some (Naive date).
Proof.
  intros Hv. apply watermark_of_iso; [done|].
  apply lookup_union_Some_l. unfold watermark_data. by simplify_map_eq.
Qed.

(** X14.  The watermark that [set_last_update_date] writes is the one
    [get_last_update_date] reads: when the status document exists, neither
    store call fails and the date is one the [datetime] constructor
    accepts, reading after writing returns that date. *)
Theorem watermark_round_trip (w : world) (old : dict) (date : datetime) :
  docs w !! STATUS_DOCUMENT_ID = Some old ->
  (next (store_faults w)).1 = false ->
  (next (next (store_faults w)).2).1 = false ->
  valid_datetime date = true ->
  result
    (get_last_update_date STATUS_DOCUMENT_ID
       (final (set_last_update_date STATUS_DOCUMENT_ID date w))) =
  Ok (Some (Naive date)).
Proof.
  intros Hdoc H1 H2 Hv.
  rewrite set_last_update_date_unfold. unfold write_status_document.
  rewrite Hdoc. destruct (next (store_faults w)) as [f rest]. simpl in *.
  subst f. rewrite get_last_update_date_unfold. simpl.
  destruct (next rest) as [f' rest']. simpl in *. subst f'.
  rewrite lookup_insert_eq. simpl. by rewrite watermark_of_written.
Qed.

(** The watermark attribute of the status document is that of [v]. *)
Lemma stored_insert_record (v : option pyval) (record : dict) (c : nat) :
  preserves (stored STATUS_DOCUMENT_ID v) (insert_record record c).
Proof.
  intros w (doc & Hdoc & Hv). exists doc. split; [|done].
  by apply (Collection.kept_insert_record STATUS_DOCUMENT_ID doc).
Qed.

Lemma stored_ingest (v : option pyval) :
  preserves (stored STATUS_DOCUMENT_ID v) ingest.
Proof. apply preserves_ingest; auto using stored_insert_record. Qed.

Lemma stored_finish (v : option pyval) :
  preserves (stored STATUS_DOCUMENT_ID v) (finish STATUS_DOCUMENT_ID).
Proof.
  unfold finish. apply preserves_bind; [|intros _; by apply preserves_send_telegram_message].
  intros w (doc & Hdoc & Hv). rewrite update_status_unfold.
  destruct (write_status_document_frame STATUS_DOCUMENT_ID
              (status_data "idle" (next (clock w)).1)
              (set_clock (next (clock w)).2 w)) as (_ & H & _).
  destruct (H doc Hdoc) as (new & Hnew & Hkeep & _).
  exists new. split; [done|]. rewrite Hkeep; [done|].
  apply status_data_no_watermark.
Qed.

Lemma stored_write_watermark (date : datetime) (w : world) (doc : dict) :
  docs w !! STATUS_DOCUMENT_ID = Some doc ->
  let w' := final (set_last_update_date STATUS_DOCUMENT_ID date w) in
  stored STATUS_DOCUMENT_ID (doc !! "last_update_date") w' \/
  stored STATUS_DOCUMENT_ID (Some (VStr (isoformat date))) w'.
Proof.
  intros Hdoc. cbv zeta. rewrite set_last_update_date_unfold.
  unfold write_status_document. rewrite Hdoc.
  destruct (next (store_faults w)) as [[] rest]; simpl.
  - left. by exists doc.
  - right. exists (watermark_data date ∪ doc). cbn [docs set_docs].
    rewrite lookup_insert_eq. split; [done|].
    apply lookup_union_Some_l. unfold watermark_data. by simplify_map_eq.
Qed.

Lemma update_status_frame (status : string) (w : world) :
  web (final (update_status STATUS_DOCUMENT_ID status w)) = web w /\
  python (final (update_status STATUS_DOCUMENT_ID status w)) = python w.
Proof.
  rewrite update_status_unfold. split.
  - by destruct (write_status_document_frame STATUS_DOCUMENT_ID
                   (status_data status (next (clock w)).1)
                   (set_clock (next (clock w)).2 w)) as (_ & _ & _ & -> & _).
  - by rewrite write_status_document_python.
Qed.

(** The start of a run that reads a watermark: where it comes from. *)
Lemma readings_read (w : world) (current : option datetime) (last : stamp) :
  result (readings STATUS_DOCUMENT_ID w) = Ok (current, Some last) ->
  current = update_date_of (python w) (next (web w)).1 /\
  exists mid,
    docs (final (readings STATUS_DOCUMENT_ID w)) !! STATUS_DOCUMENT_ID = Some mid /\
    watermark_of (python w) mid = Some last.
Proof.
  unfold readings.
  rewrite (bind_ok (update_status STATUS_DOCUMENT_ID "running") _ w tt)
    by apply update_status_result.
  destruct (update_status_frame "running" w) as [Hweb Hpy].
  set (w1 := final (update_status STATUS_DOCUMENT_ID "running" w)) in *.
  rewrite (bind_ok (send_telegram_message _) _ w1 tt)
    by by rewrite send_telegram_message_unfold.
  rewrite send_telegram_message_unfold. cbn [final emitted].
  set (w2 := set_bot_faults _ w1).
  rewrite (bind_ok (get_update_date MAIN_URL) _ w2 _)
    by (rewrite get_update_date_unfold; reflexivity).
  rewrite get_update_date_unfold. cbn [final emitted].
  set (w3 := set_web _ w2).
  destruct (get_last_update_date_cases STATUS_DOCUMENT_ID w3)
    as [(status_doc & Edoc & E4)|E4];
    rewrite (bind_ok (get_last_update_date STATUS_DOCUMENT_ID) _ w3 _)
      by (rewrite E4; reflexivity);
    rewrite E4; unfold ret, after; cbn [result final emitted];
    intros [= Hc Hwm].
  change (python w3) with (python w1) in Hwm.
  change (python w2) with (python w1) in Hc.
  change (web w2) with (web w1) in Hc.
  rewrite Hpy in Hwm. rewrite Hpy, Hweb in Hc.
  split; [done|]. by exists status_doc.
Qed.

Lemma readings_current (w : world) (current : option datetime) (last : option stamp) :
  result (readings STATUS_DOCUMENT_ID w) = Ok (current, last) ->
  current = update_date_of (python w) (next (web w)).1.
Proof.
  destruct (readings_shape STATUS_DOCUMENT_ID w) as (_ & _ & _ & l & _ & -> & _).
  by intros [= <- _].
Qed.

(** When the comparison says newer, the scraped date is the newer one. *)
Lemma is_newer_some (current : option datetime) (last : option stamp) (date : datetime) :
  is_newer current last = Ok (Some date) ->
  current = Some date /\
  match last with
  | Some (Naive earlier) => gt date earlier = true
  | Some Aware => False
  | None => True
  end.
Proof.
  unfold is_newer. destruct current as [c|]; [|done].
  destruct last as [[l|]|]; try done.
  - destruct (gt c l) eqn:E; [|done]. by intros [= ->].
  - by intros [= ->].
Qed.

(** What is left in the status document by the part of a run that finds a
    newer date, from the watermark write on. *)
Lemma newer_run_keeps (w : world) (date : datetime) (v : option pyval) :
  stored STATUS_DOCUMENT_ID v
    (final (set_last_update_date STATUS_DOCUMENT_ID date
              (final (send_telegram_message ("New update found: " +:+ str date) w)))) ->
  stored STATUS_DOCUMENT_ID v
    (final ((let! _ := send_telegram_message ("New update found: " +:+ str date) in
             let! _ := set_last_update_date STATUS_DOCUMENT_ID date in
             let! _ := ingest in
             finish STATUS_DOCUMENT_ID) w)).
Proof.
  intros H.
  set (msg := "New update found: " +:+ str date) in *.
  rewrite (bind_ok (send_telegram_message msg) _ w tt)
    by by rewrite send_telegram_message_unfold.
  rewrite final_after.
  rewrite (bind_ok (set_last_update_date STATUS_DOCUMENT_ID date) _ _ tt)
    by apply set_last_update_date_result.
  rewrite final_after. revert H.
  apply (preserves_bind (stored STATUS_DOCUMENT_ID v) ingest
           (fun _ => finish STATUS_DOCUMENT_ID));
    auto using stored_ingest, stored_finish.
Qed.

(** X15.  In a run of [main] that reads a watermark, the watermark of the
    status document after the run is the one that was read, or a date
    scraped in this run that is strictly later. *)
Theorem watermark_never_moves_back
    (w : world) (current : option datetime) (last : stamp) (new : dict) :
  result (readings STATUS_DOCUMENT_ID w) = Ok (current, Some last) ->
  docs (final (main STATUS_DOCUMENT_ID w)) !! STATUS_DOCUMENT_ID = Some new ->
  watermark_of (python w) new = Some last \/
  exists date earlier,
    last = Naive earlier /\
    current = Some date /\ gt date earlier = true /\
    watermark_of (python w) new = Some (Naive date).
Proof.
  intros Hr Hnew.
  destruct (readings_read w _ _ Hr) as (Hc & mid & Hmid & Hwm).
  destruct (is_newer current (Some last)) as [[date|]|e] eqn:En.
  - destruct (is_newer_some _ _ _ En) as [-> Hgt].
    destruct last as [earlier|]; [|done].
    rewrite (main_newer STATUS_DOCUMENT_ID w _ _ _ Hr En) in Hnew.
    rewrite final_after in Hnew.
    assert (Hkeep : forall v,
              stored STATUS_DOCUMENT_ID v
                (final (set_last_update_date STATUS_DOCUMENT_ID date
                   (final (send_telegram_message
                             ("New update found: " +:+ str date)
                             (final (readings STATUS_DOCUMENT_ID w)))))) ->
              new !! "last_update_date" = v).
    { intros v Hv. apply newer_run_keeps in Hv.
      destruct Hv as (doc & Hdoc & <-). congruence. }
    rewrite send_telegram_message_unfold in Hkeep. cbn [final] in Hkeep.
    destruct (stored_write_watermark date
                (set_bot_faults
                   (next (bot_faults (final (readings STATUS_DOCUMENT_ID w)))).2
                   (final (readings STATUS_DOCUMENT_ID w))) mid Hmid) as [H|H];
      apply Hkeep in H.
    + left. by rewrite (watermark_of_ext _ new mid).
    + right. exists date, earlier. split_and!; [done|done|done|].
      apply watermark_of_iso; [|done].
      symmetry in Hc. by apply Detection.update_date_of_valid in Hc.
  - left. rewrite (main_not_newer STATUS_DOCUMENT_ID w _ _ Hr En) in Hnew.
    destruct (nothing_new_tail STATUS_DOCUMENT_ID _ mid Hmid)
      as (new' & _ & _ & Hnew' & Hkeep & _).
    cbv zeta in Hnew'. rewrite final_after in Hnew.
    rewrite Hnew' in Hnew. injection Hnew as ->.
    rewrite <- Hwm. apply watermark_of_ext. by apply Hkeep.
  - left. rewrite (main_raises STATUS_DOCUMENT_ID w _ _ _ Hr En) in Hnew.
    cbn [final] in Hnew. rewrite Hmid in Hnew. by injection Hnew as ->.
Qed.

Lemma stored_write_watermark_ok (date : datetime) (w : world) (doc : dict) :
  docs w !! STATUS_DOCUMENT_ID = Some doc ->
  (next (store_faults w)).1 = false ->
  stored STATUS_DOCUMENT_ID (Some (VStr (isoformat date)))
    (final (set_last_update_date STATUS_DOCUMENT_ID date w)).
Proof.
  intros Hdoc Hf. rewrite set_last_update_date_unfold.
  unfold write_status_document. rewrite Hdoc.
  destruct (next (store_faults w)) as [f rest]; simpl in *. subst f.
  exists (watermark_data date ∪ doc). cbn [docs set_docs final].
  rewrite lookup_insert_eq. split; [done|].
  apply lookup_union_Some_l. unfold watermark_data. by simplify_map_eq.
Qed.

(** A run that finds a newer date and whose watermark write the store
    accepts leaves that date in the status document. *)
Lemma newer_run_stores
    (w : world) (current : option datetime) (last : option stamp)
    (date : datetime) (old : dict) :
  result (readings STATUS_DOCUMENT_ID w) = Ok (current, last) ->
  is_newer current last = Ok (Some date) ->
  docs w !! STATUS_DOCUMENT_ID = Some old ->
  (next (store_faults (final (readings STATUS_DOCUMENT_ID w)))).1 = false ->
  valid_datetime date = true /\
  exists new,
    docs (final (main STATUS_DOCUMENT_ID w)) !! STATUS_DOCUMENT_ID = Some new /\
    new !! "last_update_date" = Some (VStr (isoformat date)).
Proof.
  intros Hr En Hold Hf.
  destruct (is_newer_some _ _ _ En) as [Hc _].
  assert (Hv : valid_datetime date = true).
  { apply (Detection.update_date_of_valid (python w) (next (web w)).1).
    by rewrite <- (readings_current w _ _ Hr). }
  split; [done|].
  assert (Hmid : untouched STATUS_DOCUMENT_ID old
                   (final (readings STATUS_DOCUMENT_ID w))).
  { apply (preserves_readings STATUS_DOCUMENT_ID (untouched STATUS_DOCUMENT_ID old));
      auto.
    - intros status t w' Hw'. apply Collection.untouched_write; [|done].
      intros k H1 H2 _. unfold status_data. by simplify_map_eq.
    - by exists old. }
  destruct Hmid as (mid & Hmid & _).
  rewrite (main_newer STATUS_DOCUMENT_ID w _ _ _ Hr En). rewrite final_after.
  assert (Hend : stored STATUS_DOCUMENT_ID (Some (VStr (isoformat date)))
             (final (set_last_update_date STATUS_DOCUMENT_ID date
                (final (send_telegram_message
                          ("New update found: " +:+ str date)
                          (final (readings STATUS_DOCUMENT_ID w))))))).
  { rewrite send_telegram_message_unfold. cbn [final].
    by apply (stored_write_watermark_ok date _ mid). }
  apply newer_run_keeps in Hend.
  destruct Hend as (new & Hnew & Ha). by exists new.
Qed.

(** X16.  After a run of [main] that finds a newer date, on a collection
    with a status document and with the store accepting the watermark
    write, the status document holds that date: its [last_update_date] is
    the ISO text of the date, which [get_last_update_date] reads as that
    date, whatever happened to the downloads and the insertions
    afterwards. *)
Theorem recorded_watermark_is_read_back
    (w : world) (current : option datetime) (last : option stamp)
    (date : datetime) (old : dict) :
  result (readings STATUS_DOCUMENT_ID w) = Ok (current, last) ->
  is_newer current last = Ok (Some date) ->
  docs w !! STATUS_DOCUMENT_ID = Some old ->
  (next (store_faults (final (readings STATUS_DOCUMENT_ID w)))).1 = false ->
  exists new,
    docs (final (main STATUS_DOCUMENT_ID w)) !! STATUS_DOCUMENT_ID = Some new /\
    new !! "last_update_date" = Some (VStr (isoformat date)) /\
    watermark_of (python w) new = Some (Naive date).
Proof.
  intros Hr En Hold Hf.
  destruct (newer_run_stores w _ _ _ _ Hr En Hold Hf) as (Hv & new & Hnew & Ha).
  exists new. split_and!; [done|done|]. by apply watermark_of_iso.
Qed.

Lemma write_status_document_faults (data : dict) (w : world) :
  store_faults (final (write_status_document STATUS_DOCUMENT_ID data w)) =
  (next (store_faults w)).2.
Proof.
  unfold write_status_document.
  destruct (next (store_faults w)) as [[] rest];
    by destruct (docs w !! STATUS_DOCUMENT_ID).
Qed.

(** What the start of a run reads when the store answers the read. *)
Lemma readings_last (w : world) (old : dict) :
  docs w !! STATUS_DOCUMENT_ID = Some old ->
  (next (next (store_faults w)).2).1 = false ->
  result (readings STATUS_DOCUMENT_ID w) =
  Ok (update_date_of (python w) (next (web w)).1, watermark_of (python w) old).
Proof.
  intros Hold Hf. unfold readings.
  rewrite (bind_ok (update_status STATUS_DOCUMENT_ID "running") _ w tt)
    by apply update_status_result.
  rewrite (update_status_unfold STATUS_DOCUMENT_ID "running" w).
  set (data := status_data "running" (next (clock w)).1).
  set (w0 := set_clock _ w).
  destruct (write_status_document_frame STATUS_DOCUMENT_ID data w0)
    as (_ & Hdoc & _ & Hweb & _).
  pose proof (write_status_document_faults data w0) as Hfaults.
  pose proof (write_status_document_python STATUS_DOCUMENT_ID data w0) as Hpy.
  cbv zeta in Hweb, Hdoc.
  destruct (Hdoc old Hold) as (mid & Hmid & Hkeep & _).
  set (w1 := final (write_status_document STATUS_DOCUMENT_ID data w0)) in *.
  rewrite (bind_ok (send_telegram_message _) _ w1 tt)
    by by rewrite send_telegram_message_unfold.
  rewrite send_telegram_message_unfold. cbn [final emitted].
  set (w2 := set_bot_faults _ w1).
  rewrite (bind_ok (get_update_date MAIN_URL) _ w2 _)
    by (rewrite get_update_date_unfold; reflexivity).
  rewrite get_update_date_unfold. cbn [final emitted].
  set (w3 := set_web _ w2).
  assert (E : result (get_last_update_date STATUS_DOCUMENT_ID w3) =
              Ok (watermark_of (python w) old)).
  { rewrite get_last_update_date_unfold.
    change (store_faults w3) with (store_faults w1).
    change (docs w3) with (docs w1).
    change (python w3) with (python w1).
    rewrite Hfaults, Hmid, Hpy. change (store_faults w0) with (store_faults w).
    change (python w0) with (python w).
    destruct (next (next (store_faults w)).2) as [f rest]. simpl in Hf. subst f.
    simpl. f_equal. apply watermark_of_ext. apply Hkeep.
    unfold data. apply status_data_no_watermark. }
  rewrite (bind_ok (get_last_update_date STATUS_DOCUMENT_ID) _ w3 _ E).
  unfold ret, after. cbn [result].
  change (web w2) with (web w1). change (python w2) with (python w1).
  rewrite Hweb, Hpy. done.
Qed.

(** X17.  After such a run, a next run that scrapes the same date and whose
    read of the status document succeeds finds nothing new: it compares
    the date with itself, fetches the status page only, and creates no
    document. *)
Theorem rerun_finds_nothing_new
    (w w' : world) (current : option datetime) (last : option stamp)
    (date : datetime) (old : dict) :
  result (readings STATUS_DOCUMENT_ID w) = Ok (current, last) ->
  is_newer current last = Ok (Some date) ->
  docs w !! STATUS_DOCUMENT_ID = Some old ->
  (next (store_faults (final (readings STATUS_DOCUMENT_ID w)))).1 = false ->
  docs w' = docs (final (main STATUS_DOCUMENT_ID w)) ->
  update_date_of (python w') (next (web w')).1 = Some date ->
  (next (next (store_faults w')).2).1 = false ->
  result (readings STATUS_DOCUMENT_ID w') = Ok (Some date, Some (Naive date)) /\
  http_gets (emitted (main STATUS_DOCUMENT_ID w')) = [MAIN_URL] /\
  created (emitted (main STATUS_DOCUMENT_ID w')) = [].
Proof.
  intros Hr En Hold Hf Hdocs Hpage Hf'.
  destruct (newer_run_stores w _ _ _ _ Hr En Hold Hf) as (Hv & new & Hnew & Ha).
  rewrite <- Hdocs in Hnew.
  assert (Hr' : result (readings STATUS_DOCUMENT_ID w') =
                Ok (Some date, Some (Naive date))).
  { rewrite (readings_last w' new Hnew Hf').
    by rewrite Hpage, (watermark_of_iso _ date new). }
  split; [done|].
  rewrite (main_not_newer STATUS_DOCUMENT_ID w' _ _ Hr' (is_newer_same date)).
  destruct (readings_with_watermark STATUS_DOCUMENT_ID w' _ _ Hr')
    as (old' & mid & Hev & _ & Hmid & _).
  destruct (nothing_new_tail STATUS_DOCUMENT_ID _ mid Hmid)
    as (new' & Hev' & _).
  cbv zeta in Hev'. unfold after. cbn [emitted]. by rewrite Hev, Hev'.
Qed.

(** C8, as amended.  The status document holds a watermark and the store
    answers the read of it (the second store call of the run); the status
    page gives a date that is not later than that watermark (equal to it,
    in particular).  Then the run performs exactly seven operations: the
    status write to running and the start notification, the fetch of the
    status page, the read of the status document, the "No new updates"
    notification, the status write to idle and the end notification.  So it
    writes no watermark, does not fetch the page again for links, downloads
    nothing and creates no document, and it returns normally.  The
    collection is unchanged but for the [status] and [last_updated]
    attributes of the status document.  When the store accepts the last
    write (the third store call of the run), [status] is idle and
    [last_updated] the time of that write; when it refuses, [status] is
    what the first write left: running, or the old value when that write
    was refused too. *)
Theorem run_without_new_update
    (w : world) (old : dict) (text : string) (scraped watermark : datetime) :
  docs w !! STATUS_DOCUMENT_ID = Some old ->
  old !! "last_update_date" = Some (VStr text) ->
  fromisoformat (python w) text = Some (Naive watermark) ->
  answer 1 (store_faults w) = false ->
  update_date_of (python w) (answer 0 (web w)) = Some scraped ->
  gt scraped watermark = false ->
  exists new,
    emitted (main STATUS_DOCUMENT_ID w) =
      [ UpdateDocument STATUS_DOCUMENT_ID
          (status_data "running" (answer 0 (clock w)))
          (negb (answer 0 (store_faults w)));
        SendMessage "Script started running." (negb (answer 0 (bot_faults w)));
        HttpGet MAIN_URL;
        GetDocument STATUS_DOCUMENT_ID true;
        SendMessage ("No new updates as of " +:+ str (answer 1 (clock w)))
          (negb (answer 1 (bot_faults w)));
        UpdateDocument STATUS_DOCUMENT_ID
          (status_data "idle" (answer 2 (clock w)))
          (negb (answer 2 (store_faults w)));
        SendMessage "Script finished running." (negb (answer 2 (bot_faults w))) ] /\
    result (main STATUS_DOCUMENT_ID w) = Ok tt /\
    docs (final (main STATUS_DOCUMENT_ID w)) !! STATUS_DOCUMENT_ID = Some new /\
    (forall k, k <> "status" -> k <> "last_updated" -> new !! k = old !! k) /\
    (answer 2 (store_faults w) = false ->
     new !! "status" = Some (VStr "idle") /\
     new !! "last_updated" = Some (VStr (isoformat (answer 2 (clock w))))) /\
    (answer 2 (store_faults w) = true ->
     new !! "status" =
       if answer 0 (store_faults w) then old !! "status"
       else Some (VStr "running")) /\
    (forall id, id <> STATUS_DOCUMENT_ID ->
       docs (final (main STATUS_DOCUMENT_ID w)) !! id = docs w !! id).
Proof.
  intros Hold Htext Hiso Hread Hpage Hgt.
  assert (Hr : result (readings STATUS_DOCUMENT_ID w) =
               Ok (Some scraped, Some (Naive watermark))).
  { rewrite (readings_last w old Hold Hread).
    change (next (web w)).1 with (answer 0 (web w)). rewrite Hpage.
    unfold watermark_of. by rewrite Htext, Hiso. }
  destruct (nothing_new_run STATUS_DOCUMENT_ID w scraped watermark Hr Hgt)
    as (old' & new & Hev & Hres & Hold' & Hnew & Hrest).
  rewrite Hold in Hold'. injection Hold' as <-. by exists new.
Qed.

End Watermark.


(** ** The scenarios *)

Module Checks.

Import Ingestion UpdateDetector Scenario Cases.

(** *** The library functions on sample texts *)

Example strptime_samples :
  strptime_B_d_Y "January 5, 2024" = Some (midnight 2024 1 5) /\
  strptime_B_d_Y "FEBRUARY 29, 2024" = Some (midnight 2024 2 29) /\
  strptime_B_d_Y "May 05, 2001" = Some (midnight 2001 5 5) /\
  strptime_B_d_Y "May  5,  2001" = Some (midnight 2001 5 5) /\
  strptime_B_d_Y "May 31, 0001" = Some (midnight 1 5 31) /\
  strptime_B_d_Y "february 29, 2023" = None /\
  strptime_B_d_Y "May 32, 2001" = None /\
  strptime_B_d_Y "May 005, 2001" = None /\
  strptime_B_d_Y "May 0, 2001" = None /\
  strptime_B_d_Y "May 5, 0000" = None /\
  strptime_B_d_Y "May 5, 20011" = None /\
  strptime_B_d_Y "Mayx 5, 2001" = None.
Proof. by vm_compute. Qed.

Example date_pattern_samples :
  DatePattern.search "List updated as on January 5, 20245" =
    Some "January 5, 2024" /\
  DatePattern.search "a_1 22, 1234x" = Some "a_1 22, 1234" /\
  DatePattern.search "x 1, 123" = None.
Proof. by vm_compute. Qed.

Example text_samples :
  split "/" "/path/b.xlsx" = [""; "path"; "b.xlsx"] /\
  split "/" "a/" = ["a"; ""] /\
  split "/" "" = [""] /\
  isoformat (mk_datetime 2024 1 5 1 2 3 45) = "2024-01-05T01:02:03.000045" /\
  Calendar.str (midnight 2024 1 5) = "2024-01-05 00:00:00" /\
  py_str (VInt (-42)) = "-42".
Proof. by vm_compute. Qed.

(** The spellings [fromisoformat] is modelled on; the others are left to
    the libraries of the world. *)
Example isoformat_samples :
  parse_isoformat "2023-12-01" = Some (Naive (midnight 2023 12 1)) /\
  parse_isoformat "2024-01-05T00:00:00" = Some (Naive (midnight 2024 1 5)) /\
  parse_isoformat "2024-01-05 10" = Some (Naive (mk_datetime 2024 1 5 10 0 0 0)) /\
  parse_isoformat "2024-01-05T10:30" =
    Some (Naive (mk_datetime 2024 1 5 10 30 0 0)) /\
  parse_isoformat "2024-01-05T00:00:00.123" =
    Some (Naive (mk_datetime 2024 1 5 0 0 0 123000)) /\
  parse_isoformat "2024-01-05T00:00:00.000045" =
    Some (Naive (mk_datetime 2024 1 5 0 0 0 45)) /\
  parse_isoformat "2024-01-05T00:00:00.000+00:00" = Some Aware /\
  parse_isoformat "2024-01-05T00:00:00-05:30" = Some Aware /\
  parse_isoformat "2024-01-05T10:30+05:30:15" = Some Aware /\
  parse_isoformat "2024-01-05T00:00:00Z" = None /\
  parse_isoformat "20240105" = None /\
  parse_isoformat "2024-01-05T00:00:00.12" = None /\
  parse_isoformat "2024-02-30" = None /\
  parse_isoformat "2024-01-05T24:00:00" = None.
Proof. by vm_compute. Qed.

(** The runs of the scenarios ask the libraries nothing: they come out
    the same under every [library]. *)
Example scenarios_under_any_library (lib : library) :
  result (main STATUS (with_library lib december)) = result (main STATUS december) /\
  emitted (main STATUS (with_library lib december)) = emitted (main STATUS december) /\
  docs (final (main STATUS (with_library lib december))) =
    docs (final (main STATUS december)) /\
  result (main STATUS (with_library lib january)) = result (main STATUS january) /\
  emitted (main STATUS (with_library lib january)) = emitted (main STATUS january) /\
  docs (final (main STATUS (with_library lib january))) =
    docs (final (main STATUS january)) /\
  result (get_update_date MAIN_URL (with_library lib notice)) =
    result (get_update_date MAIN_URL notice) /\
  result (get_update_date MAIN_URL (with_library lib leap)) =
    result (get_update_date MAIN_URL leap).
Proof. split_and!; by vm_compute. Qed.

(** A page beyond ASCII is read as the libraries of the world read it. *)
Example indic_year_is_read :
  is_ascii indic_text = false /\
  result (get_update_date MAIN_URL indic) = Ok (Some (midnight 2024 1 5)).
Proof. by vm_compute. Qed.

(** A watermark with a UTC offset cannot be compared with the scraped
    date: the comparison of [main] raises [TypeError], outside any [try],
    and the run stops there, the status left at running. *)
Example offset_watermark_stops_the_run :
  result (readings STATUS offset) = Ok (Some (midnight 2024 1 5), Some Aware) /\
  result (main STATUS offset) = Raise TypeError /\
  emitted (main STATUS offset) = emitted (readings STATUS offset) /\
  (docs (final (main STATUS offset)) !! STATUS) ≫= (fun d => d !! "status") =
    Some (VStr "running").
Proof. by vm_compute. Qed.

(** C1, as stated, fails when a store call of the first run fails: the
    row is skipped by the first run and inserted by the second. *)
Lemma second_run_inserts_after_fault :
  (forall record, record ∈ one_row ->
     total "IFSC" (ifsc record) (docs flaky_store) = 0) /\
  result flaky_first = Ok 0 /\
  result flaky_second = Ok 1 /\
  ~ inserts_once one_row flaky_first flaky_second.
Proof.
  split_and!.
  - intros r [->|H]%elem_of_cons; [by vm_compute | inversion H].
  - by vm_compute.
  - by vm_compute.
  - intros (_ & _ & H & _). vm_compute in H. discriminate.
Qed.

(** The end-to-end scenario: the watermark moves to January 5, three
    documents are created, one download fails and the status ends idle. *)
Example end_to_end :
  let o := main STATUS december in
  length (created (emitted o)) = 3%nat /\
  size (docs (final o)) = 4%nat /\
  (docs (final o) !! STATUS) ≫= (fun d => d !! "last_update_date") =
    Some (VStr "2024-01-05T00:00:00") /\
  (docs (final o) !! STATUS) ≫= (fun d => d !! "status") = Some (VStr "idle") /\
  SendMessage
    "Failed to download file: https://rbidocs.rbi.org.in/rdocs/Content/DOCs/b.xlsx"
    true ∈ emitted o.
Proof.
  cbv zeta. split_and!; try by vm_compute.
  apply list_elem_of_In. vm_compute. tauto.
Qed.

(** *** The order of the watermark write *)

(** C2, as stated, fails: the run of the end-to-end scenario detects a
    newer update, writes the watermark and inserts the rows afterwards. *)
Lemma watermark_written_first_in_scenario :
  result (readings STATUS december) =
    Ok (Some (midnight 2024 1 5), Some (Naive (midnight 2023 12 1))) /\
  is_newer (Some (midnight 2024 1 5)) (Some (Naive (midnight 2023 12 1))) =
    Ok (Some (midnight 2024 1 5)) /\
  ~ watermark_written_last (emitted (main STATUS december)).
Proof.
  split_and!; [by vm_compute..|].
  unfold watermark_written_last. by vm_compute.
Qed.

Lemma watermark_written_before_ingestion_witness :
  exists delivered ok after,
    emitted (main STATUS december) =
      emitted (readings STATUS december) ++
      SendMessage ("New update found: " +:+ Calendar.str (midnight 2024 1 5))
        delivered ::
      UpdateDocument STATUS (watermark_data (midnight 2024 1 5)) ok :: after /\
    Forall (fun e => is_insert e = false) (emitted (readings STATUS december)) /\
    Forall (fun e => is_watermark_write e = false) after.
Proof.
  apply (watermark_written_before_ingestion STATUS december
           (Some (midnight 2024 1 5)) (Some (Naive (midnight 2023 12 1)))
           (midnight 2024 1 5)); vm_compute; reflexivity.
Defined.

(** *** A second run *)

(** C8, as stated, fails.  The scraped date equals the stored watermark
    in both worlds.  In [stuck] the store refuses the last status write,
    and the run ends with the status at running.  In [unread] the store
    refuses the read of the watermark: the run takes the date for new,
    writes the watermark, fetches the links and creates documents. *)
Lemma run_without_new_update_stuck :
  docs stuck = docs january /\ docs unread = docs january /\
  web stuck = web january /\ web unread = web january /\
  (docs january !! STATUS) ≫= (fun d => d !! "last_update_date") =
    Some (VStr (isoformat (midnight 2024 1 5))) /\
  update_date_of unasked (answer 0 (web january)) = Some (midnight 2024 1 5) /\
  created (emitted (main STATUS stuck)) = [] /\
  (docs (final (main STATUS stuck)) !! STATUS) ≫= (fun d => d !! "status") =
    Some (VStr "running") /\
  length (created (emitted (main STATUS unread))) = 3%nat /\
  http_gets (emitted (main STATUS unread)) <> [MAIN_URL] /\
  UpdateDocument STATUS (watermark_data (midnight 2024 1 5)) true ∈
    emitted (main STATUS unread).
Proof.
  split_and!; try by vm_compute.
  apply list_elem_of_In. vm_compute. tauto.
Qed.

Lemma run_without_new_update_witness :
  exists new,
    emitted (main STATUS january) =
      [ UpdateDocument STATUS
          (status_data "running" (answer 0 (clock january)))
          (negb (answer 0 (store_faults january)));
        SendMessage "Script started running."
          (negb (answer 0 (bot_faults january)));
        HttpGet MAIN_URL;
        GetDocument STATUS true;
        SendMessage
          ("No new updates as of " +:+ Calendar.str (answer 1 (clock january)))
          (negb (answer 1 (bot_faults january)));
        UpdateDocument STATUS
          (status_data "idle" (answer 2 (clock january)))
          (negb (answer 2 (store_faults january)));
        SendMessage "Script finished running."
          (negb (answer 2 (bot_faults january))) ] /\
    result (main STATUS january) = Ok tt /\
    docs (final (main STATUS january)) !! STATUS = Some new /\
    (forall k, k <> "status" -> k <> "last_updated" ->
       new !! k = status_document "2024-01-05T00:00:00" !! k) /\
    (answer 2 (store_faults january) = false ->
     new !! "status" = Some (VStr "idle") /\
     new !! "last_updated" =
       Some (VStr (isoformat (answer 2 (clock january))))) /\
    (answer 2 (store_faults january) = true ->
     new !! "status" =
       if answer 0 (store_faults january)
       then status_document "2024-01-05T00:00:00" !! "status"
       else Some (VStr "running")) /\
    (forall id, id <> STATUS ->
       docs (final (main STATUS january)) !! id = docs january !! id).
Proof.
  apply (run_without_new_update STATUS january
           (status_document "2024-01-05T00:00:00") "2024-01-05T00:00:00"
           (midnight 2024 1 5) (midnight 2024 1 5)); vm_compute; reflexivity.
Defined.

(** In the scenario the store accepts every call: the status ends idle. *)
Example second_run_ends_idle :
  (docs (final (main STATUS january)) !! STATUS) ≫= (fun d => d !! "status") =
    Some (VStr "idle") /\
  (docs (final (main STATUS january)) !! STATUS) ≫=
    (fun d => d !! "last_update_date") = Some (VStr "2024-01-05T00:00:00") /\
  created (emitted (main STATUS january)) = [] /\
  http_gets (emitted (main STATUS january)) = [MAIN_URL].
Proof. by vm_compute. Qed.

Lemma status_writes_are_disjoint_witness :
  docs january !! STATUS = Some (status_document "2024-01-05T00:00:00") /\
  (next (store_faults january)).1 = false /\
  exists new,
    docs (final (set_last_update_date STATUS (midnight 2024 2 1) january))
      !! STATUS = Some new /\
    new !! "status" = Some (VStr "idle").
Proof.
  split; [vm_compute; reflexivity|]. split; [reflexivity|].
  destruct (status_writes_are_disjoint STATUS january
              (status_document "2024-01-05T00:00:00") (midnight 2024 2 1) "running")
    as ((new & H1 & _ & H2 & _) & _); [vm_compute; reflexivity|reflexivity|].
  exists new. split; [exact H1|]. rewrite H2. vm_compute. reflexivity.
Defined.

Lemma second_run_inserts_nothing_witness :
  inserts_once batch
    (insert_into_appwrite batch january)
    (insert_into_appwrite batch
       (set_store_faults (always true)
          (final (insert_into_appwrite batch january)))).
Proof.
  apply (second_run_inserts_nothing batch january (always true)).
  - split; [constructor | reflexivity].
  - intros record H. apply list_elem_of_In in H. simpl in H.
    repeat (destruct H as [<-|H]; [vm_compute; reflexivity|]).
    destruct H.
Defined.

(** The rows have no [PHONE] column: the document created for the first
    holds the empty text for it, and the text of every other cell. *)
Lemma missing_fields_stored_as_empty_text_witness :
  exists record,
    record ∈ sheet /\
    docs (final (insert_into_appwrite sheet january)) !! "0" =
      Some (document_data (row "SBIN0000001" "SBI")) /\
    holds_fields_of record (document_data (row "SBIN0000001" "SBI")) /\
    dom (document_data (row "SBIN0000001" "SBI")) = list_to_set (map fst FIELDS).
Proof.
  apply (missing_fields_stored_as_empty_text sheet january "0"
           (document_data (row "SBIN0000001" "SBI"))).
  apply list_elem_of_In. vm_compute. tauto.
Defined.

(** The three documents of the scenario, attribute by attribute. *)
Example created_documents_in_full :
  created (emitted (insert_into_appwrite sheet january)) =
    [ ("0", document_data (row "SBIN0000001" "SBI"));
      ("1", document_data (row "SBIN0000002" "SBI"));
      ("2", document_data (row "HDFC0000001" "HDFC")) ] /\
  map (fun key => document_data (row "HDFC0000001" "HDFC") !! key)
    ["BANK"; "IFSC"; "BRANCH"; "ADDRESS"; "CITY1"; "CITY2"; "STATE";
     "STD_CODE"; "PHONE"] =
    map (fun text => Some (VStr text))
      ["HDFC"; "HDFC0000001"; ""; ""; ""; ""; ""; "22"; ""].
Proof. by vm_compute. Qed.

Example phone_is_empty_text :
  document_data (row "SBIN0000001" "SBI") !! "PHONE" = Some (VStr "") /\
  document_data (row "SBIN0000001" "SBI") !! "STD_CODE" = Some (VStr "22").
Proof. by vm_compute. Qed.

(** *** Reading the date *)

(** C3, as stated, fails: the page has the phrase for January 5, 2024
    and [get_update_date] returns March 12, 2023, the first text of the
    shape of a date in the node. *)
Lemma get_update_date_reads_earlier_date :
  has_update_phrase notice_page false 2024 1 5 /\
  valid_date 2024 1 5 = true /\
  result (get_update_date MAIN_URL notice) = Ok (Some (midnight 2023 3 12)) /\
  result (get_update_date MAIN_URL notice) <> Ok (Some (midnight 2024 1 5)).
Proof.
  split_and!.
  - exists "Circular of March 12, 2023: list updated as on January 5, 2024".
    split; [left|]. by exists "Circular of March 12, 2023: list ", "".
  - by vm_compute.
  - by vm_compute.
  - by vm_compute.
Qed.

Lemma get_update_date_reads_phrase_witness :
  result (get_update_date MAIN_URL december) = Ok (Some (midnight 2024 1 5)).
Proof.
  apply (get_update_date_reads_phrase MAIN_URL december 200
           (mk_body status_page None)
           ["Reserve Bank of India"] [] "List of branches " "" false 2024 1 5).
  - reflexivity.
  - reflexivity.
  - reflexivity.
  - intros t Ht. apply list_elem_of_In in Ht. simpl in Ht.
    destruct Ht as [<-|[]]. intros Hc. apply contains_spec in Hc.
    vm_compute in Hc. discriminate Hc.
  - reflexivity.
  - apply (no_digit_no_earlier_date ("List of branches " +:+ MARKER));
      vm_compute; reflexivity.
  - reflexivity.
Defined.

Lemma get_update_date_fails_soft_witness :
  result (get_update_date MAIN_URL leap) = Ok None.
Proof.
  apply (get_update_date_fails_soft MAIN_URL leap).
  apply (no_date_unparseable _ 200 (mk_body leap_page None) []
           "Data updated as on February 30, 2024" [] "February 30, 2024").
  - reflexivity.
  - intros t Ht. apply list_elem_of_In in Ht. destruct Ht.
  - by exists "Data ", " February 30, 2024".
  - reflexivity.
  - vm_compute. reflexivity.
  - vm_compute. reflexivity.
Defined.

End Checks.

(** ** Further scenarios, tried *)

Module Trials.

Import Scenario Cases.

Lemma failed_download_is_reported_witness :
  exists delivered1 delivered2,
    emitted (process_link "b.xlsx" flaky_store) =
      [ SendMessage "Processing file: b.xlsx" delivered1;
        HttpGet "b.xlsx";
        SendMessage "Failed to download file: b.xlsx" delivered2;
        Sleep 2 ] /\
    result (process_link "b.xlsx" flaky_store) = Ok tt /\
    docs (final (process_link "b.xlsx" flaky_store)) = docs flaky_store /\
    store_faults (final (process_link "b.xlsx" flaky_store)) =
      store_faults flaky_store.
Proof.
  apply (Files.failed_download_is_reported "b.xlsx" flaky_store).
  left. reflexivity.
Defined.

Lemma unreadable_file_adds_nothing_witness :
  exists delivered1 delivered2,
    emitted (process_link "b.xlsx" leap) =
      [ SendMessage "Processing file: b.xlsx" delivered1;
        HttpGet "b.xlsx";
        SendMessage "Completed processing b.xlsx. New records added: 0"
          delivered2;
        Sleep 2 ] /\
    result (process_link "b.xlsx" leap) = Ok tt /\
    docs (final (process_link "b.xlsx" leap)) = docs leap /\
    store_faults (final (process_link "b.xlsx" leap)) = store_faults leap.
Proof.
  apply (Files.unreadable_file_adds_nothing "b.xlsx" leap 200
           (mk_body leap_page None)); reflexivity.
Defined.

Lemma runs_keep_keys_unique_witness :
  unique_keys (docs (final (main STATUS december))) /\
  unique_keys (docs (final (run_scheduled_task STATUS december))).
Proof.
  apply (Collection.runs_keep_keys_unique STATUS december).
  intros k. etransitivity; [apply Collection.total_le_size|].
  vm_compute. lia.
Defined.

Lemma runs_keep_documents_witness :
  docs (final (main STATUS (final (main STATUS december)))) !! "0" =
  docs (final (main STATUS december)) !! "0".
Proof.
  destruct (Collection.runs_keep_documents STATUS (final (main STATUS december)))
    as [H _].
  destruct (H "0" (document_data (row "SBIN0000001" "SBI"))) as [H1 _].
  - vm_compute. congruence.
  - vm_compute. reflexivity.
  - rewrite H1. vm_compute. reflexivity.
Defined.

Lemma excel_links_name_spreadsheets_witness :
  exists name,
    BASE_URL +:+ "b.xlsx" = BASE_URL +:+ name /\
    free_of "/" name /\
    has_suffix ".xlsx" name.
Proof.
  apply (LinkNames.excel_links_name_spreadsheets MAIN_URL december
           [BASE_URL +:+ "a.xlsx"; BASE_URL +:+ "b.xlsx"]).
  - vm_compute. reflexivity.
  - apply list_elem_of_In. simpl. tauto.
Defined.

Lemma get_update_date_returns_what_the_page_says_witness :
  exists code content before text after,
    (next (web indic)).1 = Response code content /\
    error_status code = false /\
    strings (html content) = before ++ text :: after /\
    (forall t', t' ∈ before -> ~ has_substring "updated as on" t') /\
    has_substring "updated as on" text /\
    valid_date 2024 1 5 = true /\
    midnight 2024 1 5 = midnight 2024 1 5 /\
    if is_ascii text
    then exists date_str,
           DatePattern.search text = Some date_str /\
           has_substring date_str text /\
           strptime_B_d_Y date_str = Some (midnight 2024 1 5)
    else foreign_date (python indic) text = Some (2024, 1, 5)%Z.
Proof.
  apply (Detection.get_update_date_returns_what_the_page_says MAIN_URL indic
           (midnight 2024 1 5)).
  vm_compute. reflexivity.
Defined.

Lemma failed_status_write_changes_nothing_witness :
  result (update_status STATUS "running" refusing) = Ok tt /\
  docs (final (update_status STATUS "running" refusing)) = docs refusing /\
  result (set_last_update_date STATUS (midnight 2024 2 1) refusing) = Ok tt /\
  docs (final (set_last_update_date STATUS (midnight 2024 2 1) refusing)) =
    docs refusing.
Proof.
  apply (failed_status_write_changes_nothing STATUS refusing "running"
           (midnight 2024 2 1)).
  right. reflexivity.
Defined.

Lemma watermark_round_trip_witness :
  result
    (get_last_update_date STATUS
       (final (set_last_update_date STATUS (midnight 2024 2 1) january))) =
  Ok (Some (Naive (midnight 2024 2 1))).
Proof.
  apply (watermark_round_trip STATUS january
           (status_document "2024-01-05T00:00:00") (midnight 2024 2 1));
    vm_compute; reflexivity.
Defined.

Lemma watermark_never_moves_back_witness :
  exists new,
    docs (final (main STATUS december)) !! STATUS = Some new /\
    (watermark_of (python december) new = Some (Naive (midnight 2023 12 1)) \/
     exists date earlier,
       Naive (midnight 2023 12 1) = Naive earlier /\
       Some (midnight 2024 1 5) = Some date /\
       gt date earlier = true /\
       watermark_of (python december) new = Some (Naive date)).
Proof.
  exists {[ "status" := VStr "idle";
            "last_updated" := VStr "2024-01-06T10:30:00";
            "last_update_date" := VStr "2024-01-05T00:00:00" ]}.
  split; [vm_compute; reflexivity|].
  apply (watermark_never_moves_back STATUS december
           (Some (midnight 2024 1 5)) (Naive (midnight 2023 12 1)));
    vm_compute; reflexivity.
Defined.

Lemma recorded_watermark_is_read_back_witness :
  exists new,
    docs (final (main STATUS december)) !! STATUS = Some new /\
    new !! "last_update_date" = Some (VStr (isoformat (midnight 2024 1 5))) /\
    watermark_of (python december) new = Some (Naive (midnight 2024 1 5)).
Proof.
  apply (recorded_watermark_is_read_back STATUS december
           (Some (midnight 2024 1 5)) (Some (Naive (midnight 2023 12 1)))
           (midnight 2024 1 5) (status_document "2023-12-01T00:00:00"));
    vm_compute; reflexivity.
Defined.

Lemma rerun_finds_nothing_new_witness :
  result (readings STATUS after_december) =
    Ok (Some (midnight 2024 1 5), Some (Naive (midnight 2024 1 5))) /\
  http_gets (emitted (main STATUS after_december)) = [MAIN_URL] /\
  created (emitted (main STATUS after_december)) = [].
Proof.
  apply (rerun_finds_nothing_new STATUS december after_december
           (Some (midnight 2024 1 5)) (Some (Naive (midnight 2023 12 1)))
           (midnight 2024 1 5) (status_document "2023-12-01T00:00:00"));
    vm_compute; reflexivity.
Defined.

Lemma main_fetches_witness :
  http_gets (emitted (main STATUS december)) =
  match is_newer (Some (midnight 2024 1 5)) (Some (Naive (midnight 2023 12 1))) with
  | Ok (Some _) =>
      MAIN_URL :: MAIN_URL :: links_of (next (next (web december)).2).1
  | Ok None => [MAIN_URL]
  | Raise _ => [MAIN_URL]
  end.
Proof.
  apply (main_fetches STATUS december (Some (midnight 2024 1 5))
           (Some (Naive (midnight 2023 12 1)))).
  vm_compute. reflexivity.
Defined.

(** The second run of the scenario: the pages are fetched, nothing is
    downloaded twice into the collection. *)
Example rerun_example :
  http_gets (emitted (main STATUS december)) =
    [MAIN_URL; MAIN_URL; BASE_URL +:+ "a.xlsx"; BASE_URL +:+ "b.xlsx"] /\
  size (docs (final (main STATUS december))) = 4 /\
  size (docs (final (main STATUS after_december))) = 4.
Proof. by vm_compute. Qed.

End Trials.
